(** * Trail ribbons of the stylised-world scene: a shallow embedding

    The scene's moving sphere leaves ribbon trails.  Four components
    implement the same pattern (sample the position, keep a bounded
    time-stamped history, project spawn points, rebuild a triangle mesh):

    - [ProperRibbons]    (src/components/ProperRibbons.jsx, lines 1-251)
    - [OptimizedRibbons] (src/unnamed/part_000), the pooled-buffer variant
    - [SpeedTrails]      (src/components/SwarmControl.jsx, lines 41-296)
    - [SpeedRibbons]     (src/components/SpeedRibbons.jsx)

    Two more components are modelled for what surrounds the ribbons:
    [MovingSphere] (src/components/ProperRibbons.jsx, lines 251-490), whose
    mesh the pooled variant follows, and [SwarmControl]
    (src/components/SwarmControl.jsx, lines 1-41) with the part of [App]
    (src/unnamed/part_001) that owns its state.

    JavaScript numbers are idealised as real numbers: every arithmetic
    operation is exact, [Math.sqrt], [Math.cos], [Math.sin], [Math.max] and
    [Math.min] are the functions of the real line, and the rounding of a
    [Float32Array] is ignored.  No division by zero is reachable in the
    functions below: [divideScalar(delta)] is guarded by [delta > 0],
    [normalize] divides by [length() || 1], the lifetimes and ribbon counts
    are positive constants, and [progress = i / (length - 1)] is computed
    on paths of at least two points only.

    Clock readings ([Date.now()], [performance.now()]) are inputs of the
    functions that perform them, one input per call site.  The module
    constants of each component are collected in a [Config] record, whose
    value in the source is [config].  The module-level scratch objects
    ([tempVector3] and the like) are written before they are read in every
    function and are not part of the state; debug logging and
    [computeVertexNormals], [computeBoundingBox], [dispose] have no effect
    on what is modelled. *)

From Stdlib Require Import Reals Lra Lia List ZArith Bool Arith.
From Stdlib Require String.
Import ListNotations.
Open Scope R_scope.

(** ** The part of three.js the components use

    [Vector3], [Color] and [MathUtils.lerp] follow the library's source:
    [normalize] is [divideScalar (length () || 1)], [divideScalar s] is
    [multiplyScalar (1 / s)], [distanceTo] is the square root of
    [distanceToSquared]. *)
Module THREE.

Record Vector3 : Type := Vec3 { x : R; y : R; z : R }.

Record Color : Type := RGB { r : R; g : R; b : R }.

(** [new THREE.Vector3()] *)
Definition zero : Vector3 := Vec3 0 0 0.

(** [a || b] on numbers: [0] is falsy. *)
Definition or_else (a b : R) : R := if Req_dec_T a 0 then b else a.

Definition lengthSq (v : Vector3) : R := x v * x v + y v * y v + z v * z v.

Definition length (v : Vector3) : R := sqrt (lengthSq v).

Definition add (a b : Vector3) : Vector3 := Vec3 (x a + x b) (y a + y b) (z a + z b).

Definition sub (a b : Vector3) : Vector3 := Vec3 (x a - x b) (y a - y b) (z a - z b).

(** [target.subVectors(a, b)] sets the target to [a - b]. *)
Definition subVectors (a b : Vector3) : Vector3 := sub a b.

Definition multiplyScalar (v : Vector3) (s : R) : Vector3 := Vec3 (x v * s) (y v * s) (z v * s).

Definition divideScalar (v : Vector3) (s : R) : Vector3 := multiplyScalar v (1 / s).

Definition negate (v : Vector3) : Vector3 := Vec3 (- x v) (- y v) (- z v).

Definition normalize (v : Vector3) : Vector3 := divideScalar v (or_else (length v) 1).

Definition crossVectors (a b : Vector3) : Vector3 :=
  Vec3 (y a * z b - z a * y b) (z a * x b - x a * z b) (x a * y b - y a * x b).

Definition distanceToSquared (a b : Vector3) : R :=
  let dx := x a - x b in
  let dy := y a - y b in
  let dz := z a - z b in
  dx * dx + dy * dy + dz * dz.

Definition distanceTo (a b : Vector3) : R := sqrt (distanceToSquared a b).

Definition scaleColor (c : Color) (s : R) : Color := RGB (r c * s) (g c * s) (b c * s).

(** [THREE.MathUtils.lerp] *)
Definition lerp (a b t : R) : R := (1 - t) * a + t * b.

(** The world "up" axis, [new THREE.Vector3(0, 1, 0)]. *)
Definition up : Vector3 := Vec3 0 1 0.

End THREE.

Abbreviation Vector3 := THREE.Vector3.
Abbreviation Vec3 := THREE.Vec3.
Abbreviation Color := THREE.Color.

(** ** Decisions on numbers, as booleans *)

Definition Rltb (a b : R) : bool := if Rlt_dec a b then true else false.
Definition Rleb (a b : R) : bool := if Rle_dec a b then true else false.

Lemma Rltb_true (a b : R) : Rltb a b = true <-> a < b.
Proof. unfold Rltb; destruct (Rlt_dec a b); split; (congruence || tauto). Qed.

Lemma Rltb_false (a b : R) : Rltb a b = false <-> b <= a.
Proof. unfold Rltb; destruct (Rlt_dec a b); split; intros; (congruence || lra). Qed.

Lemma Rleb_true (a b : R) : Rleb a b = true <-> a <= b.
Proof. unfold Rleb; destruct (Rle_dec a b); split; (congruence || tauto). Qed.

Lemma Rleb_false (a b : R) : Rleb a b = false <-> b < a.
Proof. unfold Rleb; destruct (Rle_dec a b); split; intros; (congruence || lra). Qed.

(** ** Helpers for arrays *)

(** [Array.prototype.forEach((e, i) => ...)] used to rebuild every slot. *)
Fixpoint mapi_from {A B : Type} (k : nat) (f : nat -> A -> B) (l : list A) : list B :=
  match l with
  | [] => []
  | a :: l' => f k a :: mapi_from (S k) f l'
  end.

Definition mapi {A B : Type} (f : nat -> A -> B) (l : list A) : list B := mapi_from 0 f l.

Lemma nth_error_mapi_from {A B : Type} (f : nat -> A -> B) (l : list A) : forall k i,
  nth_error (mapi_from k f l) i = option_map (f (k + i)%nat) (nth_error l i).
Proof.
  induction l as [|a l IH]; intros k i; destruct i as [|i]; cbn [mapi_from nth_error option_map];
    try reflexivity.
  - now rewrite Nat.add_0_r.
  - rewrite IH. now replace (S k + i)%nat with (k + S i)%nat by lia.
Qed.

Lemma nth_error_mapi {A B : Type} (f : nat -> A -> B) (l : list A) (i : nat) :
  nth_error (mapi f l) i = option_map (f i) (nth_error l i).
Proof. unfold mapi. apply nth_error_mapi_from. Qed.

(** What the trail buffers are to satisfy, for any type of sample with a
    timestamp. *)
Section TrailInvariant.

Context {P : Type} (stamp : P -> R).

(** The front of the buffer is its newest sample: a sample's timestamp is
    at least that of every sample behind it, that is, of every sample
    inserted before it. *)
Fixpoint newest_first (l : list P) : Prop :=
  match l with
  | [] => True
  | p :: rest => Forall (fun q => stamp q <= stamp p) rest /\ newest_first rest
  end.

(** Every sample is younger than [lifetime] at time [now]. *)
Definition fresh (lifetime now : R) (l : list P) : Prop :=
  Forall (fun p => now - stamp p < lifetime) l.

(** No sample is stamped after [now]. *)
Definition not_after (now : R) (l : list P) : Prop :=
  Forall (fun p => stamp p <= now) l.

Definition trail_invariant (max : nat) (lifetime now : R) (l : list P) : Prop :=
  (List.length l <= max)%nat /\ fresh lifetime now l /\ newest_first l.

End TrailInvariant.

(** ** Recording which vectors are normalised

    A writer monad: the value of a computation together with the arguments
    of the [normalize] calls it made, in order. *)
Module Traced.

Definition M (A : Type) : Type := (A * list Vector3)%type.

Definition ret {A : Type} (a : A) : M A := (a, []).

Definition bind {A B : Type} (m : M A) (k : A -> M B) : M B :=
  let (a, l1) := m in let (b0, l2) := k a in (b0, l1 ++ l2).

Definition normalize (v : Vector3) : M Vector3 := (THREE.normalize v, [v]).

Definition value {A : Type} (m : M A) : A := fst m.

Definition normalized {A : Type} (m : M A) : list Vector3 := snd m.

End Traced.

Notation "x <- c1 ;; c2" := (Traced.bind c1 (fun x => c2))
  (at level 61, c1 at next level, right associativity).

(** ** Data model *)

(** A sample of the moving point: [{ position, velocity, timestamp }]. *)
Record TrailPoint : Type := mkTrailPoint {
  position : Vector3;
  velocity : Vector3;
  timestamp : R
}.

(** A point of one ribbon's path: [{ position, timestamp }], with the
    [velocity] SpeedTrails also keeps (ProperRibbons copies the sample's
    velocity there and never reads it). *)
Record PathPoint : Type := mkPathPoint {
  path_position : Vector3;
  path_timestamp : R;
  path_velocity : Vector3
}.

(** The attributes of a [THREE.BufferGeometry] the components write: the flat
    [position] and [color] arrays (three numbers per vertex) and the triangle
    index list.  Indices are integers: nothing in the arrays' type keeps
    them in range. *)
Record BufferGeometry : Type := mkGeometry {
  positions : list R;
  colors : list R;
  indices : list Z
}.

(** [new THREE.BufferGeometry()] *)
Definition emptyGeometry : BufferGeometry := mkGeometry [] [] [].

(** Number of vertices of a geometry: [positions.length / 3]. *)
Definition vertexCountOf (g : BufferGeometry) : nat := (List.length (positions g) / 3)%nat.

(** Every triangle index refers to an emitted vertex. *)
Definition indices_in_range (g : BufferGeometry) : Prop :=
  Forall (fun k => (0 <= k < Z.of_nat (vertexCountOf g))%Z) (indices g).

(** [array.push(v.x, v.y, v.z)] *)
Definition push3 (l : list R) (v : Vector3) : list R := l ++ [THREE.x v; THREE.y v; THREE.z v].

Definition pushColor (l : list R) (c : Color) : list R := l ++ [THREE.r c; THREE.g c; THREE.b c].

(** The clock readings of one frame: the [Date.now()] of the recorded
    sample, the one of the pruning pass, and the ones read while ribbon
    [k] is rebuilt, at loop iteration [i]. *)
Record Clock : Type := mkClock {
  t_record : R;
  t_prune : R;
  t_build : nat -> nat -> R
}.

(** * ProperRibbons (src/components/ProperRibbons.jsx) *)
Module ProperRibbons.

(** The module's constants. *)
Record Config : Type := mkConfig {
  RIBBON_COUNT : nat;
  MAX_TRAIL_LENGTH : nat;
  RIBBON_WIDTH : R;
  MOVEMENT_THRESHOLD : R;
  TRAIL_LIFETIME : R
}.

(** Their values in the source. *)
Definition config : Config :=
  {| RIBBON_COUNT := 6;
     MAX_TRAIL_LENGTH := 15;
     RIBBON_WIDTH := 0.2;
     MOVEMENT_THRESHOLD := 0.02;
     TRAIL_LIFETIME := 3000 |}.

(** The component's refs.  A mesh slot is [None] until React attaches it. *)
Record State : Type := mkState {
  trailHistory : list TrailPoint;
  lastPosition : Vector3;
  lastVelocity : Vector3;
  ribbonMeshes : list (option BufferGeometry)
}.

Section Component.

Variable cfg : Config.

(** [ribbonMaterials[i].color], set once with [setHSL]. *)
Variable materialColor : nat -> Color.

Definition initialState : State :=
  mkState [] THREE.zero THREE.zero (repeat (Some emptyGeometry) (RIBBON_COUNT cfg)).

(** The effect "Initialize trail", run with the current [spherePosition]. *)
Definition initializeTrail (spherePosition : option Vector3) (now : R) (st : State) : State :=
  match spherePosition with
  | Some sp =>
      if (List.length (trailHistory st) =? 0)%nat
      then mkState (trailHistory st ++ [mkTrailPoint sp THREE.zero now])
                   sp (lastVelocity st) (ribbonMeshes st)
      else st
  | None => st
  end.

(** [getBackSpawnPoints(position, velocity)], with the vectors it normalises. *)
Definition getBackSpawnPoints (pos vel : Vector3) : Traced.M (list Vector3) :=
  backDirection <-
    (if Rgt_dec (THREE.length vel) 0.001
     then n <- Traced.normalize vel ;; Traced.ret (THREE.negate n)
     else Traced.ret (Vec3 0 0 (-1))) ;;
  rightVector <- Traced.normalize (THREE.crossVectors backDirection THREE.up) ;;
  upVector <- Traced.normalize (THREE.crossVectors rightVector backDirection) ;;
  Traced.ret
    (map (fun i : nat =>
            let angle := INR i / INR (RIBBON_COUNT cfg) * PI * 2 in
            let radius := 1.1 in
            let offset :=
              THREE.add (THREE.multiplyScalar rightVector (cos angle * radius * 0.7))
                        (THREE.multiplyScalar upVector (sin angle * radius * 0.4)) in
            THREE.add (THREE.add pos (THREE.multiplyScalar backDirection (radius * 0.8))) offset)
         (seq 0 (RIBBON_COUNT cfg))).

(** "Build the path for this specific ribbon". *)
Definition ribbonPath (trail : list TrailPoint) (ribbonIndex : nat) : list PathPoint :=
  flat_map (fun tp =>
              match nth_error (Traced.value (getBackSpawnPoints (position tp) (velocity tp))) ribbonIndex with
              | Some p => [mkPathPoint p (timestamp tp) (velocity tp)]
              | None => []
              end) trail.

Definition pathAt (path : list PathPoint) (i : nat) : PathPoint :=
  nth i path (mkPathPoint THREE.zero 0 THREE.zero).

Definition progressOf (path : list PathPoint) (i : nat) : R :=
  INR i / (INR (List.length path) - 1).

Definition ageFadeOf (now : R) (pt : PathPoint) : R :=
  Rmax 0 (1 - (now - path_timestamp pt) / TRAIL_LIFETIME cfg).

Definition positionFadeOf (path : list PathPoint) (i : nat) : R :=
  Rmax 0.1 (1 - progressOf path i * 0.8).

(** [alpha = ageFade * positionFade] of path point [i], the clock read at [now]. *)
Definition alphaOf (path : list PathPoint) (now : R) (i : nat) : R :=
  ageFadeOf now (pathAt path i) * positionFadeOf path i.

(** Direction of the ribbon at path point [i]. *)
Definition directionAt (path : list PathPoint) (i : nat) : Vector3 :=
  if (i <? List.length path - 1)%nat
  then THREE.normalize (THREE.subVectors (path_position (pathAt path (i + 1)))
                                         (path_position (pathAt path i)))
  else if (0 <? i)%nat
  then THREE.normalize (THREE.subVectors (path_position (pathAt path i))
                                         (path_position (pathAt path (i - 1))))
  else Vec3 0 0 1.

(** The width vector at path point [i], tapered with progress. *)
Definition widthAt (path : list PathPoint) (i : nat) : Vector3 :=
  THREE.multiplyScalar
    (THREE.normalize (THREE.crossVectors (directionAt path i) THREE.up))
    (RIBBON_WIDTH cfg * 0.5 * (1 - progressOf path i * 0.3)).

(** One iteration of "Create ribbon mesh from path". *)
Definition pathStep (path : list PathPoint) (now : nat -> R) (color : Color)
    (acc : BufferGeometry) (i : nat) : BufferGeometry :=
  let pathPoint := pathAt path i in
  let alpha := alphaOf path (now i) i in
  if Rlt_dec alpha 0.01 then acc
  else
    let width := widthAt path i in
    let leftEdge := THREE.sub (path_position pathPoint) width in
    let rightEdge := THREE.add (path_position pathPoint) width in
    let vertIndex := Z.of_nat (List.length (positions acc) / 3) in
    let positions' := push3 (push3 (positions acc) leftEdge) rightEdge in
    let c := THREE.scaleColor color alpha in
    let colors' := pushColor (pushColor (colors acc) c) c in
    let indices' :=
      if (0 <? i)%nat
      then let prevIndex := (vertIndex - 2)%Z in
           indices acc ++ [prevIndex; prevIndex + 1; vertIndex;
                           prevIndex + 1; vertIndex + 1; vertIndex]%Z
      else indices acc in
    mkGeometry positions' colors' indices'.

(** The arrays built for one ribbon from its path. *)
Definition buildRibbon (path : list PathPoint) (now : nat -> R) (color : Color) : BufferGeometry :=
  fold_left (pathStep path now color) (seq 0 (List.length path)) emptyGeometry.

(** [updateRibbons()]: [now k i] is the clock read for ribbon [k] at
    iteration [i]. *)
Definition updateRibbons (now : nat -> nat -> R) (st : State) : State :=
  let trail := trailHistory st in
  if (List.length trail <? 2)%nat then st
  else
    mkState trail (lastPosition st) (lastVelocity st)
      (mapi (fun ribbonIndex mesh =>
               match mesh with
               | None => None
               | Some old =>
                   let built := buildRibbon (ribbonPath trail ribbonIndex) (now ribbonIndex)
                                            (materialColor ribbonIndex) in
                   if (0 <? List.length (positions built))%nat then Some built else Some old
               end)
            (ribbonMeshes st)).

(** The first half of the frame callback: the sample is recorded when the
    sphere moved more than the threshold. *)
Definition record (spherePosition : Vector3) (delta now : R) (st : State) : State :=
  let distance := THREE.distanceTo spherePosition (lastPosition st) in
  if Rgt_dec distance (MOVEMENT_THRESHOLD cfg) then
    let vel :=
      if Rgt_dec delta 0
      then THREE.divideScalar (THREE.subVectors spherePosition (lastPosition st)) delta
      else THREE.zero in
    let trail := mkTrailPoint spherePosition vel now :: trailHistory st in
    let trail' :=
      if (MAX_TRAIL_LENGTH cfg <? List.length trail)%nat
      then firstn (MAX_TRAIL_LENGTH cfg) trail else trail in
    mkState trail' spherePosition vel (ribbonMeshes st)
  else st.

(** "Clean old trail points". *)
Definition prune (currentTime : R) (st : State) : State :=
  mkState (filter (fun point => Rltb (currentTime - timestamp point) (TRAIL_LIFETIME cfg))
                  (trailHistory st))
          (lastPosition st) (lastVelocity st) (ribbonMeshes st).

(** The [useFrame] callback. *)
Definition useFrame (enabled : bool) (spherePosition : option Vector3) (delta : R)
    (clk : Clock) (st : State) : State :=
  if negb enabled then st
  else match spherePosition with
       | None => st
       | Some sp =>
           let st1 := record sp delta (t_record clk) st in
           let st2 := prune (t_prune clk) st1 in
           if (2 <=? List.length (trailHistory st2))%nat
           then updateRibbons (t_build clk) st2
           else st2
       end.

(** The effect "Clear when disabled", run when [enabled] changes. *)
Definition clearWhenDisabled (enabled : bool) (st : State) : State :=
  if negb enabled
  then mkState [] (lastPosition st) (lastVelocity st)
               (map (fun mesh => match mesh with
                                 | Some _ => Some emptyGeometry
                                 | None => None
                                 end) (ribbonMeshes st))
  else st.

End Component.

End ProperRibbons.

(** ** The part of [Math] and of typed arrays the pooled variant uses *)
Module Math.

(** [Math.atan2(y, x)] *)
Definition atan2 (y x : R) : R :=
  if Rlt_dec 0 x then atan (y / x)
  else if Rlt_dec x 0 then (if Rle_dec 0 y then atan (y / x) + PI else atan (y / x) - PI)
  else if Rlt_dec 0 y then PI / 2
  else if Rlt_dec y 0 then - PI / 2
  else 0.

End Math.

(** [array[i] = v] on a typed array: a write past the end is ignored. *)
Fixpoint store {A : Type} (i : nat) (v : A) (l : list A) : list A :=
  match l, i with
  | [], _ => []
  | _ :: l', O => v :: l'
  | a :: l', S i' => a :: store i' v l'
  end.

(** [array.subarray(0, n)]: the end is clamped to the array's length. *)
Definition subarray {A : Type} (n : nat) (l : list A) : list A := firstn n l.

(** [array.set(src)], for a source no longer than the array. *)
Definition array_set {A : Type} (src l : list A) : list A :=
  firstn (List.length l) (src ++ skipn (List.length src) l).

(** [store] of the three components of a vertex at vertex slot [k]. *)
Definition store3 (k : nat) (a b c : R) (l : list R) : list R :=
  store (k * 3 + 2) c (store (k * 3 + 1) b (store (k * 3) a l)).

(** * OptimizedRibbons (src/unnamed/part_000), the pooled-buffer variant *)
Module OptimizedRibbons.

Record Config : Type := mkConfig {
  MAX_TRAIL_POINTS : nat;
  RIBBON_WIDTH : R;
  SPAWN_DISTANCE : R;
  TRAIL_LIFETIME : R;
  MOVEMENT_THRESHOLD : R;
  UPDATE_FREQUENCY : nat
}.

Definition config : Config :=
  {| MAX_TRAIL_POINTS := 20;
     RIBBON_WIDTH := 0.25;
     SPAWN_DISTANCE := 0.8;
     TRAIL_LIFETIME := 3500;
     MOVEMENT_THRESHOLD := 0.03;
     UPDATE_FREQUENCY := 3 |}.

(** "Four corner ribbons". *)
Definition RIBBON_COUNT : nat := 4.

(** The [mode] property. *)
Inductive Mode : Type := off | basic | speed | both.

Definition is_off (m : Mode) : bool := match m with off => true | _ => false end.

(** The pre-allocated scratch arrays [geometryBuffers]. *)
Record Buffers : Type := mkBuffers {
  buf_positions : list R;
  buf_colors : list R;
  buf_indices : list nat
}.

(** A pooled geometry: fixed-size attribute arrays and the draw range's
    count ([None] is the initial [Infinity]). *)
Record PooledGeometry : Type := mkPooled {
  attr_position : list R;
  attr_color : list R;
  attr_index : list nat;
  drawCount : option nat
}.

Record State : Type := mkState {
  trailHistory : list TrailPoint;
  lastPosition : Vector3;
  lastVelocity : Vector3;
  frameCounter : nat;
  isInitialized : bool;
  geometryBuffers : Buffers;
  ribbonGeometries : list PooledGeometry
}.

(** [spawnAngles]: angle and height of the four corners. *)
Definition spawnAngles : list (R * R) :=
  [ (PI * 1.2, 0.2); (PI * 0.8, 0.2); (PI * 0.8, -0.15); (PI * 1.2, -0.15) ].

(** [ribbonMaterials[i].color]: warm off-white with a small variation. *)
Definition materialColor (i : nat) : Color :=
  let variation := INR i / INR RIBBON_COUNT * 0.05 in
  THREE.RGB (0.95 + variation * 0.02) (0.93 + variation * 0.01) (0.88 - variation * 0.01).

Section Component.

Variable cfg : Config.

Definition capacity3 : nat := (MAX_TRAIL_POINTS cfg * 6 * 3)%nat.
Definition capacityIdx : nat := (MAX_TRAIL_POINTS cfg * 6)%nat.

Definition freshBuffers : Buffers :=
  mkBuffers (repeat 0 capacity3) (repeat 0 capacity3) (repeat 0%nat capacityIdx).

Definition freshGeometry : PooledGeometry :=
  mkPooled (repeat 0 capacity3) (repeat 0 capacity3) (repeat 0%nat capacityIdx) None.

Definition initialState : State :=
  mkState [] THREE.zero THREE.zero 0 false freshBuffers (repeat freshGeometry RIBBON_COUNT).

(** [updateTrailHistory(newPosition, delta)]: the new state and the
    returned flag. *)
Definition updateTrailHistory (newPosition : Vector3) (delta now : R) (st : State)
    : State * bool :=
  let distance := THREE.distanceTo newPosition (lastPosition st) in
  if Rlt_dec distance (MOVEMENT_THRESHOLD cfg) then (st, false)
  else
    let d := THREE.subVectors newPosition (lastPosition st) in
    let vel := if Rgt_dec delta 0 then THREE.divideScalar d delta else d in
    let trail := mkTrailPoint newPosition vel now :: trailHistory st in
    let trail' :=
      if (MAX_TRAIL_POINTS cfg <? List.length trail)%nat
      then firstn (MAX_TRAIL_POINTS cfg) trail else trail in
    (mkState trail' newPosition vel (frameCounter st) (isInitialized st)
             (geometryBuffers st) (ribbonGeometries st), true).

(** [calculateSpawnOffset(velocity, ribbonIndex)] *)
Definition calculateSpawnOffset (vel : Vector3) (ribbonIndex : nat) : Vector3 :=
  let corner := nth ribbonIndex spawnAngles (0, 0) in
  let angle := fst corner in
  let height := snd corner in
  let spawnDistance := SPAWN_DISTANCE cfg in
  let velocityLength := THREE.length vel in
  let velocityStrength := Rmin (velocityLength / 0.1) 1 in
  let staticX := cos angle * spawnDistance in
  let staticZ := sin angle * spawnDistance in
  if Rgt_dec velocityLength 0.001 then
    let velNorm := THREE.normalize vel in
    let movementYaw := Math.atan2 (THREE.x velNorm) (THREE.z velNorm) in
    let localX := cos angle * spawnDistance in
    let localZ := sin angle * spawnDistance in
    let rotatedX := localX * cos movementYaw - localZ * sin movementYaw in
    let rotatedZ := localX * sin movementYaw + localZ * cos movementYaw in
    let finalX := THREE.lerp staticX rotatedX velocityStrength in
    let finalZ := THREE.lerp staticZ rotatedZ velocityStrength in
    Vec3 finalX height finalZ
  else Vec3 staticX height staticZ.

Definition trailAt (trail : list TrailPoint) (i : nat) : TrailPoint :=
  nth i trail (mkTrailPoint THREE.zero THREE.zero 0).

Definition ageFadeOf (currentTime : R) (point : TrailPoint) : R :=
  Rmax 0 (1 - (currentTime - timestamp point) / TRAIL_LIFETIME cfg).

Definition progressOf (trail : list TrailPoint) (i : nat) : R :=
  INR i / (INR (List.length trail) - 1).

Definition positionFadeOf (trail : list TrailPoint) (i : nat) : R :=
  Rmax 0.1 (1 - progressOf trail i * 0.8).

(** [alpha = ageFade * positionFade * 0.8] of segment [i]. *)
Definition alphaOf (trail : list TrailPoint) (currentTime : R) (i : nat) : R :=
  ageFadeOf currentTime (trailAt trail i) * positionFadeOf trail i * 0.8.

(** Ribbon centre of trail point [i]: its position plus its spawn offset. *)
Definition centerAt (trail : list TrailPoint) (ribbonIndex i : nat) : Vector3 :=
  THREE.add (position (trailAt trail i))
            (calculateSpawnOffset (velocity (trailAt trail i)) ribbonIndex).

(** Normalised direction from centre [i] to centre [i + 1]. *)
Definition directionAt (trail : list TrailPoint) (ribbonIndex i : nat) : Vector3 :=
  THREE.normalize (THREE.subVectors (centerAt trail ribbonIndex (i + 1))
                                    (centerAt trail ribbonIndex i)).

(** Half width of segment [i], tapered with progress. *)
Definition halfWidthAt (trail : list TrailPoint) (i : nat) : R :=
  RIBBON_WIDTH cfg * 0.5 * (1 - progressOf trail i * 0.3).

(** The loop's variables: the scratch arrays and the two counters. *)
Record Loop : Type := mkLoop {
  bufs : Buffers;
  vertexCount : nat;
  indexCount : nat
}.

(** One iteration of "Build ribbon geometry efficiently". *)
Definition segmentStep (trail : list TrailPoint) (ribbonIndex : nat) (currentTime : R)
    (acc : Loop) (i : nat) : Loop :=
  let point := trailAt trail i in
  let ageFade := ageFadeOf currentTime point in
  if Rle_dec ageFade 0.01 then acc
  else
    let alpha := alphaOf trail currentTime i in
    let c1 := centerAt trail ribbonIndex i in
    let c2 := centerAt trail ribbonIndex (i + 1) in
    let dir := directionAt trail ribbonIndex i in
    let width := halfWidthAt trail i in
    let widthX := THREE.z dir * width in
    let widthZ := - THREE.x dir * width in
    let vc := vertexCount acc in
    let ic := indexCount acc in
    let baseIndex := vc in
    let ps := buf_positions (bufs acc) in
    let ps := store3 vc (THREE.x c1 - widthX) (THREE.y c1) (THREE.z c1 - widthZ) ps in
    let ps := store3 (vc + 1) (THREE.x c1 + widthX) (THREE.y c1) (THREE.z c1 + widthZ) ps in
    let ps := store3 (vc + 2) (THREE.x c2 - widthX) (THREE.y c2) (THREE.z c2 - widthZ) ps in
    let ps := store3 (vc + 3) (THREE.x c2 + widthX) (THREE.y c2) (THREE.z c2 + widthZ) ps in
    let tempColor := THREE.scaleColor (materialColor ribbonIndex) alpha in
    let paint (v : nat) (cs : list R) :=
      store3 (vc + v) (THREE.r tempColor) (THREE.g tempColor) (THREE.b tempColor) cs in
    let cs := paint 3%nat (paint 2%nat (paint 1%nat (paint 0%nat (buf_colors (bufs acc))))) in
    let ix := buf_indices (bufs acc) in
    let ix := store ic baseIndex ix in
    let ix := store (ic + 1) (baseIndex + 1)%nat ix in
    let ix := store (ic + 2) (baseIndex + 2)%nat ix in
    let ix := store (ic + 3) (baseIndex + 1)%nat ix in
    let ix := store (ic + 4) (baseIndex + 3)%nat ix in
    let ix := store (ic + 5) (baseIndex + 2)%nat ix in
    mkLoop (mkBuffers ps cs ix) (vc + 4) (ic + 6).

(** The loop of [updateRibbonGeometry] over [i = 0 .. trail.length - 2]. *)
Definition buildSegments (trail : list TrailPoint) (ribbonIndex : nat) (currentTime : R)
    (scratch : Buffers) : Loop :=
  fold_left (segmentStep trail ribbonIndex currentTime)
            (seq 0 (List.length trail - 1)) (mkLoop scratch 0 0).

(** "Update geometry attributes efficiently": the valid prefix is copied
    and the draw range set. *)
Definition upload (l : Loop) (geometry : PooledGeometry) : PooledGeometry :=
  if (0 <? vertexCount l)%nat then
    mkPooled
      (array_set (subarray (vertexCount l * 3) (buf_positions (bufs l))) (attr_position geometry))
      (array_set (subarray (vertexCount l * 3) (buf_colors (bufs l))) (attr_color geometry))
      (array_set (subarray (indexCount l) (buf_indices (bufs l))) (attr_index geometry))
      (Some (indexCount l))
  else
    mkPooled (attr_position geometry) (attr_color geometry) (attr_index geometry) (Some 0%nat).

(** [updateRibbonGeometry(ribbonIndex)], the clock read at [currentTime]. *)
Definition updateRibbonGeometry (ribbonIndex : nat) (currentTime : R) (st : State) : State :=
  let trail := trailHistory st in
  if (List.length trail <? 2)%nat then st
  else
    let l := buildSegments trail ribbonIndex currentTime (geometryBuffers st) in
    mkState trail (lastPosition st) (lastVelocity st) (frameCounter st) (isInitialized st)
      (bufs l)
      (mapi (fun k geometry => if (k =? ribbonIndex)%nat then upload l geometry else geometry)
            (ribbonGeometries st)).

(** "Clean old trail points". *)
Definition prune (currentTime : R) (st : State) : State :=
  mkState (filter (fun point => Rltb (currentTime - timestamp point) (TRAIL_LIFETIME cfg))
                  (trailHistory st))
          (lastPosition st) (lastVelocity st) (frameCounter st) (isInitialized st)
          (geometryBuffers st) (ribbonGeometries st).

(** "Update all ribbon geometries". *)
Definition updateAll (now : nat -> R) (st : State) : State :=
  fold_left (fun s i => updateRibbonGeometry i (now i) s) (seq 0 RIBBON_COUNT) st.

(** Does this tick prune and rebuild? *)
Definition rebuilds (counter : nat) (trailUpdated : bool) : bool :=
  ((counter mod UPDATE_FREQUENCY cfg =? 0)%nat || trailUpdated)%bool.

(** The [useFrame] callback; [sphere] is [sphereRef.current.position]. *)
Definition useFrame (enabled : bool) (mode : Mode) (sphere : option Vector3) (delta : R)
    (clk : Clock) (st : State) : State :=
  if (negb enabled || is_off mode)%bool then st
  else match sphere with
       | None => st
       | Some currentSpherePosition =>
           if negb (isInitialized st) then
             mkState (trailHistory st ++ [mkTrailPoint currentSpherePosition THREE.zero (t_record clk)])
                     currentSpherePosition (lastVelocity st) (frameCounter st) true
                     (geometryBuffers st) (ribbonGeometries st)
           else
             let st1 := mkState (trailHistory st) (lastPosition st) (lastVelocity st)
                                (S (frameCounter st)) (isInitialized st)
                                (geometryBuffers st) (ribbonGeometries st) in
             let (st2, trailUpdated) := updateTrailHistory currentSpherePosition delta (t_record clk) st1 in
             if rebuilds (frameCounter st2) trailUpdated
             then updateAll (fun i => t_build clk i 0%nat) (prune (t_prune clk) st2)
             else st2
       end.

(** The effect "Clear when disabled", run when [enabled] or [mode] changes. *)
Definition clearWhenDisabled (enabled : bool) (mode : Mode) (st : State) : State :=
  if (negb enabled || is_off mode)%bool
  then mkState [] (lastPosition st) (lastVelocity st) (frameCounter st) (isInitialized st)
               (geometryBuffers st)
               (map (fun geometry => mkPooled (attr_position geometry) (attr_color geometry)
                                              (attr_index geometry) (Some 0%nat))
                    (ribbonGeometries st))
  else st.

End Component.

End OptimizedRibbons.

(** * SpeedTrails (src/components/SwarmControl.jsx, second component) *)
Module SpeedTrails.

Record Config : Type := mkConfig {
  MAX_TRAIL_POINTS : nat;
  RIBBON_COUNT : nat;
  RIBBON_WIDTH : R;
  SPAWN_DISTANCE : R;
  TRAIL_LIFETIME : R;
  MIN_SPEED_FOR_TRAILS : R
}.

Definition config : Config :=
  {| MAX_TRAIL_POINTS := 25;
     RIBBON_COUNT := 8;
     RIBBON_WIDTH := 0.2;
     SPAWN_DISTANCE := 1.1;
     TRAIL_LIFETIME := 2500;
     MIN_SPEED_FOR_TRAILS := 0.02 |}.

Record State : Type := mkState {
  trailHistory : list TrailPoint;
  lastPosition : Vector3;
  currentVelocity : Vector3;
  ribbonMeshes : list (option BufferGeometry)
}.

Section Component.

Variable cfg : Config.

(** [ribbonMaterials[i].color], set once with [setHSL]. *)
Variable materialColor : nat -> Color.

Definition initialState : State :=
  mkState [] THREE.zero THREE.zero (repeat (Some emptyGeometry) (RIBBON_COUNT cfg)).

(** The effect "Initialize position tracking". *)
Definition initializeTrail (spherePosition : option Vector3) (now : R) (st : State) : State :=
  match spherePosition with
  | Some sp =>
      if (List.length (trailHistory st) =? 0)%nat
      then mkState (trailHistory st ++ [mkTrailPoint sp THREE.zero now])
                   sp (currentVelocity st) (ribbonMeshes st)
      else st
  | None => st
  end.

(** [getSpawnPoints(position, velocity, count)], with the vectors it
    normalises. *)
Definition getSpawnPoints (pos vel : Vector3) (count : nat) : Traced.M (list Vector3) :=
  if Rlt_dec (THREE.length vel) 0.001 then
    Traced.ret
      (map (fun i : nat =>
              let angle := INR i / INR count * PI * 2 in
              let px := cos angle * SPAWN_DISTANCE cfg in
              let pz := sin angle * SPAWN_DISTANCE cfg in
              THREE.add pos (Vec3 px 0 pz))
           (seq 0 count))
  else
    n <- Traced.normalize vel ;;
    let backwardDir := THREE.negate n in
    rightDir <- Traced.normalize (THREE.crossVectors backwardDir THREE.up) ;;
    upDir <- Traced.normalize (THREE.crossVectors rightDir backwardDir) ;;
    Traced.ret
      (map (fun i : nat =>
              let angle := INR i / INR count * PI * 2 in
              let radius := SPAWN_DISTANCE cfg in
              let ringOffset :=
                THREE.add (THREE.multiplyScalar rightDir (cos angle * radius))
                          (THREE.multiplyScalar upDir (sin angle * radius * 0.5)) in
              THREE.add (THREE.add pos (THREE.multiplyScalar backwardDir (radius * 0.8))) ringOffset)
           (seq 0 count)).

(** "Create ribbon following one specific path". *)
Definition ribbonPath (trail : list TrailPoint) (ribbonIndex : nat) : list PathPoint :=
  flat_map (fun point =>
              match nth_error (Traced.value (getSpawnPoints (position point) (velocity point)
                                                            (RIBBON_COUNT cfg))) ribbonIndex with
              | Some p => [mkPathPoint p (timestamp point) (velocity point)]
              | None => []
              end) trail.

Definition pathAt (path : list PathPoint) (i : nat) : PathPoint :=
  nth i path (mkPathPoint THREE.zero 0 THREE.zero).

Definition progressOf (path : list PathPoint) (i : nat) : R :=
  INR i / (INR (List.length path) - 1).

Definition ageFadeOf (now : R) (pt : PathPoint) : R :=
  Rmax 0 (1 - (now - path_timestamp pt) / TRAIL_LIFETIME cfg).

Definition positionFadeOf (path : list PathPoint) (i : nat) : R :=
  Rmax 0 (1 - progressOf path i * 1.2).

(** [alpha = ageFade * positionFade * 0.8] *)
Definition alphaOf (path : list PathPoint) (now : R) (i : nat) : R :=
  ageFadeOf now (pathAt path i) * positionFadeOf path i * 0.8.

Definition directionAt (path : list PathPoint) (i : nat) : Vector3 :=
  if (i <? List.length path - 1)%nat
  then THREE.normalize (THREE.subVectors (path_position (pathAt path (i + 1)))
                                         (path_position (pathAt path i)))
  else if (0 <? i)%nat
  then THREE.normalize (THREE.subVectors (path_position (pathAt path i))
                                         (path_position (pathAt path (i - 1))))
  else THREE.normalize (path_velocity (pathAt path i)).

Definition widthAt (path : list PathPoint) (i : nat) : Vector3 :=
  THREE.multiplyScalar
    (THREE.normalize (THREE.crossVectors (directionAt path i) THREE.up))
    (RIBBON_WIDTH cfg * 0.5 * (1 - progressOf path i * 0.5)).

(** One iteration of "Build ribbon geometry from path". *)
Definition pathStep (path : list PathPoint) (now : nat -> R) (color : Color)
    (acc : BufferGeometry) (i : nat) : BufferGeometry :=
  let pathPoint := pathAt path i in
  let alpha := alphaOf path (now i) i in
  if Rle_dec alpha 0.01 then acc
  else
    let width := widthAt path i in
    let leftEdge := THREE.sub (path_position pathPoint) width in
    let rightEdge := THREE.add (path_position pathPoint) width in
    let positions' := push3 (push3 (positions acc) leftEdge) rightEdge in
    let c := THREE.scaleColor color alpha in
    let colors' := pushColor (pushColor (colors acc) c) c in
    let indices' :=
      if ((i <? List.length path - 1)%nat && (4 <=? List.length positions')%nat)%bool
      then let baseIndex := (Z.of_nat (List.length positions' / 3) - 2)%Z in
           indices acc ++ [baseIndex; baseIndex + 1; baseIndex + 2;
                           baseIndex + 1; baseIndex + 3; baseIndex + 2]%Z
      else indices acc in
    mkGeometry positions' colors' indices'.

Definition buildRibbon (path : list PathPoint) (now : nat -> R) (color : Color) : BufferGeometry :=
  fold_left (pathStep path now color) (seq 0 (List.length path)) emptyGeometry.

(** [updateTrailRibbons()] *)
Definition updateTrailRibbons (now : nat -> nat -> R) (st : State) : State :=
  let trail := trailHistory st in
  if (List.length trail <? 2)%nat then st
  else
    mkState trail (lastPosition st) (currentVelocity st)
      (mapi (fun ribbonIndex mesh =>
               match mesh with
               | None => None
               | Some old =>
                   let built := buildRibbon (ribbonPath trail ribbonIndex) (now ribbonIndex)
                                            (materialColor ribbonIndex) in
                   if (0 <? List.length (positions built))%nat then Some built else Some old
               end)
            (ribbonMeshes st)).

(** The first half of the frame callback. *)
Definition record (spherePosition : Vector3) (delta now : R) (st : State) : State :=
  let distance := THREE.distanceTo spherePosition (lastPosition st) in
  if Rgt_dec distance 0.001 then
    let vel :=
      if Rgt_dec delta 0
      then THREE.divideScalar (THREE.subVectors spherePosition (lastPosition st)) delta
      else currentVelocity st in
    let trail := mkTrailPoint spherePosition vel now :: trailHistory st in
    let trail' :=
      if (MAX_TRAIL_POINTS cfg <? List.length trail)%nat
      then firstn (MAX_TRAIL_POINTS cfg) trail else trail in
    mkState trail' spherePosition vel (ribbonMeshes st)
  else st.

(** "Clean up old trail points". *)
Definition prune (currentTime : R) (st : State) : State :=
  mkState (filter (fun point => Rltb (currentTime - timestamp point) (TRAIL_LIFETIME cfg))
                  (trailHistory st))
          (lastPosition st) (currentVelocity st) (ribbonMeshes st).

Definition useFrame (enabled : bool) (spherePosition : option Vector3) (delta : R)
    (clk : Clock) (st : State) : State :=
  if negb enabled then st
  else match spherePosition with
       | None => st
       | Some sp =>
           updateTrailRibbons (t_build clk) (prune (t_prune clk) (record sp delta (t_record clk) st))
       end.

(** The effect "Clear trails when disabled". *)
Definition clearWhenDisabled (enabled : bool) (st : State) : State :=
  if negb enabled
  then mkState [] (lastPosition st) (currentVelocity st)
               (map (fun mesh => match mesh with
                                 | Some _ => Some emptyGeometry
                                 | None => None
                                 end) (ribbonMeshes st))
  else st.

End Component.

End SpeedTrails.

(** * SpeedRibbons (src/components/SpeedRibbons.jsx) *)
Module SpeedRibbons.

Record Config : Type := mkConfig {
  MAX_TRAIL_LENGTH : nat;
  RIBBON_WIDTH : R;
  RIBBON_COUNT : nat;
  RIBBON_OFFSET : R;
  MOVEMENT_THRESHOLD : R;
  TRAIL_LIFETIME : R
}.

Definition config : Config :=
  {| MAX_TRAIL_LENGTH := 15;
     RIBBON_WIDTH := 0.3;
     RIBBON_COUNT := 4;
     RIBBON_OFFSET := 1.2;
     MOVEMENT_THRESHOLD := 0.01;
     TRAIL_LIFETIME := 4000 |}.

(** This variant's samples carry no velocity: [{ position, timestamp }]. *)
Record Sample : Type := mkSample {
  s_position : Vector3;
  s_timestamp : R
}.

(** [ribbonData[i].geometry] is the only mutable part of [ribbonData]. *)
Record State : Type := mkState {
  trailHistory : list Sample;
  lastPosition : Vector3;
  geometries : list BufferGeometry
}.

Section Component.

Variable cfg : Config.

(** The colour [setHSL] gives ribbon [i]. *)
Variable ribbonColor : nat -> Color.

Definition angleOf (i : nat) : R := INR i / INR (RIBBON_COUNT cfg) * PI * 2.
Definition offsetX (i : nat) : R := cos (angleOf i) * RIBBON_OFFSET cfg.
Definition offsetZ (i : nat) : R := sin (angleOf i) * RIBBON_OFFSET cfg.

Definition initialState : State :=
  mkState [] THREE.zero (repeat emptyGeometry (RIBBON_COUNT cfg)).

Definition initializeTrail (spherePosition : option Vector3) (now : R) (st : State) : State :=
  match spherePosition with
  | Some sp =>
      if (List.length (trailHistory st) =? 0)%nat
      then mkState (trailHistory st ++ [mkSample sp now]) sp (geometries st)
      else st
  | None => st
  end.

Definition trailAt (trail : list Sample) (i : nat) : Sample :=
  nth i trail (mkSample THREE.zero 0).

(** One iteration of "Create ribbon strip following the trail".  The
    source also computes [progress] and [fadeAlpha] there and uses neither. *)
Definition stripStep (trail : list Sample) (ribbonIndex : nat)
    (acc : BufferGeometry) (i : nat) : BufferGeometry :=
  let point := trailAt trail i in
  let ribbonCenter :=
    Vec3 (THREE.x (s_position point) + offsetX ribbonIndex * 0.5)
         (THREE.y (s_position point) + 0.2)
         (THREE.z (s_position point) + offsetZ ribbonIndex * 0.5) in
  let direction :=
    if (i <? List.length trail - 1)%nat
    then THREE.normalize (THREE.subVectors (s_position (trailAt trail (i + 1))) (s_position point))
    else Vec3 0 0 1 in
  let perpendicular :=
    THREE.multiplyScalar (THREE.normalize (THREE.crossVectors direction THREE.up))
                         (RIBBON_WIDTH cfg * 0.5) in
  let leftPos := THREE.sub ribbonCenter perpendicular in
  let rightPos := THREE.add ribbonCenter perpendicular in
  let vertIndex := Z.of_nat (List.length (positions acc) / 3) in
  let positions' := push3 (push3 (positions acc) leftPos) rightPos in
  let c := ribbonColor ribbonIndex in
  let colors' := pushColor (pushColor (colors acc) c) c in
  let indices' :=
    if (0 <? i)%nat
    then let prevVertIndex := (vertIndex - 2)%Z in
         indices acc ++ [prevVertIndex; prevVertIndex + 1; vertIndex;
                         prevVertIndex + 1; vertIndex + 1; vertIndex]%Z
    else indices acc in
  mkGeometry positions' colors' indices'.

Definition buildStrip (trail : list Sample) (ribbonIndex : nat) : BufferGeometry :=
  fold_left (stripStep trail ribbonIndex) (seq 0 (List.length trail)) emptyGeometry.

(** [updateRibbonGeometries()] *)
Definition updateRibbonGeometries (st : State) : State :=
  let trail := trailHistory st in
  if (List.length trail <? 2)%nat then st
  else
    mkState trail (lastPosition st)
      (mapi (fun ribbonIndex old =>
               let built := buildStrip trail ribbonIndex in
               if (0 <? List.length (positions built))%nat then built else old)
            (geometries st)).

(** The recording half of the frame callback and the measured distance. *)
Definition record (spherePosition : Vector3) (now : R) (st : State) : State :=
  let distance := THREE.distanceTo spherePosition (lastPosition st) in
  if Rgt_dec distance (MOVEMENT_THRESHOLD cfg) then
    let trail := mkSample spherePosition now :: trailHistory st in
    let trail' :=
      if (MAX_TRAIL_LENGTH cfg <? List.length trail)%nat
      then firstn (MAX_TRAIL_LENGTH cfg) trail else trail in
    mkState trail' spherePosition (geometries st)
  else st.

Definition prune (currentTime : R) (st : State) : State :=
  mkState (filter (fun point => Rltb (currentTime - s_timestamp point) (TRAIL_LIFETIME cfg))
                  (trailHistory st))
          (lastPosition st) (geometries st).

Definition useFrame (enabled : bool) (spherePosition : option Vector3)
    (clk : Clock) (st : State) : State :=
  if negb enabled then st
  else match spherePosition with
       | None => st
       | Some sp =>
           let distance := THREE.distanceTo sp (lastPosition st) in
           let st1 := record sp (t_record clk) st in
           let previousLength := List.length (trailHistory st1) in
           let st2 := prune (t_prune clk) st1 in
           let st3 := if (1 <=? List.length (trailHistory st2))%nat
                      then updateRibbonGeometries st2 else st2 in
           if (negb (List.length (trailHistory st3) =? previousLength)%nat
               || (if Rgt_dec distance 0 then true else false))%bool
           then updateRibbonGeometries st3 else st3
       end.

(** The effect "Clear trail when disabled". *)
Definition clearWhenDisabled (enabled : bool) (st : State) : State :=
  if negb enabled
  then mkState [] (lastPosition st) (map (fun _ => emptyGeometry) (geometries st))
  else st.

End Component.

End SpeedRibbons.

(** * MovingSphere (src/components/ProperRibbons.jsx, second component)

    The sphere the ribbons trail: it follows the pointer over the ground,
    keeps its height above it, and drags the camera along.  Its mesh is
    the [sphereRef] that OptimizedRibbons reads.

    What the frame callback reads of the scene is an input: the scene's
    objects in traversal order (the order of [scene.traverse] and of
    [scene.getObjectByName]) and the outcome of the downward raycast on
    the base mesh.  [camera.lookAt], which only turns the camera, is not
    modelled. *)

(** [a.lerp(v, alpha)] of three.js: [a.x += (v.x - a.x) * alpha], and so
    on. *)
Definition Vector3_lerp (a v : Vector3) (alpha : R) : Vector3 :=
  Vec3 (THREE.x a + (THREE.x v - THREE.x a) * alpha)
       (THREE.y a + (THREE.y v - THREE.y a) * alpha)
       (THREE.z a + (THREE.z v - THREE.z a) * alpha).

(** [s.includes(sub)] *)
Definition includes (s sub : String.string) : bool :=
  match String.index 0 sub s with
  | Some _ => true
  | None => false
  end.

Module MovingSphere.

Import String.

Record Config : Type := mkConfig {
  SPHERE_MOVE_SPEED : R;
  CAMERA_FOLLOW_SPEED : R;
  CAMERA_DISTANCE : R;
  CAMERA_HEIGHT_OFFSET : R;
  SPHERE_HEIGHT_OFFSET : R
}.

Definition config : Config :=
  {| SPHERE_MOVE_SPEED := 0.01;
     CAMERA_FOLLOW_SPEED := 0.01;
     CAMERA_DISTANCE := 5.0;
     CAMERA_HEIGHT_OFFSET := 1.2;
     SPHERE_HEIGHT_OFFSET := 1.2 |}.

(** What the callback reads of a scene object: [name], [isMesh],
    [geometry], and of a geometry its [type] and whether [attributes] and
    [attributes.position] are there. *)
Record Attributes : Type := mkAttributes {
  has_position : bool
}.

Record SceneGeometry : Type := mkSceneGeometry {
  geometry_type : string;
  attributes : option Attributes
}.

Record Object3D : Type := mkObject3D {
  name : string;
  isMesh : bool;
  geometry : option SceneGeometry
}.

(** What [raycaster.intersectObject(baseMesh, true)] gives for the ray cast
    downwards from above the sphere: the height of the first intersection,
    no intersection, or an exception. *)
Inductive Raycast : Type :=
| Hits (y : R)
| Misses
| Throws.

(** The component's refs, with [sphereRef.current.position] ([None] while
    the mesh is not attached) and [camera.position]. *)
Record State : Type := mkState {
  sphere : option Vector3;
  sphereTarget : Vector3;
  cameraOffset : Vector3;
  isInitialized : bool;
  baseMesh : option Object3D;
  movementVector : Vector3;
  cameraPosition : Vector3
}.

Section Component.

Variable cfg : Config.

(** The world under the sphere: the raycast on a mesh from above the point
    [(x, z)]. *)
Variable intersectObject : Object3D -> R -> R -> Raycast.

(** The refs when the mesh is attached, for a camera at [camera]. *)
Definition initialState (camera : Vector3) : State :=
  mkState (Some THREE.zero) (Vec3 0 (SPHERE_HEIGHT_OFFSET cfg) 0)
          (Vec3 (- CAMERA_DISTANCE cfg) 0 0) false None (Vec3 0 0 1) camera.

(** [initializePositions()] *)
Definition initializePositions (st : State) : State :=
  match sphere st with
  | Some _ =>
      if negb (isInitialized st) then
        let cameraTargetPosition := THREE.add (sphereTarget st) (cameraOffset st) in
        let cameraTargetPosition :=
          Vec3 (THREE.x cameraTargetPosition)
               (THREE.y cameraTargetPosition + CAMERA_HEIGHT_OFFSET cfg)
               (THREE.z cameraTargetPosition) in
        mkState (Some (sphereTarget st)) (sphereTarget st) (cameraOffset st) true
                (baseMesh st) (movementVector st) cameraTargetPosition
      else st
  | None => st
  end.

(** [handlePointerMove(event)], for the hit points [event.intersections]
    in order. *)
Definition handlePointerMove (intersections : list Vector3) (st : State) : State :=
  match intersections with
  | [] => st
  | hitPoint :: _ =>
      let target :=
        Vec3 (THREE.x hitPoint) (THREE.y hitPoint + SPHERE_HEIGHT_OFFSET cfg) (THREE.z hitPoint) in
      let tempVector := THREE.normalize (THREE.subVectors (cameraPosition st) hitPoint) in
      let tempVector := Vec3 (THREE.x tempVector) 0 (THREE.z tempVector) in
      let tempVector := THREE.multiplyScalar tempVector (CAMERA_DISTANCE cfg) in
      mkState (sphere st) target tempVector (isInitialized st) (baseMesh st)
              (movementVector st) (cameraPosition st)
  end.

(** [scene.getObjectByName(name)]: the first object of that name. *)
Definition getObjectByName (scene : list Object3D) (wanted : string) : option Object3D :=
  find (fun object => String.eqb (name object) wanted) scene.

(** The test of the traversal callback. *)
Definition isGroundCandidate (child : Object3D) : bool :=
  match geometry child with
  | Some g =>
      match attributes g with
      | Some a =>
          isMesh child && String.eqb (geometry_type g) "BufferGeometry" &&
          (has_position a &&
           (let childName := name child in
            let isNotGrass := negb (includes childName "grass") in
            let isNotInstanced := negb (includes childName "instance") in
            let isNotRibbon :=
              negb (includes childName "ribbon") && negb (includes childName "trail") in
            let isNotParticle :=
              negb (includes childName "particle") && negb (includes childName "point") in
            isNotGrass && isNotInstanced && isNotRibbon && isNotParticle))
      | None => false
      end
  | None => false
  end.

(** [scene.traverse(callback)]: the callback assigns [baseMeshRef.current]
    at every object that passes its test; its [return] leaves the callback,
    not the traversal. *)
Definition traverse (scene : list Object3D) (found : option Object3D) : option Object3D :=
  fold_left (fun found child => if isGroundCandidate child then Some child else found)
            scene found.

(** "Find base mesh if not cached": the mesh, and whether the callback
    returns at once. *)
Definition findBaseMesh (scene : list Object3D) (st : State) : option Object3D * bool :=
  match baseMesh st with
  | Some cached => (Some cached, false)
  | None =>
      match getObjectByName scene "Ground" with
      | Some groundByName =>
          if isMesh groundByName then (Some groundByName, true)
          else (traverse scene None, false)
      | None => (traverse scene None, false)
      end
  end.

(** "Calculate target sphere Y position based on ground at sphere
    location", for the sphere at [(nextX, y, nextZ)]. *)
Definition targetSphereYOf (base : option Object3D) (nextX y nextZ : R) (st : State) : R :=
  let fallback :=
    THREE.lerp y (THREE.y (sphereTarget st)) (SPHERE_MOVE_SPEED cfg) in
  match base with
  | Some mesh =>
      match geometry mesh with
      | Some g =>
          match attributes g with
          | Some a =>
              if has_position a then
                match intersectObject mesh nextX nextZ with
                | Hits hitY =>
                    let groundHeight := Rmax 0 hitY in
                    groundHeight + SPHERE_HEIGHT_OFFSET cfg
                | Misses => fallback
                | Throws => fallback
                end
              else SPHERE_HEIGHT_OFFSET cfg
          | None => SPHERE_HEIGHT_OFFSET cfg
          end
      | None => SPHERE_HEIGHT_OFFSET cfg
      end
  | None => SPHERE_HEIGHT_OFFSET cfg
  end.

(** The [useFrame] callback: the new refs and the position passed to
    [onSphereMove], if the frame gets there. *)
Definition useFrame (scene : list Object3D) (st : State) : State * option Vector3 :=
  match sphere st with
  | None => (initializePositions st, None)
  | Some position =>
      if negb (isInitialized st) then (initializePositions st, None)
      else
        let (base, returns) := findBaseMesh scene st in
        if returns then
          (mkState (sphere st) (sphereTarget st) (cameraOffset st) (isInitialized st)
                   base (movementVector st) (cameraPosition st), None)
        else
          let nextX :=
            THREE.lerp (THREE.x position) (THREE.x (sphereTarget st)) (SPHERE_MOVE_SPEED cfg) in
          let nextZ :=
            THREE.lerp (THREE.z position) (THREE.z (sphereTarget st)) (SPHERE_MOVE_SPEED cfg) in
          let currentPos := Vec3 nextX (THREE.y position) nextZ in
          let frontVector := THREE.subVectors (sphereTarget st) currentPos in
          let movement :=
            if Rlt_dec (THREE.length frontVector) 0.1 then movementVector st
            else THREE.normalize frontVector in
          let targetSphereY := targetSphereYOf base nextX (THREE.y position) nextZ st in
          let position' := Vec3 nextX (Rmax 1.2 targetSphereY) nextZ in
          let cameraTargetPosition := THREE.add position' (cameraOffset st) in
          let cameraTargetPosition :=
            Vec3 (THREE.x cameraTargetPosition)
                 (THREE.y position' + CAMERA_HEIGHT_OFFSET cfg)
                 (THREE.z cameraTargetPosition) in
          (mkState (Some position') (sphereTarget st) (cameraOffset st) (isInitialized st)
                   base movement
                   (Vector3_lerp (cameraPosition st) cameraTargetPosition
                                 (CAMERA_FOLLOW_SPEED cfg)),
           Some position')
  end.

(** What happens to the component: a pointer event on the ground, or a
    rendered frame over a scene. *)
Inductive Event : Type :=
| PointerMove (intersections : list Vector3)
| Frame (scene : list Object3D).

Definition step (st : State) (e : Event) : State :=
  match e with
  | PointerMove intersections => handlePointerMove intersections st
  | Frame scene => fst (useFrame scene st)
  end.

Definition run (events : list Event) (st : State) : State := fold_left step events st.

End Component.

End MovingSphere.

(** * SwarmControl (src/components/SwarmControl.jsx, first component)

    The button that toggles the swarm mode, with the part of [App]
    (src/unnamed/part_001) that owns the mode: [SwarmControl] is rendered
    with [swarmMode], [onModeChange = cycleSwarmMode] and
    [disabled = isSwarmButtonDisabled].  React renders between two events,
    so that a handler reads the state the event before it left. *)
Module SwarmControl.

Import String.

Section Component.

(** The state of the parent that [onModeChange] acts on. *)
Context {Parent : Type}.

(** The properties [{ swarmMode, onModeChange, disabled }]. *)
Variable swarmMode : string.
Variable onModeChange : Parent -> Parent.
Variable disabled : bool.

Definition handleClick (parent : Parent) : Parent :=
  if negb disabled then onModeChange parent else parent.

Definition getModeText : string :=
  if String.eqb swarmMode "returning" then "Returning..."
  else if String.eqb swarmMode "swarm" then "Swarm: ON" else "Swarm: OFF".

Definition getModeClass : string :=
  if (disabled || String.eqb swarmMode "returning")%bool then "disabled"
  else if String.eqb swarmMode "swarm" then "swarm" else "normal".

End Component.

End SwarmControl.

Module App.

Import String.

(** The state [App] keeps for the swarm button and the controls panel. *)
Record State : Type := mkState {
  swarmMode : string;
  isSwarmButtonDisabled : bool;
  showControls : bool
}.

Definition initialState : State := mkState "normal" false false.

(** [cycleSwarmMode()] *)
Definition cycleSwarmMode (st : State) : State :=
  if isSwarmButtonDisabled st then st
  else if String.eqb (swarmMode st) "normal"
  then mkState "swarm" (isSwarmButtonDisabled st) (showControls st)
  else if String.eqb (swarmMode st) "swarm"
  then mkState "returning" true (showControls st)
  else st.

(** [handleReturnComplete()], called by the particles when they are back. *)
Definition handleReturnComplete (st : State) : State :=
  mkState "normal" false (showControls st).

(** What [handleKeyPress] reads of a [keydown] event. *)
Record KeyEvent : Type := mkKeyEvent {
  tagName : string;
  code : string;
  repeat : bool
}.

(** [handleKeyPress(event)].  The handler is registered on the document
    and on the window; for the two keys it serves it stops the event at
    the document, so that it runs once for each key press. *)
Definition handleKeyPress (event : KeyEvent) (st : State) : State :=
  if (String.eqb (tagName event) "INPUT" || String.eqb (tagName event) "TEXTAREA")%bool then st
  else
    let st1 :=
      if (String.eqb (code event) "Space" && negb (repeat event))%bool
      then cycleSwarmMode st else st in
    if (String.eqb (code event) "KeyC" && negb (repeat event))%bool
    then mkState (swarmMode st1) (isSwarmButtonDisabled st1) (negb (showControls st1))
    else st1.

(** What happens to the swarm mode: a click on the button, a key press, or
    the end of the particles' return. *)
Inductive Event : Type :=
| Click
| KeyDown (event : KeyEvent)
| ReturnComplete.

Definition step (st : State) (e : Event) : State :=
  match e with
  | Click => SwarmControl.handleClick cycleSwarmMode (isSwarmButtonDisabled st) st
  | KeyDown event => handleKeyPress event st
  | ReturnComplete => handleReturnComplete st
  end.

Definition run (events : list Event) (st : State) : State := fold_left step events st.

(** What the button shows in a state. *)
Definition buttonText (st : State) : string := SwarmControl.getModeText (swarmMode st).

Definition buttonClass (st : State) : string :=
  SwarmControl.getModeClass (swarmMode st) (isSwarmButtonDisabled st).

End App.

(** * Verification *)

(** ** Numbers and vectors *)

Ltac decide_R :=
  repeat match goal with
  | |- context [Rlt_dec ?a ?b] => destruct (Rlt_dec a b); try lra
  | |- context [Rle_dec ?a ?b] => destruct (Rle_dec a b); try lra
  | |- context [Rgt_dec ?a ?b] => destruct (Rgt_dec a b); try lra
  | |- context [Req_dec_T ?a ?b] => destruct (Req_dec_T a b); try lra
  end.

Lemma sqrt_sq_nonneg (a : R) : 0 <= a -> sqrt (a * a) = a.
Proof. intros H; now apply sqrt_square. Qed.

Lemma lengthSq_nonneg (v : Vector3) : 0 <= THREE.lengthSq v.
Proof.
  unfold THREE.lengthSq.
  pose proof (Rle_0_sqr (THREE.x v)) as Hx.
  pose proof (Rle_0_sqr (THREE.y v)) as Hy.
  pose proof (Rle_0_sqr (THREE.z v)) as Hz.
  unfold Rsqr in *; lra.
Qed.

Lemma distanceToSquared_nonneg (a b : Vector3) : 0 <= THREE.distanceToSquared a b.
Proof.
  unfold THREE.distanceToSquared; cbv zeta.
  pose proof (Rle_0_sqr (THREE.x a - THREE.x b)) as Hx.
  pose proof (Rle_0_sqr (THREE.y a - THREE.y b)) as Hy.
  pose proof (Rle_0_sqr (THREE.z a - THREE.z b)) as Hz.
  unfold Rsqr in *; lra.
Qed.

Lemma distanceTo_self (p : Vector3) : THREE.distanceTo p p = 0.
Proof.
  unfold THREE.distanceTo, THREE.distanceToSquared; cbv zeta.
  replace ((THREE.x p - THREE.x p) * (THREE.x p - THREE.x p) +
           (THREE.y p - THREE.y p) * (THREE.y p - THREE.y p) +
           (THREE.z p - THREE.z p) * (THREE.z p - THREE.z p)) with 0 by ring.
  apply sqrt_0.
Qed.

Lemma distanceTo_along_x (a : R) : 0 <= a -> THREE.distanceTo (Vec3 a 0 0) THREE.zero = a.
Proof.
  intros Ha. unfold THREE.distanceTo, THREE.distanceToSquared, THREE.zero; cbn.
  replace ((a - 0) * (a - 0) + (0 - 0) * (0 - 0) + (0 - 0) * (0 - 0)) with (a * a) by ring.
  now apply sqrt_square.
Qed.

Lemma length_zero_vector : THREE.length THREE.zero = 0.
Proof.
  unfold THREE.length, THREE.lengthSq, THREE.zero; cbn.
  replace (0 * 0 + 0 * 0 + 0 * 0) with 0 by ring. apply sqrt_0.
Qed.

(** ** C7: a trail of at most one point *)

(** C7.  For every trail of at most one point the mesh builder of each
    variant returns at once: the component's state, and with it every
    geometry, is left as it was, so no triangle is emitted. *)
Theorem short_trail_rebuild_is_noop :
  (forall cfg color now (st : ProperRibbons.State),
      (List.length (ProperRibbons.trailHistory st) <= 1)%nat ->
      ProperRibbons.updateRibbons cfg color now st = st) /\
  (forall cfg ribbonIndex now (st : OptimizedRibbons.State),
      (List.length (OptimizedRibbons.trailHistory st) <= 1)%nat ->
      OptimizedRibbons.updateRibbonGeometry cfg ribbonIndex now st = st) /\
  (forall cfg color now (st : SpeedTrails.State),
      (List.length (SpeedTrails.trailHistory st) <= 1)%nat ->
      SpeedTrails.updateTrailRibbons cfg color now st = st) /\
  (forall cfg color (st : SpeedRibbons.State),
      (List.length (SpeedRibbons.trailHistory st) <= 1)%nat ->
      SpeedRibbons.updateRibbonGeometries cfg color st = st).
Proof.
  repeat split; intros;
    [ unfold ProperRibbons.updateRibbons
    | unfold OptimizedRibbons.updateRibbonGeometry
    | unfold SpeedTrails.updateTrailRibbons
    | unfold SpeedRibbons.updateRibbonGeometries ];
    cbv zeta;
    match goal with
    | |- context [(?n <? 2)%nat] => destruct (Nat.ltb_spec n 2); [reflexivity | lia]
    end.
Qed.

Definition white : Color := THREE.RGB 1 1 1.

(** A state whose trail holds the single point the initialising effect
    puts there. *)
Definition seeded_ProperRibbons : ProperRibbons.State :=
  ProperRibbons.initializeTrail (Some THREE.zero) 0
    (ProperRibbons.initialState ProperRibbons.config).

Lemma short_trail_rebuild_is_noop_witness :
  ProperRibbons.updateRibbons ProperRibbons.config (fun _ => white) (fun _ _ => 0)
    seeded_ProperRibbons = seeded_ProperRibbons /\
  OptimizedRibbons.updateRibbonGeometry OptimizedRibbons.config 0 0
    (OptimizedRibbons.initialState OptimizedRibbons.config)
  = OptimizedRibbons.initialState OptimizedRibbons.config /\
  SpeedTrails.updateTrailRibbons SpeedTrails.config (fun _ => white) (fun _ _ => 0)
    (SpeedTrails.initialState SpeedTrails.config)
  = SpeedTrails.initialState SpeedTrails.config /\
  SpeedRibbons.updateRibbonGeometries SpeedRibbons.config (fun _ => white)
    (SpeedRibbons.initialState SpeedRibbons.config)
  = SpeedRibbons.initialState SpeedRibbons.config.
Proof.
  destruct short_trail_rebuild_is_noop as (H1 & H2 & H3 & H4).
  refine (conj _ (conj _ (conj _ _)));
    [apply H1 | apply H2 | apply H3 | apply H4]; simpl; lia.
Defined.

(** ** The trail buffer: truncation on insert, pruning by age *)

Section BufferLaws.

Context {P : Type} (stamp : P -> R).

(** What every variant does on insert: [unshift] then cut to [max]. *)
Definition inserted (max : nat) (p : P) (l : list P) : list P :=
  if (max <? List.length (p :: l))%nat then firstn max (p :: l) else p :: l.

(** What every variant does when pruning. *)
Definition pruned (lifetime now : R) (l : list P) : list P :=
  filter (fun q => Rltb (now - stamp q) lifetime) l.

(** Whatever the buffer held, it holds at most [max] samples after an
    insert. *)
Lemma inserted_bounded (max : nat) (p : P) (l : list P) :
  (List.length (inserted max p l) <= max)%nat.
Proof.
  unfold inserted. destruct (Nat.ltb_spec max (List.length (p :: l))).
  - rewrite length_firstn. lia.
  - assumption.
Qed.

Lemma inserted_length_le (max : nat) (p : P) (l : list P) :
  (List.length l <= max)%nat -> (List.length (inserted max p l) <= max)%nat.
Proof.
  intros Hl. unfold inserted. destruct (Nat.ltb_spec max (List.length (p :: l))).
  - rewrite length_firstn. lia.
  - assumption.
Qed.

Lemma inserted_prefix (max : nat) (p : P) (l : list P) :
  inserted max p l = firstn max (p :: l).
Proof.
  unfold inserted. destruct (Nat.ltb_spec max (List.length (p :: l))); [reflexivity|].
  symmetry. now apply firstn_all2.
Qed.

Lemma Forall_firstn (Q : P -> Prop) (n : nat) (l : list P) :
  Forall Q l -> Forall Q (firstn n l).
Proof.
  revert n; induction l as [|a l IH]; intros [|n] H; simpl; try constructor.
  - now inversion H.
  - apply IH. now inversion H.
Qed.

Lemma Forall_filter (Q : P -> Prop) (f : P -> bool) (l : list P) :
  Forall Q l -> Forall Q (filter f l).
Proof.
  induction 1 as [|a l Ha Hl IH]; simpl; [constructor|].
  destruct (f a); [constructor|]; assumption.
Qed.

Lemma newest_first_firstn (n : nat) (l : list P) :
  newest_first stamp l -> newest_first stamp (firstn n l).
Proof.
  revert n; induction l as [|a l IH]; intros [|n] H; simpl; auto.
  destruct H as [Ha Hl]. split; [now apply Forall_firstn | now apply IH].
Qed.

Lemma newest_first_filter (f : P -> bool) (l : list P) :
  newest_first stamp l -> newest_first stamp (filter f l).
Proof.
  induction l as [|a l IH]; simpl; auto.
  intros [Ha Hl]. destruct (f a); simpl; auto.
  split; [now apply Forall_filter | now apply IH].
Qed.

Lemma not_after_later (t t' : R) (l : list P) :
  t <= t' -> not_after stamp t l -> not_after stamp t' l.
Proof.
  intros Ht H. unfold not_after in *. eapply Forall_impl; [|exact H].
  simpl; intros; lra.
Qed.

Lemma pruned_fresh (lifetime now : R) (l : list P) :
  fresh stamp lifetime now (pruned lifetime now l).
Proof.
  unfold fresh, pruned. apply Forall_forall. intros q Hq.
  apply filter_In in Hq. destruct Hq as [_ Hq]. now apply Rltb_true in Hq.
Qed.

Lemma pruned_length (lifetime now : R) (l : list P) :
  (List.length (pruned lifetime now l) <= List.length l)%nat.
Proof. apply filter_length_le. Qed.

(** An insert stamped no earlier than the buffer's samples keeps the
    buffer ordered and bounded. *)
Lemma inserted_ok (max : nat) (t : R) (p : P) (l : list P) :
  stamp p = t ->
  (List.length l <= max)%nat -> newest_first stamp l -> not_after stamp t l ->
  (List.length (inserted max p l) <= max)%nat /\
  newest_first stamp (inserted max p l) /\
  not_after stamp t (inserted max p l).
Proof.
  intros Hp Hlen Hs Hn. split; [now apply inserted_length_le|].
  rewrite inserted_prefix. split.
  - apply newest_first_firstn. simpl. split; [|assumption].
    rewrite Hp. exact Hn.
  - apply Forall_firstn. constructor; [lra | exact Hn].
Qed.

(** One frame of the three eager variants: an optional insert at [t1],
    then pruning at [t2]. *)
Lemma frame_ok (max : nat) (lifetime t0 t1 t2 : R) (l l1 : list P) :
  t0 <= t1 -> t1 <= t2 ->
  (List.length l <= max)%nat -> newest_first stamp l -> not_after stamp t0 l ->
  (l1 = l \/ exists p, stamp p = t1 /\ l1 = inserted max p l) ->
  trail_invariant stamp max lifetime t2 (pruned lifetime t2 l1) /\
  not_after stamp t2 (pruned lifetime t2 l1).
Proof.
  intros H01 H12 Hlen Hs Hn Hl1.
  assert ((List.length l1 <= max)%nat /\ newest_first stamp l1 /\ not_after stamp t1 l1)
    as (Hlen1 & Hs1 & Hn1).
  { destruct Hl1 as [-> | (p & Hp & ->)].
    - repeat split; auto. now apply not_after_later with t0.
    - apply inserted_ok; auto. now apply not_after_later with t0. }
  repeat split.
  - pose proof (pruned_length lifetime t2 l1). lia.
  - apply pruned_fresh.
  - now apply newest_first_filter.
  - apply Forall_filter. now apply not_after_later with t1.
Qed.

End BufferLaws.

(** ** Runs of frames *)

(** What one rendered frame supplies: the sphere's position, the frame's
    delta time and the clock readings. *)
Record Frame : Type := mkFrame {
  f_position : Vector3;
  f_delta : R;
  f_clock : Clock
}.

(** The clock never runs backwards: from [t] on, each frame stamps its
    sample no earlier than the previous reading and prunes no earlier than
    it stamps. *)
Fixpoint clock_chain (t : R) (frames : list Frame) : Prop :=
  match frames with
  | [] => True
  | f :: rest =>
      t <= t_record (f_clock f) /\
      t_record (f_clock f) <= t_prune (f_clock f) /\
      clock_chain (t_prune (f_clock f)) rest
  end.

(** The clock reading of the last pruning pass. *)
Definition last_prune (t : R) (frames : list Frame) : R :=
  fold_left (fun _ f => t_prune (f_clock f)) frames t.

Definition run_ProperRibbons (color : nat -> Color) (frames : list Frame)
    (st : ProperRibbons.State) : ProperRibbons.State :=
  fold_left (fun s f => ProperRibbons.useFrame ProperRibbons.config color true
                          (Some (f_position f)) (f_delta f) (f_clock f) s) frames st.

Definition run_SpeedTrails (color : nat -> Color) (frames : list Frame)
    (st : SpeedTrails.State) : SpeedTrails.State :=
  fold_left (fun s f => SpeedTrails.useFrame SpeedTrails.config color true
                          (Some (f_position f)) (f_delta f) (f_clock f) s) frames st.

Definition run_SpeedRibbons (color : nat -> Color) (frames : list Frame)
    (st : SpeedRibbons.State) : SpeedRibbons.State :=
  fold_left (fun s f => SpeedRibbons.useFrame SpeedRibbons.config color true
                          (Some (f_position f)) (f_clock f) s) frames st.

Definition run_OptimizedRibbons (frames : list Frame)
    (st : OptimizedRibbons.State) : OptimizedRibbons.State :=
  fold_left (fun s f => OptimizedRibbons.useFrame OptimizedRibbons.config true
                          OptimizedRibbons.both (Some (f_position f)) (f_delta f)
                          (f_clock f) s) frames st.

(** Does the pooled variant prune and rebuild in frame [f], entered in
    state [st]? *)
Definition pruning_tick (f : Frame) (st : OptimizedRibbons.State) : bool :=
  OptimizedRibbons.rebuilds OptimizedRibbons.config (S (OptimizedRibbons.frameCounter st))
    (negb (Rltb (THREE.distanceTo (f_position f) (OptimizedRibbons.lastPosition st))
                (OptimizedRibbons.MOVEMENT_THRESHOLD OptimizedRibbons.config))).

(** ** Rebuilding never touches the trail *)

Lemma ProperRibbons_updateRibbons_trail cfg color now st :
  ProperRibbons.trailHistory (ProperRibbons.updateRibbons cfg color now st)
  = ProperRibbons.trailHistory st.
Proof.
  unfold ProperRibbons.updateRibbons; cbv zeta.
  destruct (_ <? 2)%nat; reflexivity.
Qed.

Lemma SpeedTrails_updateTrailRibbons_trail cfg color now st :
  SpeedTrails.trailHistory (SpeedTrails.updateTrailRibbons cfg color now st)
  = SpeedTrails.trailHistory st.
Proof.
  unfold SpeedTrails.updateTrailRibbons; cbv zeta.
  destruct (_ <? 2)%nat; reflexivity.
Qed.

Lemma SpeedRibbons_updateRibbonGeometries_trail cfg color st :
  SpeedRibbons.trailHistory (SpeedRibbons.updateRibbonGeometries cfg color st)
  = SpeedRibbons.trailHistory st.
Proof.
  unfold SpeedRibbons.updateRibbonGeometries; cbv zeta.
  destruct (_ <? 2)%nat; reflexivity.
Qed.

Lemma OptimizedRibbons_updateRibbonGeometry_trail cfg k now st :
  OptimizedRibbons.trailHistory (OptimizedRibbons.updateRibbonGeometry cfg k now st)
  = OptimizedRibbons.trailHistory st.
Proof.
  unfold OptimizedRibbons.updateRibbonGeometry; cbv zeta.
  destruct (_ <? 2)%nat; reflexivity.
Qed.

Lemma OptimizedRibbons_updateAll_trail cfg now st :
  OptimizedRibbons.trailHistory (OptimizedRibbons.updateAll cfg now st)
  = OptimizedRibbons.trailHistory st.
Proof.
  unfold OptimizedRibbons.updateAll.
  generalize (seq 0 OptimizedRibbons.RIBBON_COUNT) as ks. intros ks; revert st.
  induction ks as [|k ks IH]; intros st; simpl; [reflexivity|].
  rewrite IH. apply OptimizedRibbons_updateRibbonGeometry_trail.
Qed.

(** ** The trail after one frame *)

Lemma ProperRibbons_record_trail cfg sp delta now st :
  ProperRibbons.trailHistory (ProperRibbons.record cfg sp delta now st)
  = ProperRibbons.trailHistory st \/
  exists p, timestamp p = now /\
    ProperRibbons.trailHistory (ProperRibbons.record cfg sp delta now st)
    = inserted (ProperRibbons.MAX_TRAIL_LENGTH cfg) p (ProperRibbons.trailHistory st).
Proof.
  unfold ProperRibbons.record; cbv zeta.
  destruct (Rgt_dec _ _); [right | now left].
  eexists; split; [|reflexivity]. reflexivity.
Qed.

Lemma ProperRibbons_useFrame_trail cfg color sp delta clk st :
  ProperRibbons.trailHistory
    (ProperRibbons.useFrame cfg color true (Some sp) delta clk st)
  = pruned timestamp (ProperRibbons.TRAIL_LIFETIME cfg) (t_prune clk)
      (ProperRibbons.trailHistory (ProperRibbons.record cfg sp delta (t_record clk) st)).
Proof.
  unfold ProperRibbons.useFrame; cbv zeta; simpl negb; cbv iota.
  destruct (2 <=? _)%nat; [rewrite ProperRibbons_updateRibbons_trail|]; reflexivity.
Qed.

Lemma SpeedTrails_record_trail cfg sp delta now st :
  SpeedTrails.trailHistory (SpeedTrails.record cfg sp delta now st)
  = SpeedTrails.trailHistory st \/
  exists p, timestamp p = now /\
    SpeedTrails.trailHistory (SpeedTrails.record cfg sp delta now st)
    = inserted (SpeedTrails.MAX_TRAIL_POINTS cfg) p (SpeedTrails.trailHistory st).
Proof.
  unfold SpeedTrails.record; cbv zeta.
  destruct (Rgt_dec _ _); [right | now left].
  eexists; split; [|reflexivity]. reflexivity.
Qed.

Lemma SpeedTrails_useFrame_trail cfg color sp delta clk st :
  SpeedTrails.trailHistory
    (SpeedTrails.useFrame cfg color true (Some sp) delta clk st)
  = pruned timestamp (SpeedTrails.TRAIL_LIFETIME cfg) (t_prune clk)
      (SpeedTrails.trailHistory (SpeedTrails.record cfg sp delta (t_record clk) st)).
Proof.
  unfold SpeedTrails.useFrame; simpl negb; cbv iota.
  rewrite SpeedTrails_updateTrailRibbons_trail. reflexivity.
Qed.

Lemma SpeedRibbons_record_trail cfg sp now st :
  SpeedRibbons.trailHistory (SpeedRibbons.record cfg sp now st)
  = SpeedRibbons.trailHistory st \/
  exists p, SpeedRibbons.s_timestamp p = now /\
    SpeedRibbons.trailHistory (SpeedRibbons.record cfg sp now st)
    = inserted (SpeedRibbons.MAX_TRAIL_LENGTH cfg) p (SpeedRibbons.trailHistory st).
Proof.
  unfold SpeedRibbons.record; cbv zeta.
  destruct (Rgt_dec _ _); [right | now left].
  eexists; split; [|reflexivity]. reflexivity.
Qed.

Lemma SpeedRibbons_useFrame_trail cfg color sp clk st :
  SpeedRibbons.trailHistory (SpeedRibbons.useFrame cfg color true (Some sp) clk st)
  = pruned SpeedRibbons.s_timestamp (SpeedRibbons.TRAIL_LIFETIME cfg) (t_prune clk)
      (SpeedRibbons.trailHistory (SpeedRibbons.record cfg sp (t_record clk) st)).
Proof.
  unfold SpeedRibbons.useFrame; cbv zeta; simpl negb; cbv iota.
  destruct (1 <=? _)%nat; destruct (_ || _)%bool;
    rewrite ?SpeedRibbons_updateRibbonGeometries_trail; reflexivity.
Qed.

(** The pooled variant's frame, case by case. *)

Definition tick (st : OptimizedRibbons.State) : OptimizedRibbons.State :=
  OptimizedRibbons.mkState
    (OptimizedRibbons.trailHistory st) (OptimizedRibbons.lastPosition st)
    (OptimizedRibbons.lastVelocity st) (S (OptimizedRibbons.frameCounter st))
    (OptimizedRibbons.isInitialized st) (OptimizedRibbons.geometryBuffers st)
    (OptimizedRibbons.ribbonGeometries st).

Lemma OptimizedRibbons_updateTrailHistory_below cfg p delta now st :
  THREE.distanceTo p (OptimizedRibbons.lastPosition st) < OptimizedRibbons.MOVEMENT_THRESHOLD cfg ->
  OptimizedRibbons.updateTrailHistory cfg p delta now st = (st, false).
Proof.
  intros H. unfold OptimizedRibbons.updateTrailHistory; cbv zeta.
  destruct (Rlt_dec _ _); [reflexivity | contradiction].
Qed.

Lemma OptimizedRibbons_updateTrailHistory_reached cfg p delta now st :
  OptimizedRibbons.MOVEMENT_THRESHOLD cfg <= THREE.distanceTo p (OptimizedRibbons.lastPosition st) ->
  exists vel,
    OptimizedRibbons.updateTrailHistory cfg p delta now st
    = (OptimizedRibbons.mkState
         (inserted (OptimizedRibbons.MAX_TRAIL_POINTS cfg) (mkTrailPoint p vel now)
                   (OptimizedRibbons.trailHistory st))
         p vel (OptimizedRibbons.frameCounter st) (OptimizedRibbons.isInitialized st)
         (OptimizedRibbons.geometryBuffers st) (OptimizedRibbons.ribbonGeometries st),
       true).
Proof.
  intros H. unfold OptimizedRibbons.updateTrailHistory; cbv zeta.
  destruct (Rlt_dec _ _); [lra|]. eexists; reflexivity.
Qed.

Lemma OptimizedRibbons_useFrame_first cfg mode p delta clk st :
  OptimizedRibbons.is_off mode = false ->
  OptimizedRibbons.isInitialized st = false ->
  OptimizedRibbons.useFrame cfg true mode (Some p) delta clk st
  = OptimizedRibbons.mkState
      (OptimizedRibbons.trailHistory st ++ [mkTrailPoint p THREE.zero (t_record clk)])
      p (OptimizedRibbons.lastVelocity st) (OptimizedRibbons.frameCounter st) true
      (OptimizedRibbons.geometryBuffers st) (OptimizedRibbons.ribbonGeometries st).
Proof.
  intros Hm Hi. unfold OptimizedRibbons.useFrame. rewrite Hm, Hi. cbn [negb orb]. reflexivity.
Qed.

(** A tick that neither records nor falls on the update frequency only
    advances the frame counter. *)
Lemma OptimizedRibbons_useFrame_idle cfg mode p delta clk st :
  OptimizedRibbons.is_off mode = false ->
  OptimizedRibbons.isInitialized st = true ->
  THREE.distanceTo p (OptimizedRibbons.lastPosition st) < OptimizedRibbons.MOVEMENT_THRESHOLD cfg ->
  (S (OptimizedRibbons.frameCounter st) mod OptimizedRibbons.UPDATE_FREQUENCY cfg <> 0)%nat ->
  OptimizedRibbons.useFrame cfg true mode (Some p) delta clk st = tick st.
Proof.
  destruct st as [tr lp lv fc ini gb rg]; cbn [OptimizedRibbons.isInitialized
    OptimizedRibbons.lastPosition OptimizedRibbons.frameCounter].
  intros Hm -> Hd Hc. unfold OptimizedRibbons.useFrame. rewrite Hm. cbn [negb orb].
  cbv zeta. cbn -[OptimizedRibbons.updateTrailHistory OptimizedRibbons.rebuilds
                  OptimizedRibbons.updateAll OptimizedRibbons.prune].
  rewrite OptimizedRibbons_updateTrailHistory_below by exact Hd.
  unfold OptimizedRibbons.rebuilds. cbn [OptimizedRibbons.frameCounter].
  destruct (Nat.eqb_spec (S fc mod OptimizedRibbons.UPDATE_FREQUENCY cfg) 0);
    [contradiction | reflexivity].
Qed.

(** A tick on the update frequency that records nothing prunes and
    rebuilds. *)
Lemma OptimizedRibbons_useFrame_scheduled cfg mode p delta clk st :
  OptimizedRibbons.is_off mode = false ->
  OptimizedRibbons.isInitialized st = true ->
  THREE.distanceTo p (OptimizedRibbons.lastPosition st) < OptimizedRibbons.MOVEMENT_THRESHOLD cfg ->
  (S (OptimizedRibbons.frameCounter st) mod OptimizedRibbons.UPDATE_FREQUENCY cfg = 0)%nat ->
  OptimizedRibbons.useFrame cfg true mode (Some p) delta clk st
  = OptimizedRibbons.updateAll cfg (fun i => t_build clk i 0%nat)
      (OptimizedRibbons.prune cfg (t_prune clk) (tick st)).
Proof.
  destruct st as [tr lp lv fc ini gb rg]; cbn [OptimizedRibbons.isInitialized
    OptimizedRibbons.lastPosition OptimizedRibbons.frameCounter].
  intros Hm -> Hd Hc. unfold OptimizedRibbons.useFrame. rewrite Hm. cbn [negb orb].
  cbv zeta. cbn -[OptimizedRibbons.updateTrailHistory OptimizedRibbons.rebuilds
                  OptimizedRibbons.updateAll OptimizedRibbons.prune].
  rewrite OptimizedRibbons_updateTrailHistory_below by exact Hd.
  unfold OptimizedRibbons.rebuilds. cbn [OptimizedRibbons.frameCounter].
  rewrite Hc. reflexivity.
Qed.

(** A tick that records a sample prunes and rebuilds, whatever the frame
    counter. *)
Lemma OptimizedRibbons_useFrame_recorded cfg mode p delta clk st :
  OptimizedRibbons.is_off mode = false ->
  OptimizedRibbons.isInitialized st = true ->
  OptimizedRibbons.MOVEMENT_THRESHOLD cfg <= THREE.distanceTo p (OptimizedRibbons.lastPosition st) ->
  OptimizedRibbons.useFrame cfg true mode (Some p) delta clk st
  = OptimizedRibbons.updateAll cfg (fun i => t_build clk i 0%nat)
      (OptimizedRibbons.prune cfg (t_prune clk)
         (fst (OptimizedRibbons.updateTrailHistory cfg p delta (t_record clk) (tick st)))).
Proof.
  destruct st as [tr lp lv fc ini gb rg]; cbn [OptimizedRibbons.isInitialized
    OptimizedRibbons.lastPosition OptimizedRibbons.frameCounter].
  intros Hm -> Hd. unfold OptimizedRibbons.useFrame. rewrite Hm. cbn [negb orb].
  cbv zeta. cbn -[OptimizedRibbons.updateTrailHistory OptimizedRibbons.rebuilds
                  OptimizedRibbons.updateAll OptimizedRibbons.prune].
  unfold tick. cbn -[OptimizedRibbons.updateTrailHistory OptimizedRibbons.rebuilds
                  OptimizedRibbons.updateAll OptimizedRibbons.prune].
  match goal with
  | |- context [OptimizedRibbons.updateTrailHistory cfg p delta ?t ?s] =>
      destruct (OptimizedRibbons_updateTrailHistory_reached cfg p delta t s Hd) as [vel ->]
  end.
  unfold OptimizedRibbons.rebuilds. rewrite orb_true_r. reflexivity.
Qed.

Lemma OptimizedRibbons_updateRibbonGeometry_frame cfg k now st :
  let st' := OptimizedRibbons.updateRibbonGeometry cfg k now st in
  OptimizedRibbons.isInitialized st' = OptimizedRibbons.isInitialized st /\
  OptimizedRibbons.frameCounter st' = OptimizedRibbons.frameCounter st /\
  OptimizedRibbons.lastPosition st' = OptimizedRibbons.lastPosition st.
Proof.
  unfold OptimizedRibbons.updateRibbonGeometry; cbv zeta.
  destruct (_ <? 2)%nat; repeat split; reflexivity.
Qed.

Lemma OptimizedRibbons_updateAll_frame cfg now st :
  let st' := OptimizedRibbons.updateAll cfg now st in
  OptimizedRibbons.isInitialized st' = OptimizedRibbons.isInitialized st /\
  OptimizedRibbons.frameCounter st' = OptimizedRibbons.frameCounter st /\
  OptimizedRibbons.lastPosition st' = OptimizedRibbons.lastPosition st.
Proof.
  unfold OptimizedRibbons.updateAll.
  generalize (seq 0 OptimizedRibbons.RIBBON_COUNT) as ks. intros ks; revert st.
  induction ks as [|k ks IH]; intros st; simpl; [repeat split; reflexivity|].
  destruct (IH (OptimizedRibbons.updateRibbonGeometry cfg k (now k) st)) as (H1 & H2 & H3).
  destruct (OptimizedRibbons_updateRibbonGeometry_frame cfg k (now k) st) as (G1 & G2 & G3).
  cbv zeta in *. repeat split; congruence.
Qed.

(** The trail of the pooled variant after a frame entered initialised. *)
Lemma OptimizedRibbons_useFrame_trail cfg mode p delta clk st :
  OptimizedRibbons.is_off mode = false ->
  OptimizedRibbons.isInitialized st = true ->
  let recorded :=
    OptimizedRibbons.rebuilds cfg (S (OptimizedRibbons.frameCounter st))
      (negb (Rltb (THREE.distanceTo p (OptimizedRibbons.lastPosition st))
                  (OptimizedRibbons.MOVEMENT_THRESHOLD cfg))) in
  exists l1,
    (l1 = OptimizedRibbons.trailHistory st \/
     exists q, timestamp q = t_record clk /\
       l1 = inserted (OptimizedRibbons.MAX_TRAIL_POINTS cfg) q (OptimizedRibbons.trailHistory st)) /\
    OptimizedRibbons.trailHistory (OptimizedRibbons.useFrame cfg true mode (Some p) delta clk st)
    = if recorded
      then pruned timestamp (OptimizedRibbons.TRAIL_LIFETIME cfg) (t_prune clk) l1
      else l1.
Proof.
  intros Hm Hi. cbv zeta. unfold OptimizedRibbons.rebuilds.
  destruct (Rlt_dec (THREE.distanceTo p (OptimizedRibbons.lastPosition st))
                    (OptimizedRibbons.MOVEMENT_THRESHOLD cfg)) as [Hd | Hd].
  - exists (OptimizedRibbons.trailHistory st). split; [now left|].
    replace (Rltb _ _) with true by (symmetry; now apply Rltb_true).
    cbn [negb]. rewrite orb_false_r.
    destruct (Nat.eqb_spec (S (OptimizedRibbons.frameCounter st)
                            mod OptimizedRibbons.UPDATE_FREQUENCY cfg) 0) as [Hc | Hc].
    + rewrite OptimizedRibbons_useFrame_scheduled by assumption.
      rewrite OptimizedRibbons_updateAll_trail. reflexivity.
    + rewrite OptimizedRibbons_useFrame_idle by assumption. reflexivity.
  - assert (OptimizedRibbons.MOVEMENT_THRESHOLD cfg
            <= THREE.distanceTo p (OptimizedRibbons.lastPosition st)) as Hd' by lra.
    replace (Rltb _ _) with false by (symmetry; now apply Rltb_false).
    cbn [negb]. rewrite orb_true_r.
    rewrite OptimizedRibbons_useFrame_recorded by assumption.
    rewrite OptimizedRibbons_updateAll_trail.
    destruct (OptimizedRibbons_updateTrailHistory_reached cfg p delta (t_record clk) (tick st) Hd')
      as [vel ->].
    exists (inserted (OptimizedRibbons.MAX_TRAIL_POINTS cfg)
                     (mkTrailPoint p vel (t_record clk)) (OptimizedRibbons.trailHistory st)).
    split; [right; exists (mkTrailPoint p vel (t_record clk)); split; reflexivity | reflexivity].
Qed.

Lemma OptimizedRibbons_useFrame_initialized cfg mode p delta clk st :
  OptimizedRibbons.is_off mode = false ->
  OptimizedRibbons.isInitialized
    (OptimizedRibbons.useFrame cfg true mode (Some p) delta clk st) = true.
Proof.
  intros Hm. destruct (OptimizedRibbons.isInitialized st) eqn:Hi.
  - destruct (Rlt_dec (THREE.distanceTo p (OptimizedRibbons.lastPosition st))
                      (OptimizedRibbons.MOVEMENT_THRESHOLD cfg)) as [Hd | Hd].
    + destruct (Nat.eq_dec (S (OptimizedRibbons.frameCounter st)
                            mod OptimizedRibbons.UPDATE_FREQUENCY cfg) 0) as [Hc | Hc].
      * rewrite OptimizedRibbons_useFrame_scheduled by assumption.
        destruct (OptimizedRibbons_updateAll_frame cfg (fun i => t_build clk i 0%nat)
                    (OptimizedRibbons.prune cfg (t_prune clk) (tick st))) as (H & _).
        cbv zeta in H. rewrite H. exact Hi.
      * rewrite OptimizedRibbons_useFrame_idle by assumption. exact Hi.
    + assert (OptimizedRibbons.MOVEMENT_THRESHOLD cfg
              <= THREE.distanceTo p (OptimizedRibbons.lastPosition st)) as Hd' by lra.
      rewrite OptimizedRibbons_useFrame_recorded by assumption.
      match goal with
      | |- OptimizedRibbons.isInitialized (OptimizedRibbons.updateAll ?c ?n ?s) = _ =>
          destruct (OptimizedRibbons_updateAll_frame c n s) as (H & _)
      end.
      cbv zeta in H. rewrite H.
      destruct (OptimizedRibbons_updateTrailHistory_reached cfg p delta (t_record clk) (tick st) Hd')
        as [vel ->].
      exact Hi.
  - rewrite OptimizedRibbons_useFrame_first by assumption. reflexivity.
Qed.

(** ** C1: the buffer after every frame *)

Definition eager_inv {P : Type} (stamp : P -> R) (max : nat) (lifetime t : R) (l : list P) : Prop :=
  trail_invariant stamp max lifetime t l /\ not_after stamp t l.

Definition pooled_inv (t : R) (st : OptimizedRibbons.State) : Prop :=
  (List.length (OptimizedRibbons.trailHistory st) <= 20)%nat /\
  newest_first timestamp (OptimizedRibbons.trailHistory st) /\
  not_after timestamp t (OptimizedRibbons.trailHistory st) /\
  (OptimizedRibbons.isInitialized st = false -> OptimizedRibbons.trailHistory st = []).

Lemma run_ProperRibbons_inv color frames : forall t0 st,
  clock_chain t0 frames ->
  eager_inv timestamp 15 3000 t0 (ProperRibbons.trailHistory st) ->
  eager_inv timestamp 15 3000 (last_prune t0 frames)
    (ProperRibbons.trailHistory (run_ProperRibbons color frames st)).
Proof.
  induction frames as [|f rest IH]; intros t0 st Hc Hinv; [exact Hinv|].
  destruct Hc as (H01 & H12 & Hrest). destruct Hinv as ((Hlen & _ & Hs) & Hn).
  unfold run_ProperRibbons, last_prune in *. cbn [fold_left].
  apply IH; [exact Hrest|].
  rewrite ProperRibbons_useFrame_trail.
  apply (frame_ok timestamp 15 3000 t0 (t_record (f_clock f)) (t_prune (f_clock f))
           (ProperRibbons.trailHistory st)); auto.
  apply ProperRibbons_record_trail.
Qed.

Lemma run_SpeedTrails_inv color frames : forall t0 st,
  clock_chain t0 frames ->
  eager_inv timestamp 25 2500 t0 (SpeedTrails.trailHistory st) ->
  eager_inv timestamp 25 2500 (last_prune t0 frames)
    (SpeedTrails.trailHistory (run_SpeedTrails color frames st)).
Proof.
  induction frames as [|f rest IH]; intros t0 st Hc Hinv; [exact Hinv|].
  destruct Hc as (H01 & H12 & Hrest). destruct Hinv as ((Hlen & _ & Hs) & Hn).
  unfold run_SpeedTrails, last_prune in *. cbn [fold_left].
  apply IH; [exact Hrest|].
  rewrite SpeedTrails_useFrame_trail.
  apply (frame_ok timestamp 25 2500 t0 (t_record (f_clock f)) (t_prune (f_clock f))
           (SpeedTrails.trailHistory st)); auto.
  apply SpeedTrails_record_trail.
Qed.

Lemma run_SpeedRibbons_inv color frames : forall t0 st,
  clock_chain t0 frames ->
  eager_inv SpeedRibbons.s_timestamp 15 4000 t0 (SpeedRibbons.trailHistory st) ->
  eager_inv SpeedRibbons.s_timestamp 15 4000 (last_prune t0 frames)
    (SpeedRibbons.trailHistory (run_SpeedRibbons color frames st)).
Proof.
  induction frames as [|f rest IH]; intros t0 st Hc Hinv; [exact Hinv|].
  destruct Hc as (H01 & H12 & Hrest). destruct Hinv as ((Hlen & _ & Hs) & Hn).
  unfold run_SpeedRibbons, last_prune in *. cbn [fold_left].
  apply IH; [exact Hrest|].
  rewrite SpeedRibbons_useFrame_trail.
  apply (frame_ok SpeedRibbons.s_timestamp 15 4000 t0 (t_record (f_clock f)) (t_prune (f_clock f))
           (SpeedRibbons.trailHistory st)); auto.
  apply SpeedRibbons_record_trail.
Qed.

Lemma OptimizedRibbons_useFrame_inv f t0 st :
  t0 <= t_record (f_clock f) -> t_record (f_clock f) <= t_prune (f_clock f) ->
  pooled_inv t0 st ->
  pooled_inv (t_prune (f_clock f))
    (OptimizedRibbons.useFrame OptimizedRibbons.config true OptimizedRibbons.both
       (Some (f_position f)) (f_delta f) (f_clock f) st).
Proof.
  intros H01 H12 (Hlen & Hs & Hn & Hempty).
  assert (Hinit := OptimizedRibbons_useFrame_initialized OptimizedRibbons.config
                     OptimizedRibbons.both (f_position f) (f_delta f) (f_clock f) st eq_refl).
  destruct (OptimizedRibbons.isInitialized st) eqn:Hi.
  - destruct (OptimizedRibbons_useFrame_trail OptimizedRibbons.config OptimizedRibbons.both
                (f_position f) (f_delta f) (f_clock f) st eq_refl Hi) as (l1 & Hl1 & Heq).
    cbv zeta in Heq.
    assert ((List.length l1 <= 20)%nat /\ newest_first timestamp l1 /\
            not_after timestamp (t_record (f_clock f)) l1) as (Hlen1 & Hs1 & Hn1).
    { destruct Hl1 as [-> | (q & Hq & ->)].
      - repeat split; auto. now apply not_after_later with t0.
      - apply (inserted_ok timestamp 20 (t_record (f_clock f))); auto.
        now apply not_after_later with t0. }
    unfold pooled_inv. rewrite Heq, Hinit.
    destruct (OptimizedRibbons.rebuilds _ _ _).
    + repeat split.
      * pose proof (pruned_length timestamp 3500 (t_prune (f_clock f)) l1).
        cbn [OptimizedRibbons.TRAIL_LIFETIME OptimizedRibbons.config]. lia.
      * now apply newest_first_filter.
      * apply Forall_filter. now apply not_after_later with (t_record (f_clock f)).
      * discriminate.
    + repeat split; auto.
      * now apply not_after_later with (t_record (f_clock f)).
      * discriminate.
  - unfold pooled_inv.
    rewrite OptimizedRibbons_useFrame_first by (reflexivity || assumption).
    cbn [OptimizedRibbons.trailHistory OptimizedRibbons.isInitialized].
    rewrite (Hempty eq_refl). cbn [app List.length newest_first].
    repeat split; try (constructor; fail); try lia; try discriminate.
    constructor; [exact H12 | constructor].
Qed.

Lemma run_OptimizedRibbons_inv frames : forall t0 st,
  clock_chain t0 frames -> pooled_inv t0 st ->
  pooled_inv (last_prune t0 frames) (run_OptimizedRibbons frames st).
Proof.
  induction frames as [|f rest IH]; intros t0 st Hc Hinv; [exact Hinv|].
  destruct Hc as (H01 & H12 & Hrest).
  unfold run_OptimizedRibbons, last_prune in *. cbn [fold_left].
  apply IH; [exact Hrest|]. now apply OptimizedRibbons_useFrame_inv with t0.
Qed.

(** *** Whatever happens to a component

    Between two renders a component of the three eager variants sees its
    frame callback run, with the [enabled] and [spherePosition] of the last
    render, and its two effects: the seeding effect when [spherePosition]
    changes, the clearing effect when [enabled] changes. *)
Inductive Happening : Type :=
| Rendered (enabled : bool) (spherePosition : option Vector3) (delta : R) (clk : Clock)
| PositionChanged (spherePosition : option Vector3) (now : R)
| EnabledChanged (enabled : bool).

(** The clock never runs backwards: from [t] on, each reading is no
    earlier than the one before.  A frame that returns at once reads no
    clock, nor does the seeding effect without a position. *)
Fixpoint timeline (t : R) (hs : list Happening) : Prop :=
  match hs with
  | [] => True
  | Rendered true (Some _) _ clk :: rest =>
      t <= t_record clk /\ t_record clk <= t_prune clk /\ timeline (t_prune clk) rest
  | PositionChanged (Some _) now :: rest => t <= now /\ timeline now rest
  | _ :: rest => timeline t rest
  end.

Definition happen_ProperRibbons (color : nat -> Color)
    (st : ProperRibbons.State) (h : Happening) : ProperRibbons.State :=
  match h with
  | Rendered enabled sp delta clk =>
      ProperRibbons.useFrame ProperRibbons.config color enabled sp delta clk st
  | PositionChanged sp now => ProperRibbons.initializeTrail sp now st
  | EnabledChanged enabled => ProperRibbons.clearWhenDisabled enabled st
  end.

Definition happen_SpeedTrails (color : nat -> Color)
    (st : SpeedTrails.State) (h : Happening) : SpeedTrails.State :=
  match h with
  | Rendered enabled sp delta clk =>
      SpeedTrails.useFrame SpeedTrails.config color enabled sp delta clk st
  | PositionChanged sp now => SpeedTrails.initializeTrail sp now st
  | EnabledChanged enabled => SpeedTrails.clearWhenDisabled enabled st
  end.

Definition happen_SpeedRibbons (color : nat -> Color)
    (st : SpeedRibbons.State) (h : Happening) : SpeedRibbons.State :=
  match h with
  | Rendered enabled sp _ clk =>
      SpeedRibbons.useFrame SpeedRibbons.config color enabled sp clk st
  | PositionChanged sp now => SpeedRibbons.initializeTrail sp now st
  | EnabledChanged enabled => SpeedRibbons.clearWhenDisabled enabled st
  end.

Definition life_ProperRibbons (color : nat -> Color) (hs : list Happening)
    (st : ProperRibbons.State) : ProperRibbons.State :=
  fold_left (happen_ProperRibbons color) hs st.

Definition life_SpeedTrails (color : nat -> Color) (hs : list Happening)
    (st : SpeedTrails.State) : SpeedTrails.State :=
  fold_left (happen_SpeedTrails color) hs st.

Definition life_SpeedRibbons (color : nat -> Color) (hs : list Happening)
    (st : SpeedRibbons.State) : SpeedRibbons.State :=
  fold_left (happen_SpeedRibbons color) hs st.

(** The pooled variant has no seeding effect; its frame callback and its
    clearing effect read [mode] next to [enabled]. *)
Inductive PooledHappening : Type :=
| PooledRendered (enabled : bool) (mode : OptimizedRibbons.Mode) (sphere : option Vector3)
    (delta : R) (clk : Clock)
| PooledChanged (enabled : bool) (mode : OptimizedRibbons.Mode).

Fixpoint pooled_timeline (t : R) (hs : list PooledHappening) : Prop :=
  match hs with
  | [] => True
  | PooledRendered enabled mode (Some _) _ clk :: rest =>
      if (negb enabled || OptimizedRibbons.is_off mode)%bool then pooled_timeline t rest
      else t <= t_record clk /\ t_record clk <= t_prune clk /\ pooled_timeline (t_prune clk) rest
  | _ :: rest => pooled_timeline t rest
  end.

Definition happen_OptimizedRibbons (st : OptimizedRibbons.State) (h : PooledHappening)
    : OptimizedRibbons.State :=
  match h with
  | PooledRendered enabled mode sphere delta clk =>
      OptimizedRibbons.useFrame OptimizedRibbons.config enabled mode sphere delta clk st
  | PooledChanged enabled mode => OptimizedRibbons.clearWhenDisabled enabled mode st
  end.

Definition life_OptimizedRibbons (hs : list PooledHappening)
    (st : OptimizedRibbons.State) : OptimizedRibbons.State :=
  fold_left happen_OptimizedRibbons hs st.

(** What a buffer satisfies between two happenings, the last reading of
    the clock being [t]. *)
Definition ordered_inv {P : Type} (stamp : P -> R) (max : nat) (t : R) (l : list P) : Prop :=
  (List.length l <= max)%nat /\ newest_first stamp l /\ not_after stamp t l.

Lemma ordered_inv_nil {P : Type} (stamp : P -> R) (max : nat) (t : R) :
  ordered_inv stamp max t [].
Proof. repeat split; [cbn; lia | constructor]. Qed.

Lemma ordered_inv_seed {P : Type} (stamp : P -> R) (max : nat) (t : R) (p : P) :
  (1 <= max)%nat -> stamp p = t -> ordered_inv stamp max t [p].
Proof.
  intros Hm Hp. repeat split; [exact Hm | constructor |].
  constructor; [lra | constructor].
Qed.

Lemma ordered_inv_later {P : Type} (stamp : P -> R) (max : nat) (t t' : R) (l : list P) :
  t <= t' -> ordered_inv stamp max t l -> ordered_inv stamp max t' l.
Proof.
  intros Ht (H1 & H2 & H3). repeat split; auto. now apply not_after_later with t.
Qed.

Lemma ordered_inv_frame {P : Type} (stamp : P -> R) (max : nat) (lifetime t0 t1 t2 : R)
    (l l1 : list P) :
  t0 <= t1 -> t1 <= t2 -> ordered_inv stamp max t0 l ->
  (l1 = l \/ exists p, stamp p = t1 /\ l1 = inserted max p l) ->
  ordered_inv stamp max t2 (pruned stamp lifetime t2 l1).
Proof.
  intros H01 H12 (Hlen & Hs & Hn) Hl1.
  destruct (frame_ok stamp max lifetime t0 t1 t2 l l1 H01 H12 Hlen Hs Hn Hl1)
    as ((G1 & _ & G2) & G3).
  repeat split; assumption.
Qed.

Lemma life_ProperRibbons_inv color hs : forall t0 st,
  timeline t0 hs ->
  ordered_inv timestamp 15 t0 (ProperRibbons.trailHistory st) ->
  exists t, ordered_inv timestamp 15 t
              (ProperRibbons.trailHistory (life_ProperRibbons color hs st)).
Proof.
  induction hs as [|h rest IH]; intros t0 st Hc Hinv; [now exists t0|].
  unfold life_ProperRibbons in *. cbn [fold_left].
  destruct h as [[|] [sp|] delta clk | [sp|] now | [|]];
    cbn [timeline happen_ProperRibbons] in *;
    try (now apply (IH t0)).
  - destruct Hc as (H01 & H12 & Hrest).
    apply (IH (t_prune clk)); [exact Hrest|].
    rewrite ProperRibbons_useFrame_trail.
    apply (ordered_inv_frame timestamp 15 3000 t0 (t_record clk) (t_prune clk)
             (ProperRibbons.trailHistory st)); auto.
    apply ProperRibbons_record_trail.
  - destruct Hc as (H01 & Hrest).
    apply (IH now); [exact Hrest|].
    unfold ProperRibbons.initializeTrail.
    destruct (Nat.eqb_spec (List.length (ProperRibbons.trailHistory st)) 0) as [He | He].
    + apply length_zero_iff_nil in He. rewrite He. cbn.
      apply ordered_inv_seed; [lia | reflexivity].
    + now apply ordered_inv_later with t0.
  - apply (IH t0); [exact Hc|]. cbn. apply ordered_inv_nil.
Qed.

Lemma life_SpeedTrails_inv color hs : forall t0 st,
  timeline t0 hs ->
  ordered_inv timestamp 25 t0 (SpeedTrails.trailHistory st) ->
  exists t, ordered_inv timestamp 25 t
              (SpeedTrails.trailHistory (life_SpeedTrails color hs st)).
Proof.
  induction hs as [|h rest IH]; intros t0 st Hc Hinv; [now exists t0|].
  unfold life_SpeedTrails in *. cbn [fold_left].
  destruct h as [[|] [sp|] delta clk | [sp|] now | [|]];
    cbn [timeline happen_SpeedTrails] in *;
    try (now apply (IH t0)).
  - destruct Hc as (H01 & H12 & Hrest).
    apply (IH (t_prune clk)); [exact Hrest|].
    rewrite SpeedTrails_useFrame_trail.
    apply (ordered_inv_frame timestamp 25 2500 t0 (t_record clk) (t_prune clk)
             (SpeedTrails.trailHistory st)); auto.
    apply SpeedTrails_record_trail.
  - destruct Hc as (H01 & Hrest).
    apply (IH now); [exact Hrest|].
    unfold SpeedTrails.initializeTrail.
    destruct (Nat.eqb_spec (List.length (SpeedTrails.trailHistory st)) 0) as [He | He].
    + apply length_zero_iff_nil in He. rewrite He. cbn.
      apply ordered_inv_seed; [lia | reflexivity].
    + now apply ordered_inv_later with t0.
  - apply (IH t0); [exact Hc|]. cbn. apply ordered_inv_nil.
Qed.

Lemma life_SpeedRibbons_inv color hs : forall t0 st,
  timeline t0 hs ->
  ordered_inv SpeedRibbons.s_timestamp 15 t0 (SpeedRibbons.trailHistory st) ->
  exists t, ordered_inv SpeedRibbons.s_timestamp 15 t
              (SpeedRibbons.trailHistory (life_SpeedRibbons color hs st)).
Proof.
  induction hs as [|h rest IH]; intros t0 st Hc Hinv; [now exists t0|].
  unfold life_SpeedRibbons in *. cbn [fold_left].
  destruct h as [[|] [sp|] delta clk | [sp|] now | [|]];
    cbn [timeline happen_SpeedRibbons] in *;
    try (now apply (IH t0)).
  - destruct Hc as (H01 & H12 & Hrest).
    apply (IH (t_prune clk)); [exact Hrest|].
    rewrite SpeedRibbons_useFrame_trail.
    apply (ordered_inv_frame SpeedRibbons.s_timestamp 15 4000 t0 (t_record clk) (t_prune clk)
             (SpeedRibbons.trailHistory st)); auto.
    apply SpeedRibbons_record_trail.
  - destruct Hc as (H01 & Hrest).
    apply (IH now); [exact Hrest|].
    unfold SpeedRibbons.initializeTrail.
    destruct (Nat.eqb_spec (List.length (SpeedRibbons.trailHistory st)) 0) as [He | He].
    + apply length_zero_iff_nil in He. rewrite He. cbn.
      apply ordered_inv_seed; [lia | reflexivity].
    + now apply ordered_inv_later with t0.
  - apply (IH t0); [exact Hc|]. cbn. apply ordered_inv_nil.
Qed.

(** One frame of the pooled variant, enabled, in any mode but [off]. *)
Lemma OptimizedRibbons_useFrame_inv_mode mode p delta clk t0 st :
  OptimizedRibbons.is_off mode = false ->
  t0 <= t_record clk -> t_record clk <= t_prune clk ->
  pooled_inv t0 st ->
  pooled_inv (t_prune clk)
    (OptimizedRibbons.useFrame OptimizedRibbons.config true mode (Some p) delta clk st).
Proof.
  intros Hm H01 H12 (Hlen & Hs & Hn & Hempty).
  assert (Hinit := OptimizedRibbons_useFrame_initialized OptimizedRibbons.config
                     mode p delta clk st Hm).
  destruct (OptimizedRibbons.isInitialized st) eqn:Hi.
  - destruct (OptimizedRibbons_useFrame_trail OptimizedRibbons.config mode
                p delta clk st Hm Hi) as (l1 & Hl1 & Heq).
    cbv zeta in Heq.
    assert ((List.length l1 <= 20)%nat /\ newest_first timestamp l1 /\
            not_after timestamp (t_record clk) l1) as (Hlen1 & Hs1 & Hn1).
    { destruct Hl1 as [-> | (q & Hq & ->)].
      - repeat split; auto. now apply not_after_later with t0.
      - apply (inserted_ok timestamp 20 (t_record clk)); auto.
        now apply not_after_later with t0. }
    unfold pooled_inv. rewrite Heq, Hinit.
    destruct (OptimizedRibbons.rebuilds _ _ _).
    + repeat split.
      * pose proof (pruned_length timestamp 3500 (t_prune clk) l1).
        cbn [OptimizedRibbons.TRAIL_LIFETIME OptimizedRibbons.config]. lia.
      * now apply newest_first_filter.
      * apply Forall_filter. now apply not_after_later with (t_record clk).
      * discriminate.
    + repeat split; auto.
      * now apply not_after_later with (t_record clk).
      * discriminate.
  - unfold pooled_inv.
    rewrite OptimizedRibbons_useFrame_first by assumption.
    cbn [OptimizedRibbons.trailHistory OptimizedRibbons.isInitialized].
    rewrite (Hempty eq_refl). cbn [app List.length newest_first].
    repeat split; try (constructor; fail); try lia; try discriminate.
    constructor; [exact H12 | constructor].
Qed.

Lemma life_OptimizedRibbons_inv hs : forall t0 st,
  pooled_timeline t0 hs -> pooled_inv t0 st ->
  exists t, pooled_inv t (life_OptimizedRibbons hs st).
Proof.
  induction hs as [|h rest IH]; intros t0 st Hc Hinv; [now exists t0|].
  unfold life_OptimizedRibbons in *. cbn [fold_left].
  destruct h as [enabled mode [p|] delta clk | enabled mode];
    cbn [pooled_timeline happen_OptimizedRibbons] in *.
  - unfold OptimizedRibbons.useFrame at 1.
    destruct (negb enabled || OptimizedRibbons.is_off mode)%bool eqn:Hoff.
    + now apply (IH t0).
    + destruct Hc as (H01 & H12 & Hrest).
      apply orb_false_elim in Hoff. destruct Hoff as (He & Hm).
      apply negb_false_iff in He. subst enabled.
      apply (IH (t_prune clk)); [exact Hrest|].
      pose proof (OptimizedRibbons_useFrame_inv_mode mode p delta clk t0 st Hm H01 H12 Hinv) as G.
      unfold OptimizedRibbons.useFrame in G. rewrite Hm in G. exact G.
  - apply (IH t0); [exact Hc|].
    unfold OptimizedRibbons.useFrame.
    destruct (negb enabled || OptimizedRibbons.is_off mode)%bool; exact Hinv.
  - apply (IH t0); [exact Hc|].
    unfold OptimizedRibbons.clearWhenDisabled.
    destruct (negb enabled || OptimizedRibbons.is_off mode)%bool; [|exact Hinv].
    destruct Hinv as (_ & _ & _ & He).
    unfold pooled_inv. cbn. repeat split; try constructor; lia.
Qed.

(** C1 (as amended).  Whatever happens to a component from its mount on,
    frames rendered enabled or disabled, with or without a sphere
    position, and runs of its effects, as long as the clock never runs
    backwards: the buffer of ProperRibbons and of SpeedRibbons holds at
    most 15 points, that of SpeedTrails at most 25, that of
    OptimizedRibbons at most 20, and the timestamps never decrease in
    insertion order (newest at the front).  After each frame of
    ProperRibbons, SpeedRibbons and SpeedTrails that is rendered enabled
    and with a sphere position, every point of the buffer is younger than
    the lifetime at the frame's pruning time.  In OptimizedRibbons this
    holds after each such frame of an initialised component that prunes,
    which is every third tick and every tick that records a sample. *)
Theorem trail_buffer_invariant :
  (forall color t0 hs, timeline t0 hs ->
     let st := life_ProperRibbons color hs
                 (ProperRibbons.initialState ProperRibbons.config) in
     (List.length (ProperRibbons.trailHistory st) <= 15)%nat /\
     newest_first timestamp (ProperRibbons.trailHistory st)) /\
  (forall color t0 hs, timeline t0 hs ->
     let st := life_SpeedRibbons color hs
                 (SpeedRibbons.initialState SpeedRibbons.config) in
     (List.length (SpeedRibbons.trailHistory st) <= 15)%nat /\
     newest_first SpeedRibbons.s_timestamp (SpeedRibbons.trailHistory st)) /\
  (forall color t0 hs, timeline t0 hs ->
     let st := life_SpeedTrails color hs
                 (SpeedTrails.initialState SpeedTrails.config) in
     (List.length (SpeedTrails.trailHistory st) <= 25)%nat /\
     newest_first timestamp (SpeedTrails.trailHistory st)) /\
  (forall t0 hs, pooled_timeline t0 hs ->
     let st := life_OptimizedRibbons hs
                 (OptimizedRibbons.initialState OptimizedRibbons.config) in
     (List.length (OptimizedRibbons.trailHistory st) <= 20)%nat /\
     newest_first timestamp (OptimizedRibbons.trailHistory st)) /\
  (forall color hs sp delta clk,
     fresh timestamp 3000 (t_prune clk)
       (ProperRibbons.trailHistory
          (life_ProperRibbons color (hs ++ [Rendered true (Some sp) delta clk])
             (ProperRibbons.initialState ProperRibbons.config)))) /\
  (forall color hs sp delta clk,
     fresh SpeedRibbons.s_timestamp 4000 (t_prune clk)
       (SpeedRibbons.trailHistory
          (life_SpeedRibbons color (hs ++ [Rendered true (Some sp) delta clk])
             (SpeedRibbons.initialState SpeedRibbons.config)))) /\
  (forall color hs sp delta clk,
     fresh timestamp 2500 (t_prune clk)
       (SpeedTrails.trailHistory
          (life_SpeedTrails color (hs ++ [Rendered true (Some sp) delta clk])
             (SpeedTrails.initialState SpeedTrails.config)))) /\
  (forall hs mode p delta clk,
     let st := life_OptimizedRibbons hs
                 (OptimizedRibbons.initialState OptimizedRibbons.config) in
     OptimizedRibbons.is_off mode = false ->
     OptimizedRibbons.isInitialized st = true ->
     pruning_tick (mkFrame p delta clk) st = true ->
     fresh timestamp 3500 (t_prune clk)
       (OptimizedRibbons.trailHistory
          (life_OptimizedRibbons (hs ++ [PooledRendered true mode (Some p) delta clk])
             (OptimizedRibbons.initialState OptimizedRibbons.config)))).
Proof.
  refine (conj _ (conj _ (conj _ (conj _ (conj _ (conj _ (conj _ _))))))).
  - intros color t0 hs Hc st.
    destruct (life_ProperRibbons_inv color hs t0
                (ProperRibbons.initialState ProperRibbons.config) Hc
                (ordered_inv_nil timestamp 15 t0)) as (t & H1 & H2 & _).
    split; assumption.
  - intros color t0 hs Hc st.
    destruct (life_SpeedRibbons_inv color hs t0
                (SpeedRibbons.initialState SpeedRibbons.config) Hc
                (ordered_inv_nil SpeedRibbons.s_timestamp 15 t0)) as (t & H1 & H2 & _).
    split; assumption.
  - intros color t0 hs Hc st.
    destruct (life_SpeedTrails_inv color hs t0
                (SpeedTrails.initialState SpeedTrails.config) Hc
                (ordered_inv_nil timestamp 25 t0)) as (t & H1 & H2 & _).
    split; assumption.
  - intros t0 hs Hc st.
    destruct (life_OptimizedRibbons_inv hs t0
                (OptimizedRibbons.initialState OptimizedRibbons.config) Hc) as (t & H1 & H2 & _).
    { unfold pooled_inv; cbn. repeat split; try constructor; lia. }
    split; assumption.
  - intros color hs sp delta clk.
    unfold life_ProperRibbons. rewrite fold_left_app. cbn [fold_left happen_ProperRibbons].
    rewrite ProperRibbons_useFrame_trail. apply (pruned_fresh timestamp).
  - intros color hs sp delta clk.
    unfold life_SpeedRibbons. rewrite fold_left_app. cbn [fold_left happen_SpeedRibbons].
    rewrite SpeedRibbons_useFrame_trail. apply (pruned_fresh SpeedRibbons.s_timestamp).
  - intros color hs sp delta clk.
    unfold life_SpeedTrails. rewrite fold_left_app. cbn [fold_left happen_SpeedTrails].
    rewrite SpeedTrails_useFrame_trail. apply (pruned_fresh timestamp).
  - intros hs mode p delta clk st Hm Hi Ht.
    unfold life_OptimizedRibbons. rewrite fold_left_app. cbn [fold_left happen_OptimizedRibbons].
    fold (life_OptimizedRibbons hs (OptimizedRibbons.initialState OptimizedRibbons.config)).
    fold st.
    destruct (OptimizedRibbons_useFrame_trail OptimizedRibbons.config mode
                p delta clk st Hm Hi) as (l1 & _ & Heq).
    cbv zeta in Heq. rewrite Heq.
    unfold pruning_tick in Ht. cbn [f_position] in Ht. rewrite Ht.
    apply (pruned_fresh timestamp).
Qed.

(** Two frames of a sphere at rest: the first one seeds the trail at time
    0, the second one comes 4000 ms later. *)
Definition resting_frames : list Frame :=
  [ mkFrame THREE.zero (1 / 60) (mkClock 0 0 (fun _ _ => 0));
    mkFrame THREE.zero (1 / 60) (mkClock 4000 4000 (fun _ _ => 4000)) ].

Lemma resting_frames_run :
  run_OptimizedRibbons resting_frames (OptimizedRibbons.initialState OptimizedRibbons.config)
  = tick (OptimizedRibbons.useFrame OptimizedRibbons.config true OptimizedRibbons.both
            (Some THREE.zero) (1 / 60) (mkClock 0 0 (fun _ _ => 0))
            (OptimizedRibbons.initialState OptimizedRibbons.config)).
Proof.
  unfold run_OptimizedRibbons, resting_frames. cbn [fold_left f_position f_delta f_clock].
  pose proof (OptimizedRibbons_useFrame_first OptimizedRibbons.config OptimizedRibbons.both
                THREE.zero (1 / 60) (mkClock 0 0 (fun _ _ => 0))
                (OptimizedRibbons.initialState OptimizedRibbons.config) eq_refl eq_refl) as E.
  apply OptimizedRibbons_useFrame_idle; rewrite ?E; try reflexivity.
  - cbn [OptimizedRibbons.lastPosition]. rewrite distanceTo_self. cbn. lra.
  - cbn. lia.
Qed.

(** C1, counterexample.  In OptimizedRibbons a frame that neither records
    a sample nor falls on the update frequency does not prune: the point
    stamped 0 is still in the buffer at time 4000, although the lifetime is
    3500. *)
Lemma stale_point_survives_unpruned_frame :
  clock_chain 0 resting_frames /\
  ~ trail_invariant timestamp 20 3500 (last_prune 0 resting_frames)
      (OptimizedRibbons.trailHistory
         (run_OptimizedRibbons resting_frames
            (OptimizedRibbons.initialState OptimizedRibbons.config))).
Proof.
  split.
  - cbn. lra.
  - rewrite resting_frames_run.
    rewrite (OptimizedRibbons_useFrame_first OptimizedRibbons.config OptimizedRibbons.both
               THREE.zero (1 / 60) (mkClock 0 0 (fun _ _ => 0))
               (OptimizedRibbons.initialState OptimizedRibbons.config) eq_refl eq_refl).
    cbn. intros (_ & Hfresh & _). inversion Hfresh as [|? ? Hage _]; subst.
    cbn in Hage. lra.
Qed.

Definition first_frame : Frame :=
  mkFrame THREE.zero (1 / 60) (mkClock 0 0 (fun _ _ => 0)).

(** A frame, 16 ms later, in which the sphere has moved one unit along x. *)
Definition moving_frame : Frame :=
  mkFrame (Vec3 1 0 0) (1 / 60) (mkClock 16 16 (fun _ _ => 16)).

Lemma first_frame_run :
  run_OptimizedRibbons [first_frame] (OptimizedRibbons.initialState OptimizedRibbons.config)
  = OptimizedRibbons.mkState [mkTrailPoint THREE.zero THREE.zero 0] THREE.zero THREE.zero 0 true
      (OptimizedRibbons.freshBuffers OptimizedRibbons.config)
      (repeat (OptimizedRibbons.freshGeometry OptimizedRibbons.config) OptimizedRibbons.RIBBON_COUNT).
Proof.
  unfold run_OptimizedRibbons, first_frame. cbn [fold_left f_position f_delta f_clock].
  now rewrite OptimizedRibbons_useFrame_first.
Qed.

Lemma moving_frame_prunes :
  pruning_tick moving_frame
    (run_OptimizedRibbons [first_frame] (OptimizedRibbons.initialState OptimizedRibbons.config))
  = true.
Proof.
  rewrite first_frame_run. unfold pruning_tick, moving_frame.
  cbn [f_position OptimizedRibbons.lastPosition OptimizedRibbons.frameCounter].
  rewrite distanceTo_along_x by lra.
  replace (Rltb 1 _) with false by (symmetry; apply Rltb_false; cbn; lra).
  unfold OptimizedRibbons.rebuilds. now rewrite orb_true_r.
Qed.

(** The freshness of the three eager variants stops at the frames that
    return at once.  ProperRibbons: the seeding effect puts a point stamped
    0 into the buffer; a frame rendered disabled 4000 ms later leaves it
    there, although the lifetime is 3000. *)
Lemma seeded_point_survives_disabled_frame :
  let hs := [PositionChanged (Some THREE.zero) 0;
             Rendered false (Some THREE.zero) (1 / 60) (mkClock 4000 4000 (fun _ _ => 4000))] in
  timeline 0 hs /\
  ~ fresh timestamp 3000 4000
      (ProperRibbons.trailHistory
         (life_ProperRibbons (fun _ => white) hs
            (ProperRibbons.initialState ProperRibbons.config))).
Proof.
  cbv zeta. split.
  - cbn. lra.
  - cbn. intros Hfresh. inversion Hfresh as [|? ? Hage _]; subst.
    cbn in Hage. lra.
Qed.

(** A life of an eager component: seeded at time 0, a frame 16 ms later
    with the sphere one unit further, then disabled and cleared, a frame
    rendered disabled, the sphere's position changed at time 5000, enabled
    again. *)
Definition eventful_life : list Happening :=
  [ PositionChanged (Some THREE.zero) 0;
    Rendered true (Some (Vec3 1 0 0)) (1 / 60) (mkClock 16 16 (fun _ _ => 16));
    EnabledChanged false;
    Rendered false (Some (Vec3 2 0 0)) (1 / 60) (mkClock 4000 4000 (fun _ _ => 4000));
    PositionChanged (Some (Vec3 2 0 0)) 5000;
    EnabledChanged true ].

(** A life of the pooled component: the first frame, a frame rendered in
    mode [off], the clearing effect, a frame without a sphere. *)
Definition pooled_eventful_life : list PooledHappening :=
  [ PooledRendered true OptimizedRibbons.both (Some THREE.zero) (1 / 60)
      (mkClock 0 0 (fun _ _ => 0));
    PooledRendered true OptimizedRibbons.off (Some (Vec3 1 0 0)) (1 / 60)
      (mkClock 16 16 (fun _ _ => 16));
    PooledChanged true OptimizedRibbons.off;
    PooledRendered true OptimizedRibbons.speed None (1 / 60)
      (mkClock 32 32 (fun _ _ => 32)) ].

Lemma trail_buffer_invariant_witness :
  (let st := life_ProperRibbons (fun _ => white) eventful_life
               (ProperRibbons.initialState ProperRibbons.config) in
   (List.length (ProperRibbons.trailHistory st) <= 15)%nat /\
   newest_first timestamp (ProperRibbons.trailHistory st)) /\
  (let st := life_SpeedRibbons (fun _ => white) eventful_life
               (SpeedRibbons.initialState SpeedRibbons.config) in
   (List.length (SpeedRibbons.trailHistory st) <= 15)%nat /\
   newest_first SpeedRibbons.s_timestamp (SpeedRibbons.trailHistory st)) /\
  (let st := life_SpeedTrails (fun _ => white) eventful_life
               (SpeedTrails.initialState SpeedTrails.config) in
   (List.length (SpeedTrails.trailHistory st) <= 25)%nat /\
   newest_first timestamp (SpeedTrails.trailHistory st)) /\
  (let st := life_OptimizedRibbons pooled_eventful_life
               (OptimizedRibbons.initialState OptimizedRibbons.config) in
   (List.length (OptimizedRibbons.trailHistory st) <= 20)%nat /\
   newest_first timestamp (OptimizedRibbons.trailHistory st)) /\
  fresh timestamp 3000 6000
    (ProperRibbons.trailHistory
       (life_ProperRibbons (fun _ => white)
          (eventful_life
           ++ [Rendered true (Some (Vec3 3 0 0)) (1 / 60) (mkClock 6000 6000 (fun _ _ => 6000))])
          (ProperRibbons.initialState ProperRibbons.config))) /\
  fresh SpeedRibbons.s_timestamp 4000 6000
    (SpeedRibbons.trailHistory
       (life_SpeedRibbons (fun _ => white)
          (eventful_life
           ++ [Rendered true (Some (Vec3 3 0 0)) (1 / 60) (mkClock 6000 6000 (fun _ _ => 6000))])
          (SpeedRibbons.initialState SpeedRibbons.config))) /\
  fresh timestamp 2500 6000
    (SpeedTrails.trailHistory
       (life_SpeedTrails (fun _ => white)
          (eventful_life
           ++ [Rendered true (Some (Vec3 3 0 0)) (1 / 60) (mkClock 6000 6000 (fun _ _ => 6000))])
          (SpeedTrails.initialState SpeedTrails.config))) /\
  fresh timestamp 3500 16
    (OptimizedRibbons.trailHistory
       (life_OptimizedRibbons
          ([PooledRendered true OptimizedRibbons.both (Some THREE.zero) (1 / 60)
              (mkClock 0 0 (fun _ _ => 0))]
           ++ [PooledRendered true OptimizedRibbons.speed (Some (Vec3 1 0 0)) (1 / 60)
                 (mkClock 16 16 (fun _ _ => 16))])
          (OptimizedRibbons.initialState OptimizedRibbons.config))).
Proof.
  destruct trail_buffer_invariant as (H1 & H2 & H3 & H4 & H5 & H6 & H7 & H8).
  refine (conj _ (conj _ (conj _ (conj _ (conj _ (conj _ (conj _ _))))))).
  - apply (H1 (fun _ => white) 0 eventful_life). cbn. lra.
  - apply (H2 (fun _ => white) 0 eventful_life). cbn. lra.
  - apply (H3 (fun _ => white) 0 eventful_life). cbn. lra.
  - apply (H4 0 pooled_eventful_life). cbn. lra.
  - apply (H5 (fun _ => white) eventful_life (Vec3 3 0 0) (1 / 60)
              (mkClock 6000 6000 (fun _ _ => 6000))).
  - apply (H6 (fun _ => white) eventful_life (Vec3 3 0 0) (1 / 60)
              (mkClock 6000 6000 (fun _ _ => 6000))).
  - apply (H7 (fun _ => white) eventful_life (Vec3 3 0 0) (1 / 60)
              (mkClock 6000 6000 (fun _ _ => 6000))).
  - apply (H8 [PooledRendered true OptimizedRibbons.both (Some THREE.zero) (1 / 60)
                 (mkClock 0 0 (fun _ _ => 0))]
              OptimizedRibbons.speed (Vec3 1 0 0) (1 / 60) (mkClock 16 16 (fun _ _ => 16))).
    + reflexivity.
    + change (OptimizedRibbons.isInitialized
                (run_OptimizedRibbons [first_frame]
                   (OptimizedRibbons.initialState OptimizedRibbons.config)) = true).
      rewrite first_frame_run. reflexivity.
    + exact moving_frame_prunes.
Defined.

(** ** C3: the movement threshold *)

(** C3 (as amended).  In ProperRibbons a position whose distance to the
    last recorded one is at most the threshold leaves the state as it was
    (no point appended, last recorded position unchanged), and the state
    changes only when the distance exceeds the threshold.  In
    OptimizedRibbons [updateTrailHistory] is a no-op when the distance is
    below the threshold and puts a point at the front of the trail as soon
    as the distance reaches it. *)
Theorem record_respects_threshold :
  (forall cfg sp delta now (st : ProperRibbons.State),
     THREE.distanceTo sp (ProperRibbons.lastPosition st) <= ProperRibbons.MOVEMENT_THRESHOLD cfg ->
     ProperRibbons.record cfg sp delta now st = st) /\
  (forall cfg sp delta now (st : ProperRibbons.State),
     ProperRibbons.record cfg sp delta now st <> st ->
     THREE.distanceTo sp (ProperRibbons.lastPosition st) > ProperRibbons.MOVEMENT_THRESHOLD cfg) /\
  (forall cfg p delta now (st : OptimizedRibbons.State),
     THREE.distanceTo p (OptimizedRibbons.lastPosition st) < OptimizedRibbons.MOVEMENT_THRESHOLD cfg ->
     OptimizedRibbons.updateTrailHistory cfg p delta now st = (st, false)) /\
  (forall cfg p delta now (st : OptimizedRibbons.State),
     (1 <= OptimizedRibbons.MAX_TRAIL_POINTS cfg)%nat ->
     OptimizedRibbons.MOVEMENT_THRESHOLD cfg <= THREE.distanceTo p (OptimizedRibbons.lastPosition st) ->
     let result := OptimizedRibbons.updateTrailHistory cfg p delta now st in
     snd result = true /\
     OptimizedRibbons.lastPosition (fst result) = p /\
     exists vel, hd_error (OptimizedRibbons.trailHistory (fst result))
                 = Some (mkTrailPoint p vel now)).
Proof.
  refine (conj _ (conj _ (conj _ _))).
  - intros cfg sp delta now st H. unfold ProperRibbons.record; cbv zeta.
    destruct (Rgt_dec _ _); [lra | reflexivity].
  - intros cfg sp delta now st H. unfold ProperRibbons.record in H; cbv zeta in H.
    destruct (Rgt_dec _ _); [assumption | now elim H].
  - intros. now apply OptimizedRibbons_updateTrailHistory_below.
  - intros cfg p delta now st Hmax H result. subst result.
    destruct (OptimizedRibbons_updateTrailHistory_reached cfg p delta now st H) as [vel ->].
    cbn [fst snd OptimizedRibbons.lastPosition OptimizedRibbons.trailHistory].
    repeat split. exists vel. rewrite inserted_prefix.
    destruct (OptimizedRibbons.MAX_TRAIL_POINTS cfg); [lia | reflexivity].
Qed.

(** An initialised pooled component whose last recorded position is the
    origin. *)
Definition pooled_at_origin : OptimizedRibbons.State :=
  OptimizedRibbons.mkState [mkTrailPoint THREE.zero THREE.zero 0] THREE.zero THREE.zero 0 true
    (OptimizedRibbons.freshBuffers OptimizedRibbons.config)
    (repeat (OptimizedRibbons.freshGeometry OptimizedRibbons.config) OptimizedRibbons.RIBBON_COUNT).

(** C3, counterexample.  A position at distance exactly 0.03, the
    threshold of OptimizedRibbons, from the last recorded one is recorded:
    the trail grows from one point to two and the last position moves. *)
Lemma threshold_distance_is_recorded :
  let p := Vec3 0.03 0 0 in
  let result := OptimizedRibbons.updateTrailHistory OptimizedRibbons.config p (1 / 60) 16
                  pooled_at_origin in
  THREE.distanceTo p (OptimizedRibbons.lastPosition pooled_at_origin)
    <= OptimizedRibbons.MOVEMENT_THRESHOLD OptimizedRibbons.config /\
  List.length (OptimizedRibbons.trailHistory (fst result)) = 2%nat /\
  OptimizedRibbons.lastPosition (fst result) = p /\
  fst result <> pooled_at_origin.
Proof.
  cbv zeta.
  assert (THREE.distanceTo (Vec3 0.03 0 0) (OptimizedRibbons.lastPosition pooled_at_origin) = 0.03) as Hd.
  { cbn [pooled_at_origin OptimizedRibbons.lastPosition]. apply distanceTo_along_x. lra. }
  split; [rewrite Hd; cbn; lra|].
  destruct (OptimizedRibbons_updateTrailHistory_reached OptimizedRibbons.config (Vec3 0.03 0 0)
              (1 / 60) 16 pooled_at_origin) as [vel ->].
  { rewrite Hd. cbn. lra. }
  cbn. repeat split. intros E. discriminate E.
Qed.

Lemma ProperRibbons_record_moved :
  ProperRibbons.record ProperRibbons.config (Vec3 1 0 0) (1 / 60) 16 seeded_ProperRibbons
  <> seeded_ProperRibbons.
Proof.
  unfold ProperRibbons.record; cbv zeta.
  cbn [seeded_ProperRibbons ProperRibbons.initializeTrail ProperRibbons.initialState
       ProperRibbons.trailHistory List.length Nat.eqb ProperRibbons.lastPosition].
  rewrite distanceTo_along_x by lra.
  destruct (Rgt_dec 1 _) as [_ | H]; [|exfalso; apply H; cbn; lra].
  cbn. intros E. discriminate E.
Qed.

Lemma record_respects_threshold_witness :
  ProperRibbons.record ProperRibbons.config THREE.zero (1 / 60) 16 seeded_ProperRibbons
  = seeded_ProperRibbons /\
  THREE.distanceTo (Vec3 1 0 0) (ProperRibbons.lastPosition seeded_ProperRibbons)
  > ProperRibbons.MOVEMENT_THRESHOLD ProperRibbons.config /\
  OptimizedRibbons.updateTrailHistory OptimizedRibbons.config THREE.zero (1 / 60) 16 pooled_at_origin
  = (pooled_at_origin, false) /\
  (let result := OptimizedRibbons.updateTrailHistory OptimizedRibbons.config (Vec3 1 0 0)
                   (1 / 60) 16 pooled_at_origin in
   snd result = true /\
   OptimizedRibbons.lastPosition (fst result) = Vec3 1 0 0 /\
   exists vel, hd_error (OptimizedRibbons.trailHistory (fst result))
               = Some (mkTrailPoint (Vec3 1 0 0) vel 16)).
Proof.
  destruct record_respects_threshold as (H1 & H2 & H3 & H4).
  refine (conj _ (conj _ (conj _ _))).
  - apply H1. cbn [seeded_ProperRibbons ProperRibbons.initializeTrail ProperRibbons.initialState
                   ProperRibbons.trailHistory List.length Nat.eqb ProperRibbons.lastPosition].
    rewrite distanceTo_self. cbn. lra.
  - apply (H2 ProperRibbons.config (Vec3 1 0 0) (1 / 60) 16). exact ProperRibbons_record_moved.
  - apply H3. cbn [pooled_at_origin OptimizedRibbons.lastPosition].
    rewrite distanceTo_self. cbn. lra.
  - apply H4.
    + cbn. lia.
    + cbn [pooled_at_origin OptimizedRibbons.lastPosition].
      rewrite distanceTo_along_x by lra. cbn. lra.
Defined.

(** ** Typed-array writes *)

(** Consecutive writes [l[i] = v0; l[i + 1] = v1; ...]. *)
Fixpoint store_block {A : Type} (i : nat) (vals : list A) (l : list A) : list A :=
  match vals with
  | [] => l
  | v :: vs => store_block (S i) vs (store i v l)
  end.

Lemma store_length {A : Type} (i : nat) (v : A) (l : list A) :
  List.length (store i v l) = List.length l.
Proof.
  revert i; induction l as [|a l IH]; intros [|i]; simpl; auto.
Qed.

Lemma store_nth {A : Type} (i : nat) (v : A) (l : list A) (k : nat) (d : A) :
  nth k (store i v l) d
  = if ((k =? i) && (i <? List.length l))%nat then v else nth k l d.
Proof.
  revert i k; induction l as [|a l IH]; intros i k.
  - simpl. destruct k, i; simpl; try reflexivity;
      now rewrite ?andb_false_r.
  - destruct i as [|i], k as [|k]; simpl; try reflexivity.
    rewrite IH. reflexivity.
Qed.

Lemma store_block_length {A : Type} (vals : list A) : forall i l,
  List.length (store_block i vals l) = List.length l.
Proof.
  induction vals as [|v vs IH]; intros i l; simpl; [reflexivity|].
  now rewrite IH, store_length.
Qed.

Lemma store_block_nth {A : Type} (vals : list A) (d : A) : forall i l k,
  nth k (store_block i vals l) d
  = if ((i <=? k) && (k <? i + List.length vals) && (k <? List.length l))%nat
    then nth (k - i) vals d else nth k l d.
Proof.
  induction vals as [|v vs IH]; intros i l k; simpl.
  - destruct (Nat.leb_spec i k), (Nat.ltb_spec k (i + 0)); simpl; try reflexivity; lia.
  - rewrite IH, store_length, store_nth.
    destruct (Nat.leb_spec (S i) k), (Nat.ltb_spec k (S i + List.length vs)),
             (Nat.ltb_spec k (List.length l)), (Nat.leb_spec i k),
             (Nat.ltb_spec k (i + S (List.length vs))), (Nat.eqb_spec k i),
             (Nat.ltb_spec i (List.length l)); simpl; try lia; try reflexivity.
    + destruct (k - i)%nat as [|m] eqn:E; [lia|]. f_equal. lia.
    + subst k. now rewrite Nat.sub_diag.
Qed.

Lemma store_firstn {A : Type} (v : A) (l : list A) : forall i,
  (i < List.length l)%nat -> firstn (S i) (store i v l) = firstn i l ++ [v].
Proof.
  induction l as [|a l IH]; intros [|i] H; simpl in *; try lia.
  - reflexivity.
  - f_equal. apply IH. lia.
Qed.

Lemma store_block_nth_in {A : Type} (vals l : list A) (k : nat) (d : A) :
  (k < List.length vals)%nat -> (List.length vals <= List.length l)%nat ->
  nth k (store_block 0 vals l) d = nth k vals d.
Proof.
  intros Hk Hl. rewrite store_block_nth.
  destruct (Nat.leb_spec 0 k), (Nat.ltb_spec k (0 + List.length vals)),
           (Nat.ltb_spec k (List.length l)); cbn [andb]; try lia.
  now rewrite Nat.sub_0_r.
Qed.

(** Writes that start where the valid prefix ends extend the prefix. *)
Lemma store_block_prefix {A : Type} (vals : list A) : forall i l,
  (i + List.length vals <= List.length l)%nat ->
  firstn (i + List.length vals) (store_block i vals l) = firstn i l ++ vals.
Proof.
  induction vals as [|v vs IH]; intros i l Hfit; simpl in *.
  - now rewrite Nat.add_0_r, app_nil_r.
  - replace (i + S (List.length vs))%nat with (S i + List.length vs)%nat by lia.
    rewrite IH by (rewrite store_length; lia).
    rewrite store_firstn by lia. now rewrite <- app_assoc.
Qed.

(** ** The pooled builder, segment by segment *)

Section PooledBuilder.

Variable cfg : OptimizedRibbons.Config.
Variable trail : list TrailPoint.
Variable ribbonIndex : nat.
Variable currentTime : R.

(** Is segment [i] emitted?  The source skips it when its age fade is at
    most 0.01. *)
Definition segment_kept (i : nat) : bool :=
  negb (Rleb (OptimizedRibbons.ageFadeOf cfg currentTime (OptimizedRibbons.trailAt trail i)) 0.01).

(** The twelve numbers segment [i] writes into the position array. *)
Definition segmentPositions (i : nat) : list R :=
  let c1 := OptimizedRibbons.centerAt cfg trail ribbonIndex i in
  let c2 := OptimizedRibbons.centerAt cfg trail ribbonIndex (i + 1) in
  let dir := OptimizedRibbons.directionAt cfg trail ribbonIndex i in
  let width := OptimizedRibbons.halfWidthAt cfg trail i in
  let widthX := THREE.z dir * width in
  let widthZ := - THREE.x dir * width in
  [ THREE.x c1 - widthX; THREE.y c1; THREE.z c1 - widthZ;
    THREE.x c1 + widthX; THREE.y c1; THREE.z c1 + widthZ;
    THREE.x c2 - widthX; THREE.y c2; THREE.z c2 - widthZ;
    THREE.x c2 + widthX; THREE.y c2; THREE.z c2 + widthZ ].

Definition segmentColors (i : nat) : list R :=
  let c := THREE.scaleColor (OptimizedRibbons.materialColor ribbonIndex)
             (OptimizedRibbons.alphaOf cfg trail currentTime i) in
  [ THREE.r c; THREE.g c; THREE.b c; THREE.r c; THREE.g c; THREE.b c;
    THREE.r c; THREE.g c; THREE.b c; THREE.r c; THREE.g c; THREE.b c ].

Definition segmentIndices (baseIndex : nat) : list nat :=
  [ baseIndex; baseIndex + 1; baseIndex + 2; baseIndex + 1; baseIndex + 3; baseIndex + 2 ]%nat.

Ltac align_stores :=
  repeat match goal with
  | |- store ?i ?v ?l = store ?j ?v ?m =>
      replace i with j by lia; apply f_equal
  end; try reflexivity.

Lemma segmentStep_skipped (acc : OptimizedRibbons.Loop) (i : nat) :
  segment_kept i = false ->
  OptimizedRibbons.segmentStep cfg trail ribbonIndex currentTime acc i = acc.
Proof.
  unfold segment_kept. intros H. apply negb_false_iff, Rleb_true in H.
  unfold OptimizedRibbons.segmentStep; cbv zeta.
  destruct (Rle_dec _ _); [reflexivity | contradiction].
Qed.

Lemma segmentStep_kept (acc : OptimizedRibbons.Loop) (i : nat) :
  segment_kept i = true ->
  OptimizedRibbons.segmentStep cfg trail ribbonIndex currentTime acc i
  = OptimizedRibbons.mkLoop
      (OptimizedRibbons.mkBuffers
         (store_block (OptimizedRibbons.vertexCount acc * 3) (segmentPositions i)
                      (OptimizedRibbons.buf_positions (OptimizedRibbons.bufs acc)))
         (store_block (OptimizedRibbons.vertexCount acc * 3) (segmentColors i)
                      (OptimizedRibbons.buf_colors (OptimizedRibbons.bufs acc)))
         (store_block (OptimizedRibbons.indexCount acc)
                      (segmentIndices (OptimizedRibbons.vertexCount acc))
                      (OptimizedRibbons.buf_indices (OptimizedRibbons.bufs acc))))
      (OptimizedRibbons.vertexCount acc + 4) (OptimizedRibbons.indexCount acc + 6).
Proof.
  unfold segment_kept. intros H. apply negb_true_iff, Rleb_false in H.
  unfold OptimizedRibbons.segmentStep; cbv zeta.
  destruct (Rle_dec _ _) as [Hle | _]; [lra|].
  unfold segmentPositions, segmentColors, segmentIndices, store3; cbv zeta.
  cbn [store_block].
  f_equal. f_equal; align_stores.
Qed.

Lemma fold_segmentStep_counts (ks : list nat) : forall acc,
  let out := fold_left (OptimizedRibbons.segmentStep cfg trail ribbonIndex currentTime) ks acc in
  OptimizedRibbons.vertexCount out
  = (OptimizedRibbons.vertexCount acc + 4 * List.length (filter segment_kept ks))%nat /\
  OptimizedRibbons.indexCount out
  = (OptimizedRibbons.indexCount acc + 6 * List.length (filter segment_kept ks))%nat.
Proof.
  induction ks as [|i ks IH]; intros acc; cbn [fold_left filter].
  - cbn. split; lia.
  - destruct (segment_kept i) eqn:Hk.
    + rewrite segmentStep_kept by exact Hk.
      destruct (IH (OptimizedRibbons.mkLoop
                      (OptimizedRibbons.mkBuffers
         (store_block (OptimizedRibbons.vertexCount acc * 3) (segmentPositions i)
                      (OptimizedRibbons.buf_positions (OptimizedRibbons.bufs acc)))
         (store_block (OptimizedRibbons.vertexCount acc * 3) (segmentColors i)
                      (OptimizedRibbons.buf_colors (OptimizedRibbons.bufs acc)))
         (store_block (OptimizedRibbons.indexCount acc)
                      (segmentIndices (OptimizedRibbons.vertexCount acc))
                      (OptimizedRibbons.buf_indices (OptimizedRibbons.bufs acc))))
      (OptimizedRibbons.vertexCount acc + 4) (OptimizedRibbons.indexCount acc + 6)))
        as (Hv & Hi).
      cbv zeta in *. rewrite Hv, Hi. cbn [OptimizedRibbons.vertexCount OptimizedRibbons.indexCount List.length].
      split; lia.
    + rewrite segmentStep_skipped by exact Hk. apply IH.
Qed.

(** The number of segments one rebuild emits. *)
Definition segmentsKept : nat :=
  List.length (filter segment_kept (seq 0 (List.length trail - 1))).

Lemma buildSegments_counts (scratch : OptimizedRibbons.Buffers) :
  let out := OptimizedRibbons.buildSegments cfg trail ribbonIndex currentTime scratch in
  OptimizedRibbons.vertexCount out = (4 * segmentsKept)%nat /\
  OptimizedRibbons.indexCount out = (6 * segmentsKept)%nat.
Proof.
  unfold OptimizedRibbons.buildSegments, segmentsKept.
  destruct (fold_segmentStep_counts (seq 0 (List.length trail - 1))
              (OptimizedRibbons.mkLoop scratch 0 0)) as (Hv & Hi).
  cbv zeta in *. rewrite Hv, Hi. cbn. split; lia.
Qed.

(** Every index already written is below the vertex counter. *)
Definition indices_below (acc : OptimizedRibbons.Loop) : Prop :=
  forall k, (k < OptimizedRibbons.indexCount acc)%nat ->
            (k < List.length (OptimizedRibbons.buf_indices (OptimizedRibbons.bufs acc)))%nat ->
            (nth k (OptimizedRibbons.buf_indices (OptimizedRibbons.bufs acc)) 0
             < OptimizedRibbons.vertexCount acc)%nat.

Lemma segmentIndices_below (vc j : nat) : (j < 6)%nat -> (nth j (segmentIndices vc) 0 < vc + 4)%nat.
Proof.
  intros Hj. unfold segmentIndices.
  do 6 (destruct j as [|j]; [cbn; lia|]). lia.
Qed.

Lemma segmentStep_indices_below (acc : OptimizedRibbons.Loop) (i : nat) :
  indices_below acc ->
  indices_below (OptimizedRibbons.segmentStep cfg trail ribbonIndex currentTime acc i).
Proof.
  intros Hacc. destruct (segment_kept i) eqn:Hk.
  - rewrite segmentStep_kept by exact Hk. intros k Hk1 Hk2.
    cbn [OptimizedRibbons.indexCount OptimizedRibbons.vertexCount OptimizedRibbons.bufs
         OptimizedRibbons.buf_indices] in *.
    rewrite store_block_length in Hk2. rewrite store_block_nth.
    destruct (Nat.leb_spec (OptimizedRibbons.indexCount acc) k); cbn [andb].
    + replace (k <? OptimizedRibbons.indexCount acc + List.length
                      (segmentIndices (OptimizedRibbons.vertexCount acc)))%nat with true
        by (symmetry; apply Nat.ltb_lt; cbn; lia).
      replace (k <? List.length (OptimizedRibbons.buf_indices (OptimizedRibbons.bufs acc)))%nat
        with true by (symmetry; apply Nat.ltb_lt; lia).
      cbn [andb]. apply segmentIndices_below. lia.
    + specialize (Hacc k ltac:(lia) Hk2). lia.
  - now rewrite segmentStep_skipped.
Qed.

Lemma buildSegments_indices_below (scratch : OptimizedRibbons.Buffers) :
  indices_below (OptimizedRibbons.buildSegments cfg trail ribbonIndex currentTime scratch).
Proof.
  unfold OptimizedRibbons.buildSegments.
  assert (indices_below (OptimizedRibbons.mkLoop scratch 0 0)) as H0
    by (intros k Hk; cbn in Hk; lia).
  revert H0. generalize (OptimizedRibbons.mkLoop scratch 0 0) as acc.
  induction (seq 0 (List.length trail - 1)) as [|i ks IH]; intros acc Hacc; cbn [fold_left].
  - exact Hacc.
  - apply IH. now apply segmentStep_indices_below.
Qed.

End PooledBuilder.

(** ** The strip builder of ProperRibbons, point by point *)

Section StripBuilder.

Variable cfg : ProperRibbons.Config.
Variable path : list PathPoint.
Variable now : nat -> R.
Variable color : Color.

(** Is path point [i] emitted?  The source skips it when its combined
    alpha is below 0.01. *)
Definition point_kept (i : nat) : bool :=
  negb (Rltb (ProperRibbons.alphaOf cfg path (now i) i) 0.01).

Definition left_edge (i : nat) : Vector3 :=
  THREE.sub (path_position (ProperRibbons.pathAt path i)) (ProperRibbons.widthAt cfg path i).

Definition right_edge (i : nat) : Vector3 :=
  THREE.add (path_position (ProperRibbons.pathAt path i)) (ProperRibbons.widthAt cfg path i).

(** The two triangles that join the vertices at [v] to the two before. *)
Definition link_back (v : Z) : list Z :=
  [v - 2; v - 2 + 1; v; v - 2 + 1; v + 1; v]%Z.

Lemma pathStep_skipped (acc : BufferGeometry) (i : nat) :
  point_kept i = false -> ProperRibbons.pathStep cfg path now color acc i = acc.
Proof.
  unfold point_kept. intros H. apply negb_false_iff, Rltb_true in H.
  unfold ProperRibbons.pathStep; cbv zeta.
  destruct (Rlt_dec _ _); [reflexivity | contradiction].
Qed.

Lemma pathStep_kept (acc : BufferGeometry) (i : nat) :
  point_kept i = true ->
  ProperRibbons.pathStep cfg path now color acc i
  = mkGeometry
      (push3 (push3 (positions acc) (left_edge i)) (right_edge i))
      (let c := THREE.scaleColor color (ProperRibbons.alphaOf cfg path (now i) i) in
       pushColor (pushColor (colors acc) c) c)
      (if (0 <? i)%nat
       then indices acc ++ link_back (Z.of_nat (List.length (positions acc) / 3))
       else indices acc).
Proof.
  unfold point_kept. intros H. apply negb_true_iff, Rltb_false in H.
  unfold ProperRibbons.pathStep; cbv zeta.
  destruct (Rlt_dec _ _) as [Hlt | _]; [lra | reflexivity].
Qed.

Lemma push3_length (l : list R) (v : Vector3) : List.length (push3 l v) = (List.length l + 3)%nat.
Proof. unfold push3. rewrite length_app. reflexivity. Qed.

Lemma fold_pathStep_positions (ks : list nat) : forall acc,
  List.length (positions (fold_left (ProperRibbons.pathStep cfg path now color) ks acc))
  = (List.length (positions acc) + 6 * List.length (filter point_kept ks))%nat.
Proof.
  induction ks as [|i ks IH]; intros acc; cbn [fold_left filter].
  - cbn. lia.
  - destruct (point_kept i) eqn:Hk.
    + rewrite IH, pathStep_kept by exact Hk.
      cbn [positions List.length]. rewrite !push3_length. lia.
    + rewrite pathStep_skipped by exact Hk. apply IH.
Qed.

(** Number of path points one rebuild emits. *)
Definition pointsKept : nat := List.length (filter point_kept (seq 0 (List.length path))).

Lemma buildRibbon_vertexCount :
  vertexCountOf (ProperRibbons.buildRibbon cfg path now color) = (2 * pointsKept)%nat.
Proof.
  unfold vertexCountOf, ProperRibbons.buildRibbon. rewrite fold_pathStep_positions.
  cbn [emptyGeometry positions List.length]. fold pointsKept.
  replace (0 + 6 * pointsKept)%nat with ((2 * pointsKept) * 3)%nat by lia.
  now rewrite Nat.div_mul.
Qed.

End StripBuilder.

(** ** C4: the near-zero cutoff *)






Definition expired_trail : list TrailPoint :=
  [ mkTrailPoint (Vec3 1 0 0) THREE.zero 0; mkTrailPoint (Vec3 0 0 0) THREE.zero 0 ].


(** ** The ribbon path of ProperRibbons *)

Lemma Traced_value_bind {A B : Type} (m : Traced.M A) (k : A -> Traced.M B) :
  Traced.value (Traced.bind m k) = Traced.value (k (Traced.value m)).
Proof.
  unfold Traced.value, Traced.bind. destruct m as [a l1]. cbn [fst].
  destruct (k a) as [b0 l2]. reflexivity.
Qed.

Lemma Traced_normalized_bind {A B : Type} (m : Traced.M A) (k : A -> Traced.M B) :
  Traced.normalized (Traced.bind m k)
  = Traced.normalized m ++ Traced.normalized (k (Traced.value m)).
Proof.
  unfold Traced.normalized, Traced.value, Traced.bind. destruct m as [a l1]. cbn [fst snd].
  destruct (k a) as [b0 l2]. reflexivity.
Qed.

Lemma getBackSpawnPoints_length cfg p v :
  List.length (Traced.value (ProperRibbons.getBackSpawnPoints cfg p v))
  = ProperRibbons.RIBBON_COUNT cfg.
Proof.
  unfold ProperRibbons.getBackSpawnPoints.
  rewrite !Traced_value_bind. unfold Traced.ret, Traced.value at 1. cbn [fst].
  now rewrite length_map, length_seq.
Qed.

(** Spawn point of ribbon [k] for one sample. *)
Definition backSpawnPoint (cfg : ProperRibbons.Config) (tp : TrailPoint) (k : nat) : Vector3 :=
  nth k (Traced.value (ProperRibbons.getBackSpawnPoints cfg (position tp) (velocity tp))) THREE.zero.

Lemma ribbonPath_map cfg trail k :
  (k < ProperRibbons.RIBBON_COUNT cfg)%nat ->
  ProperRibbons.ribbonPath cfg trail k
  = map (fun tp => mkPathPoint (backSpawnPoint cfg tp k) (timestamp tp) (velocity tp)) trail.
Proof.
  intros Hk. unfold ProperRibbons.ribbonPath.
  induction trail as [|tp rest IH]; cbn [flat_map map]; [reflexivity|].
  rewrite IH. unfold backSpawnPoint.
  rewrite (nth_error_nth' _ THREE.zero) by (rewrite getBackSpawnPoints_length; exact Hk).
  reflexivity.
Qed.

Lemma ribbonPath_length cfg trail k :
  (k < ProperRibbons.RIBBON_COUNT cfg)%nat ->
  List.length (ProperRibbons.ribbonPath cfg trail k) = List.length trail.
Proof. intros Hk. rewrite ribbonPath_map by exact Hk. apply length_map. Qed.

Lemma ribbonPath_timestamp cfg trail k i :
  (k < ProperRibbons.RIBBON_COUNT cfg)%nat -> (i < List.length trail)%nat ->
  path_timestamp (ProperRibbons.pathAt (ProperRibbons.ribbonPath cfg trail k) i)
  = timestamp (nth i trail (mkTrailPoint THREE.zero THREE.zero 0)).
Proof.
  intros Hk Hi. rewrite ribbonPath_map by exact Hk. unfold ProperRibbons.pathAt.
  rewrite (nth_indep _ _ (mkPathPoint
             (backSpawnPoint cfg (mkTrailPoint THREE.zero THREE.zero 0) k)
             (timestamp (mkTrailPoint THREE.zero THREE.zero 0))
             (velocity (mkTrailPoint THREE.zero THREE.zero 0))))
    by (rewrite length_map; exact Hi).
  rewrite (map_nth (fun tp => mkPathPoint (backSpawnPoint cfg tp k) (timestamp tp) (velocity tp))).
  reflexivity.
Qed.

(** The alpha of a path point only depends on the trail's timestamps. *)
Lemma ribbonPath_alpha cfg trail k t i :
  (k < ProperRibbons.RIBBON_COUNT cfg)%nat -> (i < List.length trail)%nat ->
  ProperRibbons.alphaOf cfg (ProperRibbons.ribbonPath cfg trail k) t i
  = Rmax 0 (1 - (t - timestamp (nth i trail (mkTrailPoint THREE.zero THREE.zero 0)))
                / ProperRibbons.TRAIL_LIFETIME cfg)
    * Rmax 0.1 (1 - INR i / (INR (List.length trail) - 1) * 0.8).
Proof.
  intros Hk Hi.
  unfold ProperRibbons.alphaOf, ProperRibbons.ageFadeOf, ProperRibbons.positionFadeOf,
    ProperRibbons.progressOf.
  rewrite ribbonPath_timestamp, ribbonPath_length by assumption. reflexivity.
Qed.

Lemma fold_pathStep_indices cfg path now color (ks : list nat) : forall acc,
  List.length (indices (fold_left (ProperRibbons.pathStep cfg path now color) ks acc))
  = (List.length (indices acc)
     + 6 * List.length (filter (fun i => point_kept cfg path now i && (0 <? i)%nat) ks))%nat.
Proof.
  induction ks as [|i ks IH]; intros acc; cbn [fold_left filter].
  - cbn. lia.
  - destruct (point_kept cfg path now i) eqn:Hk; cbn [andb].
    + rewrite IH, pathStep_kept by exact Hk. cbn [indices].
      destruct (0 <? i)%nat; cbn [List.length]; [rewrite length_app; cbn|]; lia.
    + rewrite pathStep_skipped by exact Hk. apply IH.
Qed.

(** ** C5: five points in a line *)

(** Five samples at (0,0,0) .. (0,0,4), 100 ms apart from [t0] on, newest
    first, with any velocities. *)
Definition scenario_trail (t0 : R) (vel : nat -> Vector3) : list TrailPoint :=
  [ mkTrailPoint (Vec3 0 0 4) (vel 4%nat) (t0 + 400);
    mkTrailPoint (Vec3 0 0 3) (vel 3%nat) (t0 + 300);
    mkTrailPoint (Vec3 0 0 2) (vel 2%nat) (t0 + 200);
    mkTrailPoint (Vec3 0 0 1) (vel 1%nat) (t0 + 100);
    mkTrailPoint (Vec3 0 0 0) (vel 0%nat) t0 ].

(** The constants of the two components, the lifetime set to 1000 ms. *)
Definition pooled_lifetime_1000 : OptimizedRibbons.Config :=
  OptimizedRibbons.mkConfig 20 0.25 0.8 1000 0.03 3.

Definition proper_lifetime_1000 : ProperRibbons.Config :=
  ProperRibbons.mkConfig 6 15 0.2 0.02 1000.

Fixpoint strictly_decreasing (l : list R) : Prop :=
  match l with
  | a :: (b0 :: _) as rest => b0 < a /\ strictly_decreasing rest
  | _ => True
  end.

Ltac eval_Rmax := unfold Rmax; repeat destruct (Rle_dec _ _); try lra.

Lemma scenario_segment_kept t0 vel i :
  (i < 4)%nat -> segment_kept pooled_lifetime_1000 (scenario_trail t0 vel) (t0 + 400) i = true.
Proof.
  intros Hi. unfold segment_kept. apply negb_true_iff, Rleb_false.
  unfold OptimizedRibbons.ageFadeOf.
  do 4 (destruct i as [|i]; [cbn; eval_Rmax|]). lia.
Qed.

Lemma scenario_pooled_alpha t0 vel :
  strictly_decreasing
    (map (OptimizedRibbons.alphaOf pooled_lifetime_1000 (scenario_trail t0 vel) (t0 + 400))
         (seq 0 4)).
Proof.
  unfold OptimizedRibbons.alphaOf, OptimizedRibbons.ageFadeOf, OptimizedRibbons.positionFadeOf,
    OptimizedRibbons.progressOf.
  cbn. repeat split; eval_Rmax.
Qed.

Lemma scenario_path_alpha t0 vel k i :
  (k < 6)%nat -> (i < 5)%nat ->
  ProperRibbons.alphaOf proper_lifetime_1000
    (ProperRibbons.ribbonPath proper_lifetime_1000 (scenario_trail t0 vel) k) (t0 + 400) i
  = (1 - INR i / 10) * (1 - INR i / 5).
Proof.
  intros Hk Hi. rewrite ribbonPath_alpha by (cbn; lia).
  do 5 (destruct i as [|i]; [cbn; eval_Rmax|]). lia.
Qed.

Lemma scenario_point_kept t0 vel k i :
  (k < 6)%nat -> (i < 5)%nat ->
  point_kept proper_lifetime_1000
    (ProperRibbons.ribbonPath proper_lifetime_1000 (scenario_trail t0 vel) k)
    (fun _ => t0 + 400) i = true.
Proof.
  intros Hk Hi. unfold point_kept. apply negb_true_iff, Rltb_false.
  rewrite scenario_path_alpha by assumption.
  do 5 (destruct i as [|i]; [cbn; lra|]). lia.
Qed.

(** C5 (as amended).  For the five-point trail, lifetime 1000 ms, rebuilt
    at the time of its newest point: the pooled builder of
    OptimizedRibbons emits 4 segments with 16 vertices and 24 indices; the
    strip builder of ProperRibbons emits, for each of its six ribbons, 10
    vertices (two per point) and 24 indices, that is 4 segments as well; in
    both the alpha strictly decreases from the newest point to the oldest
    (the pooled builder computes an alpha for the four points that start a
    segment, the strip builder for all five). *)
Theorem five_point_scenario :
  forall (t0 : R) (vel : nat -> Vector3),
    (forall ribbonIndex scratch,
       let trail := scenario_trail t0 vel in
       let out := OptimizedRibbons.buildSegments pooled_lifetime_1000 trail ribbonIndex
                    (t0 + 400) scratch in
       segmentsKept pooled_lifetime_1000 trail (t0 + 400) = 4%nat /\
       OptimizedRibbons.vertexCount out = 16%nat /\
       OptimizedRibbons.indexCount out = 24%nat /\
       strictly_decreasing
         (map (OptimizedRibbons.alphaOf pooled_lifetime_1000 trail (t0 + 400)) (seq 0 4))) /\
    (forall ribbonIndex color,
       (ribbonIndex < ProperRibbons.RIBBON_COUNT proper_lifetime_1000)%nat ->
       let path := ProperRibbons.ribbonPath proper_lifetime_1000 (scenario_trail t0 vel)
                     ribbonIndex in
       let built := ProperRibbons.buildRibbon proper_lifetime_1000 path (fun _ => t0 + 400)
                      color in
       vertexCountOf built = 10%nat /\
       List.length (indices built) = 24%nat /\
       strictly_decreasing
         (map (ProperRibbons.alphaOf proper_lifetime_1000 path (t0 + 400)) (seq 0 5))).
Proof.
  intros t0 vel. split.
  - intros ribbonIndex scratch trail out.
    assert (segmentsKept pooled_lifetime_1000 trail (t0 + 400) = 4%nat) as Hkept.
    { unfold segmentsKept, trail. cbn [scenario_trail List.length Nat.sub seq filter].
      rewrite !scenario_segment_kept by lia. reflexivity. }
    destruct (buildSegments_counts pooled_lifetime_1000 trail ribbonIndex (t0 + 400) scratch)
      as (Hv & Hi).
    cbv zeta in Hv, Hi. subst out. rewrite Hv, Hi, Hkept.
    refine (conj eq_refl (conj eq_refl (conj eq_refl _))).
    apply scenario_pooled_alpha.
  - intros ribbonIndex color Hk path built. cbn in Hk.
    assert (List.length path = 5%nat) as Hlen
      by (unfold path; rewrite ribbonPath_length by (cbn; lia); reflexivity).
    refine (conj _ (conj _ _)).
    + unfold built. rewrite buildRibbon_vertexCount. unfold pointsKept.
      rewrite Hlen. cbn [seq filter]. unfold path.
      rewrite !scenario_point_kept by lia. reflexivity.
    + unfold built, ProperRibbons.buildRibbon. rewrite fold_pathStep_indices.
      rewrite Hlen. cbn [seq filter emptyGeometry indices List.length]. unfold path.
      rewrite !scenario_point_kept by lia. reflexivity.
    + cbn [seq map]. unfold path. rewrite !scenario_path_alpha by lia.
      cbn. repeat split; lra.
Qed.

(** C5, counterexample.  The strip builder of ProperRibbons shares the two
    vertices of a point between the segments that meet there: the scenario
    yields 10 vertices, not 16. *)
Lemma strip_scenario_has_ten_vertices :
  vertexCountOf
    (ProperRibbons.buildRibbon proper_lifetime_1000
       (ProperRibbons.ribbonPath proper_lifetime_1000 (scenario_trail 0 (fun _ => THREE.zero)) 0)
       (fun _ => 0 + 400) white) = 10%nat /\
  vertexCountOf
    (ProperRibbons.buildRibbon proper_lifetime_1000
       (ProperRibbons.ribbonPath proper_lifetime_1000 (scenario_trail 0 (fun _ => THREE.zero)) 0)
       (fun _ => 0 + 400) white) <> 16%nat.
Proof.
  assert (vertexCountOf
    (ProperRibbons.buildRibbon proper_lifetime_1000
       (ProperRibbons.ribbonPath proper_lifetime_1000 (scenario_trail 0 (fun _ => THREE.zero)) 0)
       (fun _ => 0 + 400) white) = 10%nat) as H.
  { rewrite buildRibbon_vertexCount. unfold pointsKept.
    rewrite ribbonPath_length by (cbn; lia).
    cbn [scenario_trail List.length seq filter].
    rewrite !scenario_point_kept by lia. reflexivity. }
  split; [exact H | rewrite H; discriminate].
Qed.

Lemma five_point_scenario_witness :
  (ProperRibbons.RIBBON_COUNT proper_lifetime_1000 > 2)%nat /\
  (let path := ProperRibbons.ribbonPath proper_lifetime_1000
                 (scenario_trail 0 (fun _ => THREE.zero)) 2 in
   let built := ProperRibbons.buildRibbon proper_lifetime_1000 path (fun _ => 0 + 400) white in
   vertexCountOf built = 10%nat /\
   List.length (indices built) = 24%nat /\
   strictly_decreasing
     (map (ProperRibbons.alphaOf proper_lifetime_1000 path (0 + 400)) (seq 0 5))).
Proof.
  split; [cbn; lia|].
  apply (proj2 (five_point_scenario 0 (fun _ => THREE.zero)) 2%nat white). cbn; lia.
Defined.

(** ** Lengths and distances *)

Lemma length_nonneg (v : Vector3) : 0 <= THREE.length v.
Proof. apply sqrt_pos. Qed.

Lemma length_sq (v : Vector3) : THREE.length v * THREE.length v = THREE.lengthSq v.
Proof. unfold THREE.length. apply sqrt_sqrt, lengthSq_nonneg. Qed.

Lemma length_pos (v : Vector3) :
  THREE.x v <> 0 \/ THREE.y v <> 0 \/ THREE.z v <> 0 -> 0 < THREE.length v.
Proof.
  intros H. unfold THREE.length. apply sqrt_lt_R0. unfold THREE.lengthSq.
  pose proof (Rle_0_sqr (THREE.x v)) as Hx.
  pose proof (Rle_0_sqr (THREE.y v)) as Hy.
  pose proof (Rle_0_sqr (THREE.z v)) as Hz.
  unfold Rsqr in *.
  destruct H as [H | [H | H]]; apply Rsqr_pos_lt in H; unfold Rsqr in H; lra.
Qed.

Lemma sqrt_scaled (s a : R) : 0 <= a -> sqrt (s * s * a) = Rabs s * sqrt a.
Proof.
  intros Ha. rewrite sqrt_mult; [|nra|exact Ha].
  f_equal. replace (s * s) with (Rsqr s) by reflexivity. apply sqrt_Rsqr_abs.
Qed.

Lemma length_multiplyScalar (v : Vector3) (s : R) :
  THREE.length (THREE.multiplyScalar v s) = Rabs s * THREE.length v.
Proof.
  unfold THREE.length. rewrite <- sqrt_scaled by apply lengthSq_nonneg.
  f_equal. unfold THREE.lengthSq, THREE.multiplyScalar; cbn. ring.
Qed.

Lemma normalize_scales (v : Vector3) :
  0 < THREE.length v ->
  THREE.normalize v = THREE.multiplyScalar v (1 / THREE.length v).
Proof.
  intros H. unfold THREE.normalize, THREE.divideScalar, THREE.or_else.
  destruct (Req_dec_T _ _); [lra | reflexivity].
Qed.

Lemma length_normalize (v : Vector3) : 0 < THREE.length v -> THREE.length (THREE.normalize v) = 1.
Proof.
  intros H. rewrite normalize_scales, length_multiplyScalar by exact H.
  rewrite Rabs_right.
  - field. lra.
  - apply Rle_ge. unfold Rdiv. rewrite Rmult_1_l. apply Rlt_le, Rinv_0_lt_compat, H.
Qed.

Lemma normalize_zero_length (v : Vector3) : THREE.length v = 0 -> THREE.normalize v = v.
Proof.
  intros H. unfold THREE.normalize, THREE.divideScalar, THREE.or_else, THREE.multiplyScalar.
  destruct (Req_dec_T _ _); [|contradiction].
  destruct v as [a b0 c]; cbn. f_equal; field.
Qed.

Lemma distanceTo_sub_add (p w : Vector3) :
  THREE.distanceTo (THREE.sub p w) (THREE.add p w) = 2 * THREE.length w.
Proof.
  unfold THREE.distanceTo, THREE.length.
  replace 2 with (Rabs 2) at 1 by (apply Rabs_right; lra).
  rewrite <- sqrt_scaled by apply lengthSq_nonneg.
  f_equal. unfold THREE.distanceToSquared, THREE.lengthSq, THREE.sub, THREE.add; cbn. ring.
Qed.

(** Length of the cross product with the up axis: the horizontal part. *)
Lemma cross_up_lengthSq (v : Vector3) :
  THREE.lengthSq (THREE.crossVectors v THREE.up) = THREE.x v * THREE.x v + THREE.z v * THREE.z v.
Proof. unfold THREE.lengthSq, THREE.crossVectors, THREE.up; cbn. ring. Qed.

Lemma cross_up_pos (v : Vector3) :
  THREE.x v <> 0 \/ THREE.z v <> 0 -> 0 < THREE.length (THREE.crossVectors v THREE.up).
Proof.
  intros H. apply length_pos. unfold THREE.crossVectors, THREE.up; cbn.
  destruct H as [H | H]; [right; right | left]; lra.
Qed.

Lemma normalize_component_nonzero (v : Vector3) :
  (THREE.x v <> 0 \/ THREE.z v <> 0) ->
  THREE.x (THREE.normalize v) <> 0 \/ THREE.z (THREE.normalize v) <> 0.
Proof.
  intros H.
  assert (0 < THREE.length v) as Hlen by (apply length_pos; tauto).
  rewrite normalize_scales by exact Hlen. unfold THREE.multiplyScalar; cbn.
  assert (0 < 1 / THREE.length v) as Hinv
    by (unfold Rdiv; rewrite Rmult_1_l; now apply Rinv_0_lt_compat).
  destruct H as [H | H]; [left | right]; apply Rmult_integral_contrapositive; split; lra.
Qed.

(** Reading vertex [k] out of a flat position array. *)
Definition vertexOf (ps : list R) (k : nat) : Vector3 :=
  Vec3 (nth (k * 3) ps 0) (nth (k * 3 + 1) ps 0) (nth (k * 3 + 2) ps 0).

(** ** C6: a trail of two points *)

Lemma distanceTo_eta (a b : Vector3) :
  THREE.distanceTo (Vec3 (THREE.x a) (THREE.y a) (THREE.z a))
                   (Vec3 (THREE.x b) (THREE.y b) (THREE.z b))
  = THREE.distanceTo a b.
Proof. reflexivity. Qed.

Lemma progress_newest_of_two (n : nat) : INR 0 / (INR n - 1) = 0.
Proof. cbn [INR]. unfold Rdiv. apply Rmult_0_l. Qed.

(** The strip builder on a path of two points that are both drawn. *)
Lemma strip_two_points cfg (a b : PathPoint) now color :
  0 <= ProperRibbons.RIBBON_WIDTH cfg ->
  point_kept cfg [a; b] now 0 = true ->
  point_kept cfg [a; b] now 1 = true ->
  (THREE.x (THREE.sub (path_position b) (path_position a)) <> 0 \/
   THREE.z (THREE.sub (path_position b) (path_position a)) <> 0) ->
  let built := ProperRibbons.buildRibbon cfg [a; b] now color in
  vertexCountOf built = 4%nat /\
  indices built = [0; 1; 2; 1; 3; 2]%Z /\
  THREE.distanceTo (vertexOf (positions built) 0) (vertexOf (positions built) 1)
  = ProperRibbons.RIBBON_WIDTH cfg.
Proof.
  intros HW H0 H1 Hd built. subst built.
  unfold ProperRibbons.buildRibbon. cbn [List.length seq fold_left].
  rewrite (pathStep_kept cfg [a; b] now color emptyGeometry 0 H0).
  rewrite pathStep_kept by exact H1.
  cbn [positions indices emptyGeometry Nat.ltb Nat.leb].
  unfold push3. cbn [app].
  refine (conj eq_refl (conj eq_refl _)).
  unfold vertexOf. cbn [nth Nat.mul Nat.add].
  rewrite distanceTo_eta. unfold left_edge, right_edge.
  rewrite distanceTo_sub_add. unfold ProperRibbons.widthAt.
  rewrite length_multiplyScalar.
  unfold ProperRibbons.progressOf. rewrite progress_newest_of_two.
  unfold ProperRibbons.directionAt. cbn [List.length Nat.sub Nat.ltb Nat.leb].
  unfold ProperRibbons.pathAt. cbn [nth Nat.add].
  rewrite length_normalize.
  - rewrite Rabs_right by lra. lra.
  - apply cross_up_pos. apply normalize_component_nonzero. exact Hd.
Qed.

(** The pooled builder on a trail of two points whose segment is drawn:
    what it writes and how far apart the two vertices at the newest point
    are. *)
Lemma pooled_two_points cfg (p q : TrailPoint) k t scratch :
  0 <= OptimizedRibbons.RIBBON_WIDTH cfg ->
  segment_kept cfg [p; q] t 0 = true ->
  (12 <= List.length (OptimizedRibbons.buf_positions scratch))%nat ->
  (6 <= List.length (OptimizedRibbons.buf_indices scratch))%nat ->
  let out := OptimizedRibbons.buildSegments cfg [p; q] k t scratch in
  let dir := OptimizedRibbons.directionAt cfg [p; q] k 0 in
  OptimizedRibbons.vertexCount out = 4%nat /\
  OptimizedRibbons.indexCount out = 6%nat /\
  subarray 6 (OptimizedRibbons.buf_indices (OptimizedRibbons.bufs out)) = [0; 1; 2; 1; 3; 2]%nat /\
  THREE.distanceTo (vertexOf (OptimizedRibbons.buf_positions (OptimizedRibbons.bufs out)) 0)
                   (vertexOf (OptimizedRibbons.buf_positions (OptimizedRibbons.bufs out)) 1)
  = OptimizedRibbons.RIBBON_WIDTH cfg
    * sqrt (THREE.x dir * THREE.x dir + THREE.z dir * THREE.z dir).
Proof.
  intros HW Hk Hps Hix out dir. subst out.
  unfold OptimizedRibbons.buildSegments. cbn [List.length Nat.sub seq fold_left].
  rewrite segmentStep_kept by exact Hk.
  cbn [OptimizedRibbons.vertexCount OptimizedRibbons.indexCount OptimizedRibbons.bufs
       OptimizedRibbons.buf_positions OptimizedRibbons.buf_indices Nat.mul Nat.add].
  refine (conj eq_refl (conj eq_refl (conj _ _))).
  - unfold subarray.
    apply (store_block_prefix (segmentIndices 0) 0 (OptimizedRibbons.buf_indices scratch)).
    cbn. lia.
  - unfold vertexOf. cbn [Nat.mul Nat.add].
    rewrite !store_block_nth_in by (cbn [segmentPositions List.length]; lia).
    unfold segmentPositions; cbv zeta. cbn [nth].
    fold dir.
    unfold THREE.distanceTo, THREE.distanceToSquared; cbn [THREE.x THREE.y THREE.z].
    unfold OptimizedRibbons.halfWidthAt, OptimizedRibbons.progressOf.
    rewrite progress_newest_of_two.
    set (c := OptimizedRibbons.centerAt cfg [p; q] k 0).
    set (W := OptimizedRibbons.RIBBON_WIDTH cfg) in *.
    replace (W * sqrt (THREE.x dir * THREE.x dir + THREE.z dir * THREE.z dir))
      with (Rabs W * sqrt (THREE.x dir * THREE.x dir + THREE.z dir * THREE.z dir))
      by (rewrite Rabs_right by lra; reflexivity).
    rewrite <- sqrt_scaled.
    + f_equal. lra.
    + pose proof (Rle_0_sqr (THREE.x dir)). pose proof (Rle_0_sqr (THREE.z dir)).
      unfold Rsqr in *. lra.
Qed.

(** The spawn points of ProperRibbons, without the trace. *)
Lemma getBackSpawnPoints_value cfg pos vel :
  Traced.value (ProperRibbons.getBackSpawnPoints cfg pos vel)
  = let backDirection :=
      if Rgt_dec (THREE.length vel) 0.001
      then THREE.negate (THREE.normalize vel) else Vec3 0 0 (-1) in
    let rightVector := THREE.normalize (THREE.crossVectors backDirection THREE.up) in
    let upVector := THREE.normalize (THREE.crossVectors rightVector backDirection) in
    map (fun i : nat =>
           let angle := INR i / INR (ProperRibbons.RIBBON_COUNT cfg) * PI * 2 in
           let radius := 1.1 in
           let offset :=
             THREE.add (THREE.multiplyScalar rightVector (cos angle * radius * 0.7))
                       (THREE.multiplyScalar upVector (sin angle * radius * 0.4)) in
           THREE.add (THREE.add pos (THREE.multiplyScalar backDirection (radius * 0.8))) offset)
        (seq 0 (ProperRibbons.RIBBON_COUNT cfg)).
Proof.
  unfold ProperRibbons.getBackSpawnPoints. rewrite !Traced_value_bind.
  destruct (Rgt_dec _ _); reflexivity.
Qed.

Lemma nth_map_seq {A : Type} (f : nat -> A) (n k : nat) (d : A) :
  (k < n)%nat -> nth k (map f (seq 0 n)) d = f k.
Proof.
  intros Hk. rewrite (nth_indep _ d (f 0%nat)) by (rewrite length_map, length_seq; exact Hk).
  rewrite map_nth, seq_nth by exact Hk. reflexivity.
Qed.

(** Samples of equal velocity have spawn points as far apart as their
    positions. *)
Lemma backSpawnPoint_displacement cfg (p q : TrailPoint) k :
  (k < ProperRibbons.RIBBON_COUNT cfg)%nat -> velocity p = velocity q ->
  THREE.sub (backSpawnPoint cfg q k) (backSpawnPoint cfg p k)
  = THREE.sub (position q) (position p).
Proof.
  intros Hk Hv. unfold backSpawnPoint. rewrite !getBackSpawnPoints_value. cbv zeta.
  rewrite Hv, !nth_map_seq by exact Hk.
  unfold THREE.sub, THREE.add; cbn [THREE.x THREE.y THREE.z]. f_equal; ring.
Qed.

Lemma centerAt_displacement cfg (p q : TrailPoint) k :
  velocity p = velocity q ->
  THREE.sub (OptimizedRibbons.centerAt cfg [p; q] k 1) (OptimizedRibbons.centerAt cfg [p; q] k 0)
  = THREE.sub (position q) (position p).
Proof.
  intros Hv. unfold OptimizedRibbons.centerAt, OptimizedRibbons.trailAt. cbn [nth].
  rewrite Hv. unfold THREE.sub, THREE.add; cbn [THREE.x THREE.y THREE.z]. f_equal; ring.
Qed.

(** C6 (as amended).  For every trail of exactly two points that are both
    drawn, one rebuild emits exactly one segment: two triangles
    (0,1,2) (1,3,2) over four vertices.  In ProperRibbons the two vertices
    at the newest point are exactly the ribbon width W apart whenever the
    segment between the two path points is not vertical.  In
    OptimizedRibbons their distance is W times the length of the horizontal
    part of the unit direction of the segment, hence W when the segment is
    horizontal and not reduced to a point.  (The taper factor is 1 at the
    newest point.) *)
Theorem two_point_trail_segment :
  (forall cfg (p q : TrailPoint) k now color,
     (k < ProperRibbons.RIBBON_COUNT cfg)%nat ->
     0 <= ProperRibbons.RIBBON_WIDTH cfg ->
     let path := ProperRibbons.ribbonPath cfg [p; q] k in
     0.01 <= ProperRibbons.alphaOf cfg path (now 0%nat) 0 ->
     0.01 <= ProperRibbons.alphaOf cfg path (now 1%nat) 1 ->
     let d := THREE.sub (path_position (ProperRibbons.pathAt path 1))
                        (path_position (ProperRibbons.pathAt path 0)) in
     (THREE.x d <> 0 \/ THREE.z d <> 0) ->
     let built := ProperRibbons.buildRibbon cfg path now color in
     vertexCountOf built = 4%nat /\
     indices built = [0; 1; 2; 1; 3; 2]%Z /\
     THREE.distanceTo (vertexOf (positions built) 0) (vertexOf (positions built) 1)
     = ProperRibbons.RIBBON_WIDTH cfg) /\
  (forall cfg (p q : TrailPoint) k t scratch,
     0 <= OptimizedRibbons.RIBBON_WIDTH cfg ->
     (12 <= List.length (OptimizedRibbons.buf_positions scratch))%nat ->
     (6 <= List.length (OptimizedRibbons.buf_indices scratch))%nat ->
     0.01 < OptimizedRibbons.ageFadeOf cfg t p ->
     let out := OptimizedRibbons.buildSegments cfg [p; q] k t scratch in
     let dir := OptimizedRibbons.directionAt cfg [p; q] k 0 in
     let d := THREE.sub (OptimizedRibbons.centerAt cfg [p; q] k 1)
                        (OptimizedRibbons.centerAt cfg [p; q] k 0) in
     let edge := THREE.distanceTo
                   (vertexOf (OptimizedRibbons.buf_positions (OptimizedRibbons.bufs out)) 0)
                   (vertexOf (OptimizedRibbons.buf_positions (OptimizedRibbons.bufs out)) 1) in
     OptimizedRibbons.vertexCount out = 4%nat /\
     OptimizedRibbons.indexCount out = 6%nat /\
     subarray 6 (OptimizedRibbons.buf_indices (OptimizedRibbons.bufs out))
     = [0; 1; 2; 1; 3; 2]%nat /\
     edge = OptimizedRibbons.RIBBON_WIDTH cfg
            * sqrt (THREE.x dir * THREE.x dir + THREE.z dir * THREE.z dir) /\
     (THREE.y d = 0 -> (THREE.x d <> 0 \/ THREE.z d <> 0) ->
      edge = OptimizedRibbons.RIBBON_WIDTH cfg)).
Proof.
  split.
  - intros cfg p q k now color Hk HW path Ha0 Ha1 d Hd built.
    subst built d. revert Ha0 Ha1 Hd. subst path.
    rewrite ribbonPath_map by exact Hk. cbn [map]. intros Ha0 Ha1 Hd.
    apply strip_two_points; try assumption.
    + unfold point_kept. apply negb_true_iff, Rltb_false. exact Ha0.
    + unfold point_kept. apply negb_true_iff, Rltb_false. exact Ha1.
  - intros cfg p q k t scratch HW Hps Hix Hage out dir d edge.
    assert (segment_kept cfg [p; q] t 0 = true) as Hkept.
    { unfold segment_kept. apply negb_true_iff, Rleb_false. exact Hage. }
    destruct (pooled_two_points cfg p q k t scratch HW Hkept Hps Hix) as (Hv & Hi & Hidx & He).
    fold out in Hv, Hi, Hidx, He. fold dir in He. fold edge in He.
    refine (conj Hv (conj Hi (conj Hidx (conj He _)))).
    assert (dir = THREE.normalize d) as Hdir by reflexivity.
    clearbody dir d. intros Hy Hxz. rewrite He.
    assert (0 < THREE.length d) as Hlen by (apply length_pos; tauto).
    pose proof (length_normalize d Hlen) as Hunit. rewrite <- Hdir in Hunit.
    pose proof (length_sq dir) as Hsq. rewrite Hunit in Hsq. unfold THREE.lengthSq in Hsq.
    assert (THREE.y dir = 0) as Hy0.
    { rewrite Hdir, normalize_scales by exact Hlen. unfold THREE.multiplyScalar; cbn.
      rewrite Hy. ring. }
    rewrite Hy0 in Hsq.
    replace (THREE.x dir * THREE.x dir + THREE.z dir * THREE.z dir) with 1 by lra.
    rewrite sqrt_1. ring.
Qed.

(** Two samples at rest, one straight above the other. *)
Definition vertical_trail : list TrailPoint :=
  [ mkTrailPoint (Vec3 0 1 0) THREE.zero 100; mkTrailPoint (Vec3 0 0 0) THREE.zero 0 ].

(** C6, counterexample.  In OptimizedRibbons the segment of
    [vertical_trail] is drawn (alpha 0.8, four vertices), and the two
    vertices at its newest point coincide: their distance is 0, not the
    ribbon width 0.25. *)
Lemma vertical_segment_has_no_width :
  let out := OptimizedRibbons.buildSegments OptimizedRibbons.config vertical_trail 0 100
               (OptimizedRibbons.freshBuffers OptimizedRibbons.config) in
  OptimizedRibbons.alphaOf OptimizedRibbons.config vertical_trail 100 0 > 0.01 /\
  OptimizedRibbons.vertexCount out = 4%nat /\
  THREE.distanceTo (vertexOf (OptimizedRibbons.buf_positions (OptimizedRibbons.bufs out)) 0)
                   (vertexOf (OptimizedRibbons.buf_positions (OptimizedRibbons.bufs out)) 1) = 0 /\
  OptimizedRibbons.RIBBON_WIDTH OptimizedRibbons.config = 0.25.
Proof.
  cbv zeta.
  assert (OptimizedRibbons.ageFadeOf OptimizedRibbons.config 100
            (mkTrailPoint (Vec3 0 1 0) THREE.zero 100) = 1) as Hage.
  { unfold OptimizedRibbons.ageFadeOf. cbn. eval_Rmax. }
  split.
  - unfold OptimizedRibbons.alphaOf, OptimizedRibbons.positionFadeOf, OptimizedRibbons.progressOf.
    cbn [vertical_trail OptimizedRibbons.trailAt nth]. rewrite Hage, progress_newest_of_two.
    eval_Rmax.
  - destruct (pooled_two_points OptimizedRibbons.config
                (mkTrailPoint (Vec3 0 1 0) THREE.zero 100) (mkTrailPoint (Vec3 0 0 0) THREE.zero 0)
                0 100 (OptimizedRibbons.freshBuffers OptimizedRibbons.config))
      as (Hv & _ & _ & He).
    + cbn. lra.
    + unfold segment_kept. apply negb_true_iff, Rleb_false.
      cbn [OptimizedRibbons.trailAt nth]. rewrite Hage. lra.
    + cbn [OptimizedRibbons.freshBuffers OptimizedRibbons.buf_positions].
      rewrite repeat_length. cbn. lia.
    + cbn [OptimizedRibbons.freshBuffers OptimizedRibbons.buf_indices].
      rewrite repeat_length. cbn. lia.
    + cbv zeta in Hv, He. unfold vertical_trail.
      refine (conj Hv (conj _ eq_refl)). rewrite He.
      unfold OptimizedRibbons.directionAt. change (0 + 1)%nat with 1%nat.
      unfold THREE.subVectors. rewrite centerAt_displacement by reflexivity.
      cbn [position]. unfold THREE.normalize, THREE.divideScalar, THREE.multiplyScalar, THREE.sub.
      cbn [THREE.x THREE.y THREE.z].
      match goal with
      | |- _ * sqrt ?e = 0 => replace e with 0 by ring
      end.
      rewrite sqrt_0. ring.
Qed.

(** Two samples at rest, one unit apart on level ground. *)
Definition level_newest : TrailPoint := mkTrailPoint (Vec3 1 0 0) THREE.zero 100.
Definition level_oldest : TrailPoint := mkTrailPoint (Vec3 0 0 0) THREE.zero 0.

Lemma two_point_trail_segment_witness :
  (let path := ProperRibbons.ribbonPath ProperRibbons.config [level_newest; level_oldest] 0 in
   let built := ProperRibbons.buildRibbon ProperRibbons.config path (fun _ => 100) white in
   vertexCountOf built = 4%nat /\
   indices built = [0; 1; 2; 1; 3; 2]%Z /\
   THREE.distanceTo (vertexOf (positions built) 0) (vertexOf (positions built) 1)
   = ProperRibbons.RIBBON_WIDTH ProperRibbons.config) /\
  (let out := OptimizedRibbons.buildSegments OptimizedRibbons.config
                [level_newest; level_oldest] 0 100
                (OptimizedRibbons.freshBuffers OptimizedRibbons.config) in
   OptimizedRibbons.vertexCount out = 4%nat /\
   OptimizedRibbons.indexCount out = 6%nat /\
   subarray 6 (OptimizedRibbons.buf_indices (OptimizedRibbons.bufs out)) = [0; 1; 2; 1; 3; 2]%nat /\
   THREE.distanceTo (vertexOf (OptimizedRibbons.buf_positions (OptimizedRibbons.bufs out)) 0)
                    (vertexOf (OptimizedRibbons.buf_positions (OptimizedRibbons.bufs out)) 1)
   = OptimizedRibbons.RIBBON_WIDTH OptimizedRibbons.config).
Proof.
  destruct two_point_trail_segment as (Hstrip & Hpooled).
  split.
  - apply (Hstrip ProperRibbons.config level_newest level_oldest 0%nat (fun _ => 100) white).
    + cbn. lia.
    + cbn. lra.
    + rewrite ribbonPath_alpha by (cbn; lia). cbn. eval_Rmax.
    + rewrite ribbonPath_alpha by (cbn; lia). cbn. eval_Rmax.
    + rewrite ribbonPath_map by (cbn; lia).
      cbn [map ProperRibbons.pathAt nth path_position].
      rewrite backSpawnPoint_displacement by (reflexivity || (cbn; lia)).
      cbn. left. lra.
  - destruct (Hpooled OptimizedRibbons.config level_newest level_oldest 0%nat 100
                (OptimizedRibbons.freshBuffers OptimizedRibbons.config))
      as (Hv & Hi & Hidx & _ & Hedge).
    + cbn. lra.
    + cbn [OptimizedRibbons.freshBuffers OptimizedRibbons.buf_positions].
      rewrite repeat_length. cbn. lia.
    + cbn [OptimizedRibbons.freshBuffers OptimizedRibbons.buf_indices].
      rewrite repeat_length. cbn. lia.
    + unfold OptimizedRibbons.ageFadeOf. cbn. eval_Rmax.
    + refine (conj Hv (conj Hi (conj Hidx _))). apply Hedge.
      * rewrite centerAt_displacement by reflexivity. cbn. lra.
      * rewrite centerAt_displacement by reflexivity. cbn. left. lra.
Defined.

(** ** C2: which vectors the spawn-point projectors normalise *)

Lemma length_unit_y : THREE.length (Vec3 0 1 0) = 1.
Proof.
  unfold THREE.length, THREE.lengthSq; cbn.
  replace (0 * 0 + 1 * 1 + 0 * 0) with 1 by ring. apply sqrt_1.
Qed.

(** The cross product of a vertical vector with the up axis has length 0. *)
Lemma cross_up_of_vertical (v : Vector3) :
  THREE.x v = 0 -> THREE.z v = 0 -> THREE.length (THREE.crossVectors v THREE.up) = 0.
Proof.
  intros Hx Hz. unfold THREE.length. rewrite cross_up_lengthSq, Hx, Hz.
  replace (0 * 0 + 0 * 0) with 0 by ring. apply sqrt_0.
Qed.

Lemma back_of_unit_y_is_vertical :
  let back := THREE.negate (THREE.normalize (Vec3 0 1 0)) in
  THREE.x back = 0 /\ THREE.z back = 0.
Proof.
  unfold THREE.negate, THREE.normalize, THREE.divideScalar, THREE.multiplyScalar; cbn.
  split; ring.
Qed.

(** C2, at the failing input.  With the velocity (0, 1, 0), straight up,
    both projectors pass the velocity guard and then call [normalize] on a
    vector of length 0: the cross product of the backward direction with
    the up axis. *)
Theorem vertical_velocity_normalizes_zero_vector :
  forall pos : Vector3,
    (exists v, In v (Traced.normalized
                       (ProperRibbons.getBackSpawnPoints ProperRibbons.config pos (Vec3 0 1 0)))
               /\ THREE.length v = 0) /\
    (exists v, In v (Traced.normalized
                       (SpeedTrails.getSpawnPoints SpeedTrails.config pos (Vec3 0 1 0) 8))
               /\ THREE.length v = 0).
Proof.
  intros pos. destruct back_of_unit_y_is_vertical as (Hx & Hz). cbv zeta in Hx, Hz.
  split; exists (THREE.crossVectors (THREE.negate (THREE.normalize (Vec3 0 1 0))) THREE.up);
    (split; [|now apply cross_up_of_vertical]).
  - unfold ProperRibbons.getBackSpawnPoints. rewrite length_unit_y.
    destruct (Rgt_dec 1 0.001) as [_ | H]; [|exfalso; apply H; lra].
    repeat (progress (rewrite ?Traced_normalized_bind, ?Traced_value_bind; cbv beta)).
    cbn [Traced.normalize Traced.normalized Traced.value Traced.ret fst snd].
    apply in_or_app; right. apply in_or_app; left. now left.
  - unfold SpeedTrails.getSpawnPoints. rewrite length_unit_y.
    destruct (Rlt_dec 1 0.001) as [H | _]; [lra|].
    repeat (progress (rewrite ?Traced_normalized_bind, ?Traced_value_bind; cbv beta)).
    cbn [Traced.normalize Traced.normalized Traced.value Traced.ret fst snd].
    apply in_or_app; right. apply in_or_app; left. now left.
Qed.

Lemma normalize_unit_x : THREE.normalize (Vec3 1 0 0) = Vec3 1 0 0.
Proof.
  assert (THREE.length (Vec3 1 0 0) = 1) as H.
  { unfold THREE.length, THREE.lengthSq; cbn.
    replace (1 * 1 + 0 * 0 + 0 * 0) with 1 by ring. apply sqrt_1. }
  rewrite normalize_scales by (rewrite H; lra). rewrite H.
  unfold THREE.multiplyScalar; cbn. f_equal; field.
Qed.

Lemma normalize_unit_y : THREE.normalize (Vec3 0 1 0) = Vec3 0 1 0.
Proof.
  rewrite normalize_scales by (rewrite length_unit_y; lra). rewrite length_unit_y.
  unfold THREE.multiplyScalar; cbn. f_equal; field.
Qed.

Lemma cross_back_default : THREE.crossVectors (Vec3 0 0 (-1)) THREE.up = Vec3 1 0 0.
Proof. unfold THREE.crossVectors, THREE.up; cbn. f_equal; ring. Qed.

Lemma cross_right_default : THREE.crossVectors (Vec3 1 0 0) (Vec3 0 0 (-1)) = Vec3 0 1 0.
Proof. unfold THREE.crossVectors; cbn. f_equal; ring. Qed.

(** The fallback of ProperRibbons: with the velocity (0,0,0) ribbon [i]
    spawns at a fixed offset from the position, and the only vectors
    normalised are the unit vectors (1,0,0) and (0,1,0). *)
Lemma zero_velocity_fallback_ProperRibbons cfg pos :
  Traced.value (ProperRibbons.getBackSpawnPoints cfg pos THREE.zero)
  = map (fun i : nat =>
           let angle := INR i / INR (ProperRibbons.RIBBON_COUNT cfg) * PI * 2 in
           THREE.add (THREE.add pos (THREE.multiplyScalar (Vec3 0 0 (-1)) (1.1 * 0.8)))
                     (THREE.add (THREE.multiplyScalar (Vec3 1 0 0) (cos angle * 1.1 * 0.7))
                                (THREE.multiplyScalar (Vec3 0 1 0) (sin angle * 1.1 * 0.4))))
        (seq 0 (ProperRibbons.RIBBON_COUNT cfg)) /\
  Traced.normalized (ProperRibbons.getBackSpawnPoints cfg pos THREE.zero)
  = [Vec3 1 0 0; Vec3 0 1 0].
Proof.
  split.
  - rewrite getBackSpawnPoints_value. cbv zeta. rewrite length_zero_vector.
    destruct (Rgt_dec 0 0.001) as [H | _]; [lra|].
    rewrite cross_back_default, normalize_unit_x, cross_right_default, normalize_unit_y.
    reflexivity.
  - unfold ProperRibbons.getBackSpawnPoints. rewrite length_zero_vector.
    destruct (Rgt_dec 0 0.001) as [H | _]; [lra|].
    repeat (progress (rewrite ?Traced_normalized_bind, ?Traced_value_bind; cbv beta)).
    cbn [Traced.normalize Traced.normalized Traced.value Traced.ret fst snd app].
    rewrite cross_back_default, normalize_unit_x, cross_right_default. reflexivity.
Qed.

(** The fallback of SpeedTrails: with the velocity (0,0,0) ribbon [i]
    spawns on a fixed ring around the position and nothing is normalised. *)
Lemma zero_velocity_fallback_SpeedTrails cfg pos count :
  SpeedTrails.getSpawnPoints cfg pos THREE.zero count
  = (map (fun i : nat =>
            let angle := INR i / INR count * PI * 2 in
            THREE.add pos (Vec3 (cos angle * SpeedTrails.SPAWN_DISTANCE cfg) 0
                                (sin angle * SpeedTrails.SPAWN_DISTANCE cfg)))
         (seq 0 count), []).
Proof.
  unfold SpeedTrails.getSpawnPoints. rewrite length_zero_vector.
  destruct (Rlt_dec 0 0.001) as [_ | H]; [reflexivity | exfalso; apply H; lra].
Qed.

(** What the velocity guard achieves: unless the velocity is vertical, no
    vector of length 0 is normalised. *)

Lemma ring_basis_nonzero (back : Vector3) :
  (THREE.x back <> 0 \/ THREE.z back <> 0) ->
  0 < THREE.length (THREE.crossVectors back THREE.up) /\
  0 < THREE.length (THREE.crossVectors (THREE.normalize (THREE.crossVectors back THREE.up)) back).
Proof.
  intros Hxz.
  assert (0 < THREE.length (THREE.crossVectors back THREE.up)) as Hc by now apply cross_up_pos.
  split; [exact Hc|].
  apply length_pos. right; left.
  rewrite normalize_scales by exact Hc.
  set (len := THREE.length (THREE.crossVectors back THREE.up)) in *.
  assert (0 < 1 / len) as Hinv
    by (unfold Rdiv; rewrite Rmult_1_l; now apply Rinv_0_lt_compat).
  unfold THREE.crossVectors, THREE.multiplyScalar, THREE.up; cbn [THREE.x THREE.y THREE.z].
  replace ((THREE.x back * 1 - THREE.y back * 0) * (1 / len) * THREE.x back -
           (THREE.y back * 0 - THREE.z back * 1) * (1 / len) * THREE.z back)
    with ((THREE.x back * THREE.x back + THREE.z back * THREE.z back) * (1 / len)) by ring.
  assert (0 < THREE.x back * THREE.x back + THREE.z back * THREE.z back) as Hpos.
  { pose proof (Rle_0_sqr (THREE.x back)) as Hx. pose proof (Rle_0_sqr (THREE.z back)) as Hz.
    unfold Rsqr in *.
    destruct Hxz as [H | H]; apply Rsqr_pos_lt in H; unfold Rsqr in H; lra. }
  apply Rgt_not_eq. apply Rmult_lt_0_compat; assumption.
Qed.

Lemma negate_normalize_nonvertical (vel : Vector3) :
  (THREE.x vel <> 0 \/ THREE.z vel <> 0) ->
  THREE.x (THREE.negate (THREE.normalize vel)) <> 0 \/
  THREE.z (THREE.negate (THREE.normalize vel)) <> 0.
Proof.
  intros H. apply normalize_component_nonzero in H.
  unfold THREE.negate; cbn [THREE.x THREE.z]. destruct H as [H | H]; [left | right]; lra.
Qed.

Lemma ProperRibbons_normalizes_nonzero cfg pos vel :
  (THREE.length vel <= 0.001 \/ THREE.x vel <> 0 \/ THREE.z vel <> 0) ->
  Forall (fun v => 0 < THREE.length v)
         (Traced.normalized (ProperRibbons.getBackSpawnPoints cfg pos vel)).
Proof.
  intros H. unfold ProperRibbons.getBackSpawnPoints.
  destruct (Rgt_dec (THREE.length vel) 0.001) as [Hlen | Hlen].
  - destruct H as [H | H]; [lra|].
    repeat (progress (rewrite ?Traced_normalized_bind, ?Traced_value_bind; cbv beta)).
    cbn [Traced.normalize Traced.normalized Traced.value Traced.ret fst snd app].
    destruct (ring_basis_nonzero _ (negate_normalize_nonvertical vel H)) as (H1 & H2).
    repeat constructor; try assumption. lra.
  - repeat (progress (rewrite ?Traced_normalized_bind, ?Traced_value_bind; cbv beta)).
    cbn [Traced.normalize Traced.normalized Traced.value Traced.ret fst snd app].
    destruct (ring_basis_nonzero (Vec3 0 0 (-1))) as (H1 & H2); [right; cbn; lra|].
    repeat constructor; assumption.
Qed.

Lemma SpeedTrails_normalizes_nonzero cfg pos vel count :
  (THREE.length vel < 0.001 \/ THREE.x vel <> 0 \/ THREE.z vel <> 0) ->
  Forall (fun v => 0 < THREE.length v)
         (Traced.normalized (SpeedTrails.getSpawnPoints cfg pos vel count)).
Proof.
  intros H. unfold SpeedTrails.getSpawnPoints.
  destruct (Rlt_dec (THREE.length vel) 0.001) as [Hlen | Hlen].
  - constructor.
  - destruct H as [H | H]; [lra|].
    repeat (progress (rewrite ?Traced_normalized_bind, ?Traced_value_bind; cbv beta)).
    cbn [Traced.normalize Traced.normalized Traced.value Traced.ret fst snd app].
    destruct (ring_basis_nonzero _ (negate_normalize_nonvertical vel H)) as (H1 & H2).
    repeat constructor; try assumption. lra.
Qed.

(** ** C10: triangle indices and emitted vertices *)

(** *** SpeedTrails: indices of vertices that are never emitted *)

Section ForwardStripBuilder.

Variable cfg : SpeedTrails.Config.
Variable path : list PathPoint.
Variable now : nat -> R.
Variable color : Color.

(** Is path point [i] emitted?  The source skips it when its alpha is at
    most 0.01. *)
Definition trail_point_kept (i : nat) : bool :=
  negb (Rleb (SpeedTrails.alphaOf cfg path (now i) i) 0.01).

(** The two triangles that join the vertices at [v] to the two after. *)
Definition link_forward (v : Z) : list Z :=
  [v; v + 1; v + 2; v + 1; v + 3; v + 2]%Z.

Lemma SpeedTrails_pathStep_skipped (acc : BufferGeometry) (i : nat) :
  trail_point_kept i = false -> SpeedTrails.pathStep cfg path now color acc i = acc.
Proof.
  unfold trail_point_kept. intros H. apply negb_false_iff, Rleb_true in H.
  unfold SpeedTrails.pathStep; cbv zeta.
  destruct (Rle_dec _ _); [reflexivity | contradiction].
Qed.

Lemma SpeedTrails_pathStep_kept (acc : BufferGeometry) (i : nat) :
  trail_point_kept i = true ->
  (i < List.length path - 1)%nat ->
  let out := SpeedTrails.pathStep cfg path now color acc i in
  List.length (positions out) = (List.length (positions acc) + 6)%nat /\
  indices out
  = indices acc ++ link_forward (Z.of_nat ((List.length (positions acc) + 6) / 3) - 2).
Proof.
  unfold trail_point_kept. intros H Hi. apply negb_true_iff, Rleb_false in H.
  unfold SpeedTrails.pathStep; cbv zeta.
  destruct (Rle_dec _ _) as [Hle | _]; [lra|].
  cbn [positions indices]. rewrite !push3_length.
  replace (List.length (positions acc) + 3 + 3)%nat with (List.length (positions acc) + 6)%nat by lia.
  split; [reflexivity|].
  replace (i <? List.length path - 1)%nat with true by (symmetry; apply Nat.ltb_lt; exact Hi).
  replace (4 <=? List.length (positions acc) + 6)%nat with true
    by (symmetry; apply Nat.leb_le; lia).
  reflexivity.
Qed.

(** The oldest point of a path of at least two points is never drawn: its
    position fade is [max(0, 1 - 1.2) = 0]. *)
Lemma SpeedTrails_oldest_skipped :
  (2 <= List.length path)%nat -> trail_point_kept (List.length path - 1) = false.
Proof.
  intros Hn. unfold trail_point_kept. apply negb_false_iff, Rleb_true.
  unfold SpeedTrails.alphaOf, SpeedTrails.positionFadeOf, SpeedTrails.progressOf.
  rewrite minus_INR by lia. cbn [INR].
  assert (2 <= INR (List.length path)) as Hr.
  { replace 2 with (INR 2) by (cbn; lra). apply le_INR. exact Hn. }
  replace ((INR (List.length path) - 1) / (INR (List.length path) - 1)) with 1 by (field; lra).
  replace (Rmax 0 (1 - 1 * 1.2)) with 0 by (unfold Rmax; destruct (Rle_dec _ _); lra).
  lra.
Qed.

Lemma SpeedTrails_fold_dangling (ks : list nat) : forall acc c,
  (forall i, In i ks -> trail_point_kept i = true -> (i < List.length path - 1)%nat) ->
  List.length (positions acc) = (6 * c)%nat ->
  ((0 < c)%nat -> In (Z.of_nat (2 * c) + 1)%Z (indices acc)) ->
  let out := fold_left (SpeedTrails.pathStep cfg path now color) ks acc in
  let c' := (c + List.length (filter trail_point_kept ks))%nat in
  List.length (positions out) = (6 * c')%nat /\
  ((0 < c')%nat -> In (Z.of_nat (2 * c') + 1)%Z (indices out)).
Proof.
  induction ks as [|i ks IH]; intros acc c Hks Hlen Hin; cbn [fold_left filter].
  - cbn [List.length]. rewrite Nat.add_0_r. split; assumption.
  - destruct (trail_point_kept i) eqn:Hk.
    + assert (i < List.length path - 1)%nat as Hi by (apply Hks; [now left | exact Hk]).
      destruct (SpeedTrails_pathStep_kept acc i Hk Hi) as (Hp & Hidx). cbv zeta in Hp, Hidx.
      cbn [List.length].
      replace (c + S (List.length (filter trail_point_kept ks)))%nat
        with (S c + List.length (filter trail_point_kept ks))%nat by lia.
      apply IH.
      * intros j Hj. apply Hks. now right.
      * rewrite Hp, Hlen. lia.
      * intros _. rewrite Hidx. apply in_or_app; right.
        rewrite Hlen. replace (6 * c + 6)%nat with ((2 * S c) * 3)%nat by lia.
        rewrite Nat.div_mul by lia. unfold link_forward.
        right; right; right; right; left. lia.
    + rewrite SpeedTrails_pathStep_skipped by exact Hk.
      apply IH; try assumption. intros j Hj. apply Hks. now right.
Qed.

(** Whenever a rebuild over at least two points draws anything, its index
    list names a vertex that was not emitted. *)
Lemma SpeedTrails_indices_dangle :
  (2 <= List.length path)%nat ->
  (exists i, (i < List.length path)%nat /\ trail_point_kept i = true) ->
  ~ indices_in_range (SpeedTrails.buildRibbon cfg path now color).
Proof.
  intros Hn (i0 & Hi0 & Hk0) Hrange.
  destruct (SpeedTrails_fold_dangling (seq 0 (List.length path)) emptyGeometry 0) as (Hp & Hin).
  - intros i Hi Hk. apply in_seq in Hi.
    destruct (Nat.eq_dec i (List.length path - 1)) as [-> | Hne]; [|lia].
    rewrite SpeedTrails_oldest_skipped in Hk by exact Hn. discriminate.
  - reflexivity.
  - lia.
  - cbv zeta in Hp, Hin. fold (SpeedTrails.buildRibbon cfg path now color) in Hp, Hin.
    set (kept := List.length (filter trail_point_kept (seq 0 (List.length path)))) in *.
    assert (0 < kept)%nat as Hpos.
    { unfold kept.
      assert (In i0 (filter trail_point_kept (seq 0 (List.length path)))) as Hmem
        by (apply filter_In; split; [apply in_seq; lia | exact Hk0]).
      destruct (filter trail_point_kept (seq 0 (List.length path))); [contradiction | cbn; lia]. }
    specialize (Hin Hpos). cbn [Nat.add] in Hin.
    unfold indices_in_range in Hrange. rewrite Forall_forall in Hrange.
    specialize (Hrange _ Hin). unfold vertexCountOf in Hrange.
    rewrite Hp in Hrange. cbn [Nat.add] in Hrange.
    replace (6 * kept)%nat with ((2 * kept) * 3)%nat in Hrange by lia.
    rewrite Nat.div_mul in Hrange by lia. lia.
Qed.

End ForwardStripBuilder.

Lemma getSpawnPoints_length cfg pos vel count :
  List.length (Traced.value (SpeedTrails.getSpawnPoints cfg pos vel count)) = count.
Proof.
  unfold SpeedTrails.getSpawnPoints. destruct (Rlt_dec _ _).
  - unfold Traced.ret, Traced.value. cbn [fst]. now rewrite length_map, length_seq.
  - repeat (progress (rewrite ?Traced_value_bind; cbv beta)).
    unfold Traced.ret, Traced.value at 1. cbn [fst]. now rewrite length_map, length_seq.
Qed.

Lemma SpeedTrails_ribbonPath_map cfg trail k :
  (k < SpeedTrails.RIBBON_COUNT cfg)%nat ->
  SpeedTrails.ribbonPath cfg trail k
  = map (fun tp =>
           mkPathPoint
             (nth k (Traced.value (SpeedTrails.getSpawnPoints cfg (position tp) (velocity tp)
                                     (SpeedTrails.RIBBON_COUNT cfg))) THREE.zero)
             (timestamp tp) (velocity tp)) trail.
Proof.
  intros Hk. unfold SpeedTrails.ribbonPath.
  induction trail as [|tp rest IH]; cbn [flat_map map]; [reflexivity|].
  rewrite IH.
  rewrite (nth_error_nth' _ THREE.zero) by (rewrite getSpawnPoints_length; exact Hk).
  reflexivity.
Qed.

(** C10, at the failing input.  SpeedTrails, a trail of two fresh samples
    (the newest stamped with the rebuild's clock reading): the rebuild of
    ribbon 0 emits the two vertices of the newest point only, and the
    triangles (0,1,2) (1,3,2), which name the vertices 2 and 3 of the next
    point; that point is skipped, its position fade being 0. *)
Theorem speedtrails_indices_out_of_range :
  let path := SpeedTrails.ribbonPath SpeedTrails.config [level_newest; level_oldest] 0 in
  let built := SpeedTrails.buildRibbon SpeedTrails.config path (fun _ => 100) white in
  vertexCountOf built = 2%nat /\
  indices built = [0; 1; 2; 1; 3; 2]%Z /\
  ~ indices_in_range built.
Proof.
  cbv zeta. rewrite SpeedTrails_ribbonPath_map by (cbn; lia).
  cbn [map level_newest level_oldest timestamp velocity position].
  set (a := mkPathPoint _ 100 THREE.zero). set (b0 := mkPathPoint _ 0 THREE.zero).
  assert (trail_point_kept SpeedTrails.config [a; b0] (fun _ => 100) 0 = true) as H0.
  { unfold trail_point_kept. apply negb_true_iff, Rleb_false.
    unfold SpeedTrails.alphaOf, SpeedTrails.ageFadeOf, SpeedTrails.positionFadeOf,
      SpeedTrails.progressOf. rewrite progress_newest_of_two.
    cbn [SpeedTrails.pathAt nth a path_timestamp SpeedTrails.TRAIL_LIFETIME SpeedTrails.config].
    eval_Rmax. }
  assert (trail_point_kept SpeedTrails.config [a; b0] (fun _ => 100) 1 = false) as H1
    by (apply (SpeedTrails_oldest_skipped SpeedTrails.config [a; b0]); cbn; lia).
  refine (conj _ (conj _ _)).
  - unfold SpeedTrails.buildRibbon. cbn [List.length seq fold_left].
    rewrite (SpeedTrails_pathStep_skipped _ _ _ _ _ 1%nat H1).
    destruct (SpeedTrails_pathStep_kept SpeedTrails.config [a; b0] (fun _ => 100) white
                emptyGeometry 0 H0) as (Hp & _); [cbn; lia|].
    cbv zeta in Hp. unfold vertexCountOf. rewrite Hp. reflexivity.
  - unfold SpeedTrails.buildRibbon. cbn [List.length seq fold_left].
    rewrite (SpeedTrails_pathStep_skipped _ _ _ _ _ 1%nat H1).
    destruct (SpeedTrails_pathStep_kept SpeedTrails.config [a; b0] (fun _ => 100) white
                emptyGeometry 0 H0) as (_ & Hi); [cbn; lia|].
    cbv zeta in Hi. rewrite Hi. reflexivity.
  - apply SpeedTrails_indices_dangle; [cbn; lia|].
    exists 0%nat. split; [cbn; lia | exact H0].
Qed.

(** *** OptimizedRibbons: every drawn index is below the vertex count *)

Lemma pooled_indices_in_range cfg trail ribbonIndex currentTime scratch :
  let out := OptimizedRibbons.buildSegments cfg trail ribbonIndex currentTime scratch in
  Forall (fun k => (k < OptimizedRibbons.vertexCount out)%nat)
         (subarray (OptimizedRibbons.indexCount out)
                   (OptimizedRibbons.buf_indices (OptimizedRibbons.bufs out))).
Proof.
  intros out. pose proof (buildSegments_indices_below cfg trail ribbonIndex currentTime scratch) as H.
  fold out in H. unfold indices_below in H. unfold subarray.
  apply Forall_forall. intros v Hv.
  apply (In_nth _ _ 0%nat) in Hv. destruct Hv as (k & Hk & <-).
  rewrite length_firstn in Hk.
  rewrite nth_firstn.
  replace (k <? OptimizedRibbons.indexCount out)%nat with true
    by (symmetry; apply Nat.ltb_lt; lia).
  apply H; lia.
Qed.

(** The valid prefix fits the pre-allocated arrays as long as the trail
    holds at most [MAX_TRAIL_POINTS] samples. *)
Lemma pooled_prefix_fits cfg trail ribbonIndex currentTime scratch :
  (List.length trail <= OptimizedRibbons.MAX_TRAIL_POINTS cfg)%nat ->
  let out := OptimizedRibbons.buildSegments cfg trail ribbonIndex currentTime scratch in
  (OptimizedRibbons.vertexCount out * 3 <= OptimizedRibbons.capacity3 cfg)%nat /\
  (OptimizedRibbons.indexCount out <= OptimizedRibbons.capacityIdx cfg)%nat.
Proof.
  intros Hlen out.
  destruct (buildSegments_counts cfg trail ribbonIndex currentTime scratch) as (Hv & Hi).
  fold out in Hv, Hi. rewrite Hv, Hi.
  assert (segmentsKept cfg trail currentTime <= List.length trail - 1)%nat as Hk.
  { unfold segmentsKept. etransitivity; [apply filter_length_le|]. now rewrite length_seq. }
  unfold OptimizedRibbons.capacity3, OptimizedRibbons.capacityIdx. lia.
Qed.

(** *** SpeedRibbons: every point is drawn and linked to the one before *)

Lemma link_back_in_range (m : nat) (k : Z) :
  (1 <= m)%nat -> In k (link_back (Z.of_nat (2 * m))) -> (0 <= k < Z.of_nat (2 * S m))%Z.
Proof.
  intros Hm Hin. unfold link_back in Hin. cbn [In] in Hin.
  repeat (destruct Hin as [<- | Hin]; [lia|]). contradiction.
Qed.

Lemma SpeedRibbons_prefix_in_range cfg color trail ribbonIndex (m : nat) :
  let out := fold_left (SpeedRibbons.stripStep cfg color trail ribbonIndex) (seq 0 m)
                       emptyGeometry in
  List.length (positions out) = (6 * m)%nat /\
  Forall (fun k => (0 <= k < Z.of_nat (2 * m))%Z) (indices out).
Proof.
  induction m as [|m IH]; [cbn; split; [reflexivity | constructor]|].
  rewrite seq_S, fold_left_app. cbn [Nat.add fold_left].
  destruct IH as (Hp & Hi). cbv zeta in Hp, Hi.
  set (acc := fold_left (SpeedRibbons.stripStep cfg color trail ribbonIndex) (seq 0 m)
                        emptyGeometry) in *.
  unfold SpeedRibbons.stripStep; cbv zeta. cbn [positions indices].
  rewrite !push3_length, Hp. split; [lia|].
  assert (Forall (fun k => (0 <= k < Z.of_nat (2 * S m))%Z) (indices acc)) as Hold
    by (eapply Forall_impl; [|exact Hi]; cbv beta; intros; lia).
  destruct (Nat.ltb_spec 0 m) as [Hm | Hm]; [|exact Hold].
  apply Forall_app. split; [exact Hold|].
  replace (6 * m)%nat with ((2 * m) * 3)%nat by lia. rewrite Nat.div_mul by lia.
  apply Forall_forall. intros k Hk. now apply link_back_in_range.
Qed.

Lemma SpeedRibbons_indices_in_range cfg color trail ribbonIndex :
  indices_in_range (SpeedRibbons.buildStrip cfg color trail ribbonIndex).
Proof.
  unfold indices_in_range, vertexCountOf, SpeedRibbons.buildStrip.
  destruct (SpeedRibbons_prefix_in_range cfg color trail ribbonIndex (List.length trail))
    as (Hp & Hi). cbv zeta in Hp, Hi. rewrite Hp.
  replace (6 * List.length trail)%nat with ((2 * List.length trail) * 3)%nat by lia.
  rewrite Nat.div_mul by lia. exact Hi.
Qed.

(** *** ProperRibbons: in range as long as the drawn points are a prefix *)

Lemma filter_keeps_all {A : Type} (keep : A -> bool) (l : list A) :
  Forall (fun a => keep a = true) l -> filter keep l = l.
Proof.
  induction 1 as [|a l Ha _ IH]; cbn [filter]; [reflexivity|].
  now rewrite Ha, IH.
Qed.

Lemma newest_first_nth {P : Type} (stamp : P -> R) (d : P) (l : list P) :
  newest_first stamp l ->
  forall i j, (i <= j)%nat -> (j < List.length l)%nat -> stamp (nth j l d) <= stamp (nth i l d).
Proof.
  induction l as [|a l IH]; intros Hs i j Hij Hj; [cbn in Hj; lia|].
  destruct Hs as (Ha & Hl). destruct i as [|i], j as [|j]; cbn [nth]; try lia.
  - lra.
  - rewrite Forall_forall in Ha. apply Ha. apply nth_In. cbn in Hj. lia.
  - apply IH; try assumption; cbn in Hj; lia.
Qed.

(** On a path ordered newest first, read with a clock that never runs
    backwards, alpha never increases along the path. *)
Lemma ProperRibbons_alpha_monotone cfg path now :
  0 < ProperRibbons.TRAIL_LIFETIME cfg ->
  newest_first path_timestamp path ->
  (forall i j, (i <= j)%nat -> now i <= now j) ->
  forall i j, (i <= j)%nat -> (j < List.length path)%nat ->
    ProperRibbons.alphaOf cfg path (now j) j <= ProperRibbons.alphaOf cfg path (now i) i.
Proof.
  intros HL Hs Hclock i j Hij Hj.
  unfold ProperRibbons.alphaOf, ProperRibbons.ageFadeOf, ProperRibbons.positionFadeOf,
    ProperRibbons.progressOf, ProperRibbons.pathAt.
  pose proof (newest_first_nth path_timestamp (mkPathPoint THREE.zero 0 THREE.zero) path Hs
                i j Hij Hj) as Hts.
  pose proof (Hclock i j Hij) as Hnow.
  set (L := ProperRibbons.TRAIL_LIFETIME cfg) in *.
  set (tj := path_timestamp (nth j path _)) in *.
  set (ti := path_timestamp (nth i path _)) in *.
  assert (2 <= List.length path \/ List.length path = 1)%nat as [Hn | Hn] by lia.
  - assert (2 <= INR (List.length path)) as Hr.
    { replace 2 with (INR 2) by (cbn; lra). now apply le_INR. }
    assert (INR i <= INR j) as Hinr by now apply le_INR.
    assert (0 <= INR i) as Hi0 by apply pos_INR.
    set (n1 := INR (List.length path) - 1) in *.
    assert (0 < n1) as Hn1 by (unfold n1; lra).
    assert (INR i / n1 <= INR j / n1) as Hprog.
    { unfold Rdiv. apply Rmult_le_compat_r; [|exact Hinr].
      apply Rlt_le, Rinv_0_lt_compat, Hn1. }
    assert ((now i - ti) / L <= (now j - tj) / L) as Hage.
    { unfold Rdiv. apply Rmult_le_compat_r; [|lra].
      apply Rlt_le, Rinv_0_lt_compat, HL. }
    apply Rmult_le_compat.
    + apply Rmax_l.
    + eapply Rle_trans; [|apply Rmax_l]. lra.
    + apply Rle_max_compat_l. lra.
    + apply Rle_max_compat_l. lra.
  - assert (i = 0 /\ j = 0)%nat as (-> & ->) by lia. apply Rle_refl.
Qed.

(** ProperRibbons keeps its indices in range on every path it can reach. *)
Lemma ProperRibbons_indices_in_range cfg path now color :
  0 < ProperRibbons.TRAIL_LIFETIME cfg ->
  newest_first path_timestamp path ->
  (forall i j, (i <= j)%nat -> now i <= now j) ->
  indices_in_range (ProperRibbons.buildRibbon cfg path now color).
Proof.
  intros HL Hs Hclock.
  assert (forall m, (m <= List.length path)%nat ->
            let out := fold_left (ProperRibbons.pathStep cfg path now color) (seq 0 m)
                                 emptyGeometry in
            let c := List.length (filter (point_kept cfg path now) (seq 0 m)) in
            List.length (positions out) = (6 * c)%nat /\
            Forall (fun k => (0 <= k < Z.of_nat (2 * c))%Z) (indices out)) as Hgen.
  { induction m as [|m IH]; intros Hm; [cbn; split; [reflexivity | constructor]|].
    rewrite seq_S, fold_left_app, filter_app. cbn [Nat.add fold_left filter].
    destruct (IH ltac:(lia)) as (Hp & Hi). cbv zeta in Hp, Hi.
    set (acc := fold_left (ProperRibbons.pathStep cfg path now color) (seq 0 m) emptyGeometry) in *.
    destruct (point_kept cfg path now m) eqn:Hk.
    - assert (filter (point_kept cfg path now) (seq 0 m) = seq 0 m) as Hall.
      { apply filter_keeps_all, Forall_forall. intros i Hin. apply in_seq in Hin.
        unfold point_kept in *. apply negb_true_iff, Rltb_false in Hk.
        apply negb_true_iff, Rltb_false.
        pose proof (ProperRibbons_alpha_monotone cfg path now HL Hs Hclock i m
                      ltac:(lia) ltac:(lia)). lra. }
      rewrite Hall, length_seq in Hp, Hi. rewrite Hall, length_app, length_seq. cbn [List.length].
      rewrite pathStep_kept by exact Hk. cbn [positions indices].
      rewrite !push3_length, Hp. split; [lia|].
      replace (m + 1)%nat with (S m) by lia.
      assert (Forall (fun k => (0 <= k < Z.of_nat (2 * S m))%Z) (indices acc)) as Hold
        by (eapply Forall_impl; [|exact Hi]; cbv beta; intros; lia).
      destruct (Nat.ltb_spec 0 m) as [Hm0 | Hm0]; [|exact Hold].
      apply Forall_app. split; [exact Hold|].
      replace (6 * m)%nat with ((2 * m) * 3)%nat by lia. rewrite Nat.div_mul by lia.
      apply Forall_forall. intros k Hin. now apply link_back_in_range.
    - rewrite pathStep_skipped by exact Hk. rewrite app_nil_r. split; assumption. }
  destruct (Hgen (List.length path) (Nat.le_refl _)) as (Hp & Hi). cbv zeta in Hp, Hi.
  unfold indices_in_range, vertexCountOf, ProperRibbons.buildRibbon. rewrite Hp.
  set (c := List.length (filter (point_kept cfg path now) (seq 0 (List.length path)))) in *.
  replace (6 * c)%nat with ((2 * c) * 3)%nat by lia. rewrite Nat.div_mul by lia. exact Hi.
Qed.

(** ** What a rebuild of the pooled variant leaves in the draw ranges *)

Lemma upload_drawCount (l : OptimizedRibbons.Loop) (g : OptimizedRibbons.PooledGeometry) (s : nat) :
  OptimizedRibbons.vertexCount l = (4 * s)%nat ->
  OptimizedRibbons.indexCount l = (6 * s)%nat ->
  OptimizedRibbons.drawCount (OptimizedRibbons.upload l g) = Some (6 * s)%nat.
Proof.
  intros Hv Hi. unfold OptimizedRibbons.upload. rewrite Hv, Hi.
  destruct (Nat.ltb_spec 0 (4 * s)); cbn [OptimizedRibbons.drawCount]; f_equal; lia.
Qed.

Lemma updateRibbonGeometry_active cfg k t st :
  (2 <= List.length (OptimizedRibbons.trailHistory st))%nat ->
  OptimizedRibbons.updateRibbonGeometry cfg k t st
  = let l := OptimizedRibbons.buildSegments cfg (OptimizedRibbons.trailHistory st) k t
               (OptimizedRibbons.geometryBuffers st) in
    OptimizedRibbons.mkState (OptimizedRibbons.trailHistory st)
      (OptimizedRibbons.lastPosition st) (OptimizedRibbons.lastVelocity st)
      (OptimizedRibbons.frameCounter st) (OptimizedRibbons.isInitialized st)
      (OptimizedRibbons.bufs l)
      (mapi (fun j geometry => if (j =? k)%nat then OptimizedRibbons.upload l geometry
                               else geometry)
            (OptimizedRibbons.ribbonGeometries st)).
Proof.
  intros H. unfold OptimizedRibbons.updateRibbonGeometry; cbv zeta.
  destruct (Nat.ltb_spec (List.length (OptimizedRibbons.trailHistory st)) 2); [lia | reflexivity].
Qed.

(** After "Update all ribbon geometries" on a trail of at least two
    points, each of the four draw ranges counts six indices per emitted
    segment. *)
Lemma updateAll_drawCounts cfg now st g0 g1 g2 g3 :
  (2 <= List.length (OptimizedRibbons.trailHistory st))%nat ->
  OptimizedRibbons.ribbonGeometries st = [g0; g1; g2; g3] ->
  map OptimizedRibbons.drawCount
      (OptimizedRibbons.ribbonGeometries (OptimizedRibbons.updateAll cfg now st))
  = map (fun i => Some (6 * segmentsKept cfg (OptimizedRibbons.trailHistory st) (now i))%nat)
        [0; 1; 2; 3]%nat.
Proof.
  destruct st as [tr lp lv fc ini gb rg].
  cbn [OptimizedRibbons.trailHistory OptimizedRibbons.ribbonGeometries].
  intros Hlen ->.
  assert ((List.length tr <? 2)%nat = false) as E by (apply Nat.ltb_ge; exact Hlen).
  unfold OptimizedRibbons.updateAll.
  cbn [OptimizedRibbons.RIBBON_COUNT seq fold_left].
  unfold OptimizedRibbons.updateRibbonGeometry; cbv zeta.
  repeat (progress (cbn [OptimizedRibbons.trailHistory OptimizedRibbons.ribbonGeometries
                         OptimizedRibbons.geometryBuffers OptimizedRibbons.lastPosition
                         OptimizedRibbons.lastVelocity OptimizedRibbons.frameCounter
                         OptimizedRibbons.isInitialized]; rewrite ?E)).
  cbn [mapi mapi_from Nat.eqb map].
  repeat match goal with
  | |- context [OptimizedRibbons.upload
                  (OptimizedRibbons.buildSegments cfg ?tr ?k ?t ?scr) ?g] =>
      let H := fresh "H" in
      destruct (buildSegments_counts cfg tr k t scr) as (? & ?);
      rewrite (upload_drawCount (OptimizedRibbons.buildSegments cfg tr k t scr) g
                 (segmentsKept cfg tr t)) by assumption
  end.
  reflexivity.
Qed.

(** ** C8: what the pooled variant does on which tick *)

(** C8 (as amended).  In OptimizedRibbons, on every tick of an initialised,
    enabled component: a sample is recorded as soon as the distance reaches
    the threshold, whatever the frame counter, and the buffer is cut to
    [MAX_TRAIL_POINTS] on that insert; the buffer is pruned by age and the
    geometry rebuilt on the ticks whose number is a multiple of
    [UPDATE_FREQUENCY] and on the ticks that record a sample; on the other
    ticks only the frame counter advances. *)
Theorem pooled_tick_schedule :
  forall cfg mode p delta clk (st : OptimizedRibbons.State),
    OptimizedRibbons.is_off mode = false ->
    OptimizedRibbons.isInitialized st = true ->
    let d := THREE.distanceTo p (OptimizedRibbons.lastPosition st) in
    let period := (S (OptimizedRibbons.frameCounter st)
                   mod OptimizedRibbons.UPDATE_FREQUENCY cfg)%nat in
    let st' := OptimizedRibbons.useFrame cfg true mode (Some p) delta clk st in
    (d < OptimizedRibbons.MOVEMENT_THRESHOLD cfg -> period <> 0%nat -> st' = tick st) /\
    (d < OptimizedRibbons.MOVEMENT_THRESHOLD cfg -> period = 0%nat ->
       st' = OptimizedRibbons.updateAll cfg (fun i => t_build clk i 0%nat)
               (OptimizedRibbons.prune cfg (t_prune clk) (tick st)) /\
       OptimizedRibbons.trailHistory st'
       = pruned timestamp (OptimizedRibbons.TRAIL_LIFETIME cfg) (t_prune clk)
           (OptimizedRibbons.trailHistory st)) /\
    (OptimizedRibbons.MOVEMENT_THRESHOLD cfg <= d ->
       exists vel,
         let recorded :=
           OptimizedRibbons.mkState
             (inserted (OptimizedRibbons.MAX_TRAIL_POINTS cfg) (mkTrailPoint p vel (t_record clk))
                       (OptimizedRibbons.trailHistory st))
             p vel (S (OptimizedRibbons.frameCounter st)) true
             (OptimizedRibbons.geometryBuffers st) (OptimizedRibbons.ribbonGeometries st) in
         st' = OptimizedRibbons.updateAll cfg (fun i => t_build clk i 0%nat)
                 (OptimizedRibbons.prune cfg (t_prune clk) recorded) /\
         OptimizedRibbons.trailHistory st'
         = pruned timestamp (OptimizedRibbons.TRAIL_LIFETIME cfg) (t_prune clk)
             (inserted (OptimizedRibbons.MAX_TRAIL_POINTS cfg) (mkTrailPoint p vel (t_record clk))
                       (OptimizedRibbons.trailHistory st)) /\
         (List.length (inserted (OptimizedRibbons.MAX_TRAIL_POINTS cfg)
                                (mkTrailPoint p vel (t_record clk))
                                (OptimizedRibbons.trailHistory st))
          <= OptimizedRibbons.MAX_TRAIL_POINTS cfg)%nat).
Proof.
  intros cfg mode p delta clk st Hm Hi d period st'.
  refine (conj _ (conj _ _)).
  - intros Hd Hp. now apply OptimizedRibbons_useFrame_idle.
  - intros Hd Hp. subst st'.
    rewrite OptimizedRibbons_useFrame_scheduled by assumption.
    split; [reflexivity|]. now rewrite OptimizedRibbons_updateAll_trail.
  - intros Hd. subst st'.
    rewrite OptimizedRibbons_useFrame_recorded by assumption.
    destruct (OptimizedRibbons_updateTrailHistory_reached cfg p delta (t_record clk) (tick st) Hd)
      as [vel Hrec].
    exists vel. cbv zeta. rewrite Hrec.
    cbn [fst tick OptimizedRibbons.trailHistory OptimizedRibbons.frameCounter
         OptimizedRibbons.isInitialized OptimizedRibbons.geometryBuffers
         OptimizedRibbons.ribbonGeometries].
    rewrite Hi. refine (conj eq_refl (conj _ _)).
    + now rewrite OptimizedRibbons_updateAll_trail.
    + apply inserted_bounded.
Qed.

Definition clock_at (t : R) : Clock := mkClock t t (fun _ _ => t).

Lemma pooled_at_origin_moves :
  OptimizedRibbons.MOVEMENT_THRESHOLD OptimizedRibbons.config
  <= THREE.distanceTo (Vec3 1 0 0) (OptimizedRibbons.lastPosition pooled_at_origin).
Proof.
  cbn [pooled_at_origin OptimizedRibbons.lastPosition].
  rewrite distanceTo_along_x by lra. cbn. lra.
Qed.

Lemma pooled_at_origin_rests :
  THREE.distanceTo THREE.zero (OptimizedRibbons.lastPosition pooled_at_origin)
  < OptimizedRibbons.MOVEMENT_THRESHOLD OptimizedRibbons.config.
Proof.
  cbn [pooled_at_origin OptimizedRibbons.lastPosition]. rewrite distanceTo_self. cbn. lra.
Qed.

(** The first tick after initialisation, the sphere one unit further. *)
Lemma first_tick_with_movement :
  let st' := OptimizedRibbons.useFrame OptimizedRibbons.config true OptimizedRibbons.both
               (Some (Vec3 1 0 0)) (1 / 60) (clock_at 16) pooled_at_origin in
  OptimizedRibbons.frameCounter st' = 1%nat /\
  List.length (OptimizedRibbons.trailHistory st') = 2%nat /\
  map OptimizedRibbons.drawCount (OptimizedRibbons.ribbonGeometries st')
  = [Some 6; Some 6; Some 6; Some 6]%nat.
Proof.
  cbv zeta.
  rewrite OptimizedRibbons_useFrame_recorded
    by (reflexivity || exact pooled_at_origin_moves).
  destruct (OptimizedRibbons_updateTrailHistory_reached OptimizedRibbons.config (Vec3 1 0 0)
              (1 / 60) (t_record (clock_at 16)) (tick pooled_at_origin) pooled_at_origin_moves)
    as [vel ->].
  cbn [fst tick pooled_at_origin OptimizedRibbons.trailHistory OptimizedRibbons.lastPosition
       OptimizedRibbons.lastVelocity OptimizedRibbons.frameCounter OptimizedRibbons.isInitialized
       OptimizedRibbons.geometryBuffers OptimizedRibbons.ribbonGeometries clock_at t_record
       t_prune t_build].
  assert (inserted (OptimizedRibbons.MAX_TRAIL_POINTS OptimizedRibbons.config)
                   (mkTrailPoint (Vec3 1 0 0) vel 16) [mkTrailPoint THREE.zero THREE.zero 0]
          = [mkTrailPoint (Vec3 1 0 0) vel 16; mkTrailPoint THREE.zero THREE.zero 0]) as ->
    by reflexivity.
  unfold OptimizedRibbons.prune.
  cbn [OptimizedRibbons.trailHistory OptimizedRibbons.lastPosition
       OptimizedRibbons.lastVelocity OptimizedRibbons.frameCounter OptimizedRibbons.isInitialized
       OptimizedRibbons.geometryBuffers OptimizedRibbons.ribbonGeometries filter timestamp].
  replace (Rltb (16 - 16) _) with true by (symmetry; apply Rltb_true; cbn; lra).
  replace (Rltb (16 - 0) _) with true by (symmetry; apply Rltb_true; cbn; lra).
  match goal with
  | |- context [OptimizedRibbons.updateAll ?c ?n ?s] =>
      destruct (OptimizedRibbons_updateAll_frame c n s) as (_ & Hfc & _);
      pose proof (OptimizedRibbons_updateAll_trail c n s) as Htr;
      pose proof (updateAll_drawCounts c n s _ _ _ _ ltac:(cbn; lia) eq_refl) as Hdraw
  end.
  cbv zeta in Hfc. rewrite Hfc, Htr, Hdraw.
  refine (conj eq_refl (conj eq_refl _)).
  cbn [OptimizedRibbons.trailHistory map].
  assert (segmentsKept OptimizedRibbons.config
            [mkTrailPoint (Vec3 1 0 0) vel 16; mkTrailPoint THREE.zero THREE.zero 0] 16 = 1%nat) as ->.
  { unfold segmentsKept. cbn [List.length Nat.sub seq filter].
    replace (segment_kept _ _ _ 0) with true; [reflexivity|].
    symmetry. unfold segment_kept. apply negb_true_iff, Rleb_false.
    unfold OptimizedRibbons.ageFadeOf. cbn. eval_Rmax. }
  reflexivity.
Qed.

(** C8, counterexample.  From the state the first frame leaves (one point
    stamped 0, no draw range set, frame counter 0): a tick that records a
    sample rebuilds the geometry although its number, 1, is no multiple of
    3; and a tick at rest, 4000 ms later, does not prune the point, which
    is older than the lifetime of 3500 ms. *)
Lemma rebuild_and_pruning_follow_the_samples :
  map OptimizedRibbons.drawCount (OptimizedRibbons.ribbonGeometries pooled_at_origin)
  = [None; None; None; None] /\
  (let st' := OptimizedRibbons.useFrame OptimizedRibbons.config true OptimizedRibbons.both
                (Some (Vec3 1 0 0)) (1 / 60) (clock_at 16) pooled_at_origin in
   OptimizedRibbons.frameCounter st' = 1%nat /\
   map OptimizedRibbons.drawCount (OptimizedRibbons.ribbonGeometries st')
   = [Some 6; Some 6; Some 6; Some 6]%nat) /\
  (let st' := OptimizedRibbons.useFrame OptimizedRibbons.config true OptimizedRibbons.both
                (Some THREE.zero) (1 / 60) (clock_at 4000) pooled_at_origin in
   OptimizedRibbons.frameCounter st' = 1%nat /\
   OptimizedRibbons.trailHistory st' = [mkTrailPoint THREE.zero THREE.zero 0] /\
   ~ fresh timestamp 3500 4000 (OptimizedRibbons.trailHistory st')).
Proof.
  refine (conj eq_refl (conj _ _)).
  - destruct first_tick_with_movement as (H1 & _ & H3). split; assumption.
  - cbv zeta.
    rewrite OptimizedRibbons_useFrame_idle
      by (reflexivity || exact pooled_at_origin_rests || (cbn; lia)).
    refine (conj eq_refl (conj eq_refl _)).
    cbn. intros H. inversion H as [|? ? Hage _]; subst. cbn in Hage. lra.
Qed.

(** A state two ticks after initialisation. *)
Definition pooled_before_third_tick : OptimizedRibbons.State :=
  tick (tick pooled_at_origin).

Lemma pooled_tick_schedule_witness :
  OptimizedRibbons.useFrame OptimizedRibbons.config true OptimizedRibbons.both
    (Some THREE.zero) (1 / 60) (clock_at 16) pooled_at_origin = tick pooled_at_origin /\
  OptimizedRibbons.trailHistory
    (OptimizedRibbons.useFrame OptimizedRibbons.config true OptimizedRibbons.both
       (Some THREE.zero) (1 / 60) (clock_at 48) pooled_before_third_tick)
  = pruned timestamp 3500 48 (OptimizedRibbons.trailHistory pooled_before_third_tick) /\
  (exists vel,
     OptimizedRibbons.trailHistory
       (OptimizedRibbons.useFrame OptimizedRibbons.config true OptimizedRibbons.both
          (Some (Vec3 1 0 0)) (1 / 60) (clock_at 16) pooled_at_origin)
     = pruned timestamp 3500 16
         (inserted 20 (mkTrailPoint (Vec3 1 0 0) vel 16)
                   (OptimizedRibbons.trailHistory pooled_at_origin))).
Proof.
  refine (conj _ (conj _ _)).
  - apply (pooled_tick_schedule OptimizedRibbons.config OptimizedRibbons.both THREE.zero (1 / 60)
             (clock_at 16) pooled_at_origin eq_refl eq_refl).
    + exact pooled_at_origin_rests.
    + cbn. lia.
  - apply (pooled_tick_schedule OptimizedRibbons.config OptimizedRibbons.both THREE.zero (1 / 60)
             (clock_at 48) pooled_before_third_tick eq_refl eq_refl).
    + exact pooled_at_origin_rests.
    + reflexivity.
  - destruct (pooled_tick_schedule OptimizedRibbons.config OptimizedRibbons.both (Vec3 1 0 0)
                (1 / 60) (clock_at 16) pooled_at_origin eq_refl eq_refl) as (_ & _ & H).
    destruct (H pooled_at_origin_moves) as (vel & _ & Htrail & _).
    exists vel. exact Htrail.
Defined.

(** ** C9: disabling and resuming *)


Lemma pruned_fresh_sample {P : Type} (stamp : P -> R) (lifetime now : R) (p : P) (l : list P) :
  now - stamp p < lifetime ->
  pruned stamp lifetime now (p :: l) = p :: pruned stamp lifetime now l.
Proof.
  intros H. unfold pruned. cbn [filter].
  replace (Rltb (now - stamp p) lifetime) with true by (symmetry; now apply Rltb_true).
  reflexivity.
Qed.







Lemma strip_resume_second_sample color sp delta clk (st : ProperRibbons.State) q :
  ProperRibbons.trailHistory st = [q] ->
  THREE.distanceTo sp (ProperRibbons.lastPosition st)
    > ProperRibbons.MOVEMENT_THRESHOLD ProperRibbons.config ->
  t_prune clk - t_record clk < 3000 ->
  t_prune clk - timestamp q < 3000 ->
  exists vel,
    ProperRibbons.trailHistory
      (ProperRibbons.useFrame ProperRibbons.config color true (Some sp) delta clk st)
    = [mkTrailPoint sp vel (t_record clk); q].
Proof.
  intros Htrail Hd Hfresh Hq.
  rewrite ProperRibbons_useFrame_trail.
  unfold ProperRibbons.record; cbv zeta.
  destruct (Rgt_dec _ _) as [_ | H]; [|contradiction].
  rewrite Htrail. eexists.
  cbn [ProperRibbons.trailHistory ProperRibbons.MAX_TRAIL_LENGTH ProperRibbons.config
       List.length Nat.ltb Nat.leb ProperRibbons.TRAIL_LIFETIME].
  rewrite !pruned_fresh_sample by (cbn; lra). reflexivity.
Qed.


Lemma forward_resume_second_sample color sp delta clk (st : SpeedTrails.State) q :
  SpeedTrails.trailHistory st = [q] ->
  THREE.distanceTo sp (SpeedTrails.lastPosition st) > 0.001 ->
  t_prune clk - t_record clk < 2500 ->
  t_prune clk - timestamp q < 2500 ->
  exists vel,
    SpeedTrails.trailHistory
      (SpeedTrails.useFrame SpeedTrails.config color true (Some sp) delta clk st)
    = [mkTrailPoint sp vel (t_record clk); q].
Proof.
  intros Htrail Hd Hfresh Hq.
  rewrite SpeedTrails_useFrame_trail.
  unfold SpeedTrails.record; cbv zeta.
  destruct (Rgt_dec _ _) as [_ | H]; [|contradiction].
  rewrite Htrail. eexists.
  cbn [SpeedTrails.trailHistory SpeedTrails.MAX_TRAIL_POINTS SpeedTrails.config
       List.length Nat.ltb Nat.leb SpeedTrails.TRAIL_LIFETIME].
  rewrite !pruned_fresh_sample by (cbn; lra). reflexivity.
Qed.

(** *** The state after the second qualifying sample *)
















(** * Further properties of the trail buffers *)

(** ** Pruning an ordered buffer *)

Section PruningLaws.

Context {P : Type} (stamp : P -> R).

(** Behind a stale sample of an ordered buffer every sample is stale. *)
Lemma pruned_behind_stale (lifetime now : R) (p : P) (l : list P) :
  Forall (fun q => stamp q <= stamp p) l ->
  lifetime <= now - stamp p ->
  pruned stamp lifetime now l = [].
Proof.
  intros Hl Hp. unfold pruned.
  induction Hl as [|q l Hq _ IH]; cbn [filter]; [reflexivity|].
  replace (Rltb (now - stamp q) lifetime) with false
    by (symmetry; apply Rltb_false; lra).
  exact IH.
Qed.

(** Pruning an ordered buffer cuts it: what is kept is the front of the
    buffer, in place. *)
Lemma pruned_is_front (lifetime now : R) (l : list P) :
  newest_first stamp l ->
  pruned stamp lifetime now l
  = firstn (List.length (pruned stamp lifetime now l)) l.
Proof.
  induction l as [|a l IH]; intros Hs; [reflexivity|].
  destruct Hs as (Ha & Hl). unfold pruned in *. cbn [filter].
  destruct (Rltb (now - stamp a) lifetime) eqn:Hfresh.
  - cbn [List.length firstn]. f_equal. now apply IH.
  - apply Rltb_false in Hfresh.
    pose proof (pruned_behind_stale lifetime now a l Ha Hfresh) as Hnil.
    unfold pruned in Hnil. rewrite Hnil. reflexivity.
Qed.

(** A pruning pass at [t1] changes nothing for a pass at a later [t2]. *)
Lemma pruned_later (lifetime t1 t2 : R) (l : list P) :
  t1 <= t2 ->
  pruned stamp lifetime t2 (pruned stamp lifetime t1 l) = pruned stamp lifetime t2 l.
Proof.
  intros Ht. unfold pruned.
  induction l as [|a l IH]; cbn [filter]; [reflexivity|].
  destruct (Rltb (t1 - stamp a) lifetime) eqn:H1; cbn [filter].
  - now rewrite IH.
  - rewrite IH. apply Rltb_false in H1.
    replace (Rltb (t2 - stamp a) lifetime) with false
      by (symmetry; apply Rltb_false; lra).
    reflexivity.
Qed.

End PruningLaws.

(** X1.  In every variant, pruning a buffer that is ordered newest first
    only removes samples from its old end: the samples kept are the first
    ones of the buffer, in the same order. *)
Theorem pruning_drops_only_the_oldest :
  (forall cfg t (st : ProperRibbons.State),
     newest_first timestamp (ProperRibbons.trailHistory st) ->
     let kept := ProperRibbons.trailHistory (ProperRibbons.prune cfg t st) in
     kept = firstn (List.length kept) (ProperRibbons.trailHistory st)) /\
  (forall cfg t (st : OptimizedRibbons.State),
     newest_first timestamp (OptimizedRibbons.trailHistory st) ->
     let kept := OptimizedRibbons.trailHistory (OptimizedRibbons.prune cfg t st) in
     kept = firstn (List.length kept) (OptimizedRibbons.trailHistory st)) /\
  (forall cfg t (st : SpeedTrails.State),
     newest_first timestamp (SpeedTrails.trailHistory st) ->
     let kept := SpeedTrails.trailHistory (SpeedTrails.prune cfg t st) in
     kept = firstn (List.length kept) (SpeedTrails.trailHistory st)) /\
  (forall cfg t (st : SpeedRibbons.State),
     newest_first SpeedRibbons.s_timestamp (SpeedRibbons.trailHistory st) ->
     let kept := SpeedRibbons.trailHistory (SpeedRibbons.prune cfg t st) in
     kept = firstn (List.length kept) (SpeedRibbons.trailHistory st)).
Proof.
  refine (conj _ (conj _ (conj _ _))); intros cfg t st Hs kept; subst kept.
  - exact (pruned_is_front timestamp (ProperRibbons.TRAIL_LIFETIME cfg) t _ Hs).
  - exact (pruned_is_front timestamp (OptimizedRibbons.TRAIL_LIFETIME cfg) t _ Hs).
  - exact (pruned_is_front timestamp (SpeedTrails.TRAIL_LIFETIME cfg) t _ Hs).
  - exact (pruned_is_front SpeedRibbons.s_timestamp (SpeedRibbons.TRAIL_LIFETIME cfg) t _ Hs).
Qed.

(** Three samples, newest first, read 3200 ms after the oldest one. *)
Definition aged_trail : list TrailPoint :=
  [ mkTrailPoint (Vec3 2 0 0) THREE.zero 3000;
    mkTrailPoint (Vec3 1 0 0) THREE.zero 1000;
    mkTrailPoint (Vec3 0 0 0) THREE.zero 0 ].

Definition aged_samples : list SpeedRibbons.Sample :=
  [ SpeedRibbons.mkSample (Vec3 2 0 0) 3000;
    SpeedRibbons.mkSample (Vec3 1 0 0) 1000;
    SpeedRibbons.mkSample (Vec3 0 0 0) 0 ].

Lemma aged_trail_ordered : newest_first timestamp aged_trail.
Proof. cbn. repeat split; repeat constructor; cbn; lra. Qed.

Lemma aged_samples_ordered : newest_first SpeedRibbons.s_timestamp aged_samples.
Proof. cbn. repeat split; repeat constructor; cbn; lra. Qed.

Lemma pruning_drops_only_the_oldest_witness :
  (let st := ProperRibbons.mkState aged_trail THREE.zero THREE.zero [] in
   let kept := ProperRibbons.trailHistory (ProperRibbons.prune ProperRibbons.config 3200 st) in
   kept = firstn (List.length kept) aged_trail) /\
  (let st := OptimizedRibbons.mkState aged_trail THREE.zero THREE.zero 0 true
               (OptimizedRibbons.freshBuffers OptimizedRibbons.config) [] in
   let kept := OptimizedRibbons.trailHistory
                 (OptimizedRibbons.prune OptimizedRibbons.config 3200 st) in
   kept = firstn (List.length kept) aged_trail) /\
  (let st := SpeedTrails.mkState aged_trail THREE.zero THREE.zero [] in
   let kept := SpeedTrails.trailHistory (SpeedTrails.prune SpeedTrails.config 3200 st) in
   kept = firstn (List.length kept) aged_trail) /\
  (let st := SpeedRibbons.mkState aged_samples THREE.zero [] in
   let kept := SpeedRibbons.trailHistory (SpeedRibbons.prune SpeedRibbons.config 3200 st) in
   kept = firstn (List.length kept) aged_samples).
Proof.
  destruct pruning_drops_only_the_oldest as (HP & HO & HT & HS).
  refine (conj _ (conj _ (conj _ _))).
  - exact (HP ProperRibbons.config 3200
             (ProperRibbons.mkState aged_trail THREE.zero THREE.zero []) aged_trail_ordered).
  - exact (HO OptimizedRibbons.config 3200
             (OptimizedRibbons.mkState aged_trail THREE.zero THREE.zero 0 true
                (OptimizedRibbons.freshBuffers OptimizedRibbons.config) []) aged_trail_ordered).
  - exact (HT SpeedTrails.config 3200
             (SpeedTrails.mkState aged_trail THREE.zero THREE.zero []) aged_trail_ordered).
  - exact (HS SpeedRibbons.config 3200
             (SpeedRibbons.mkState aged_samples THREE.zero []) aged_samples_ordered).
Defined.

(** X2.  Pruning passes compose: a pass at [t1] followed by a pass at a
    later [t2] leaves the state of a single pass at [t2].  The pooled
    variant, which prunes on some ticks only, therefore holds after a
    pruning tick the trail it would hold had the earlier ticks pruned too;
    so does ProperRibbons. *)
Theorem pruning_passes_compose :
  forall t1 t2, t1 <= t2 ->
    (forall cfg (st : OptimizedRibbons.State),
       OptimizedRibbons.prune cfg t2 (OptimizedRibbons.prune cfg t1 st)
       = OptimizedRibbons.prune cfg t2 st) /\
    (forall cfg (st : ProperRibbons.State),
       ProperRibbons.prune cfg t2 (ProperRibbons.prune cfg t1 st)
       = ProperRibbons.prune cfg t2 st).
Proof.
  intros t1 t2 Ht. split; intros cfg st.
  - unfold OptimizedRibbons.prune.
    cbn [OptimizedRibbons.trailHistory OptimizedRibbons.lastPosition
         OptimizedRibbons.lastVelocity OptimizedRibbons.frameCounter
         OptimizedRibbons.isInitialized OptimizedRibbons.geometryBuffers
         OptimizedRibbons.ribbonGeometries].
    f_equal. exact (pruned_later timestamp (OptimizedRibbons.TRAIL_LIFETIME cfg) t1 t2 _ Ht).
  - unfold ProperRibbons.prune.
    cbn [ProperRibbons.trailHistory ProperRibbons.lastPosition ProperRibbons.lastVelocity
         ProperRibbons.ribbonMeshes].
    f_equal. exact (pruned_later timestamp (ProperRibbons.TRAIL_LIFETIME cfg) t1 t2 _ Ht).
Qed.

Lemma pruning_passes_compose_witness :
  let st := OptimizedRibbons.mkState aged_trail THREE.zero THREE.zero 0 true
              (OptimizedRibbons.freshBuffers OptimizedRibbons.config) [] in
  3600 <= 4600 /\
  OptimizedRibbons.prune OptimizedRibbons.config 4600
    (OptimizedRibbons.prune OptimizedRibbons.config 3600 st)
  = OptimizedRibbons.prune OptimizedRibbons.config 4600 st.
Proof.
  cbv zeta. split; [lra|].
  apply (pruning_passes_compose 3600 4600); lra.
Defined.

(** ** How far apart the buffered samples are *)

Section SpacingLaws.

Context {P : Type} (place : P -> Vector3).

(** [far d]: the distance [d] passes the movement guard. *)
Variable far : R -> Prop.

(** Each sample lies far from the one recorded before it. *)
Fixpoint spaced (l : list P) : Prop :=
  match l with
  | [] => True
  | p :: rest =>
      match rest with
      | [] => True
      | q :: _ => far (THREE.distanceTo (place p) (place q)) /\ spaced rest
      end
  end.

(** The newest sample, if any, was taken at [last]. *)
Definition anchored (last : Vector3) (l : list P) : Prop :=
  match l with
  | [] => True
  | p :: _ => place p = last
  end.

Lemma spaced_tail (p : P) (l : list P) : spaced (p :: l) -> spaced l.
Proof. destruct l as [|q l]; cbn; tauto. Qed.

Lemma spaced_firstn (n : nat) : forall l, spaced l -> spaced (firstn n l).
Proof.
  induction n as [|n IH]; intros l Hl; [exact I|].
  destruct l as [|p l]; [exact I|].
  cbn [firstn]. specialize (IH l (spaced_tail p l Hl)).
  destruct l as [|q l]; [destruct n; exact I|].
  destruct n as [|n]; [exact I|].
  cbn [firstn] in *. cbn [spaced] in Hl |- *. split; [tauto | exact IH].
Qed.

Lemma anchored_firstn (n : nat) (last : Vector3) (l : list P) :
  anchored last l -> anchored last (firstn n l).
Proof. destruct n, l; cbn; auto. Qed.

Lemma spaced_cons (last : Vector3) (p : P) (l : list P) :
  anchored last l -> far (THREE.distanceTo (place p) last) -> spaced l -> spaced (p :: l).
Proof.
  destruct l as [|q l]; cbn [spaced anchored]; [tauto|].
  intros -> Hfar Hl. split; assumption.
Qed.

(** An insert of a sample taken far from the last recorded position. *)
Lemma inserted_spaced (max : nat) (last : Vector3) (p : P) (l : list P) :
  anchored last l -> far (THREE.distanceTo (place p) last) -> spaced l ->
  spaced (inserted max p l) /\ anchored (place p) (inserted max p l).
Proof.
  intros Ha Hfar Hl. rewrite inserted_prefix. split.
  - apply spaced_firstn. now apply spaced_cons with last.
  - apply anchored_firstn. reflexivity.
Qed.

End SpacingLaws.

Section OrderedSpacing.

Context {P : Type} (stamp : P -> R) (place : P -> Vector3) (far : R -> Prop).

(** Pruning an ordered buffer keeps the spacing and the anchor. *)
Lemma pruned_spaced (lifetime now : R) (last : Vector3) (l : list P) :
  newest_first stamp l -> spaced place far l -> anchored place last l ->
  spaced place far (pruned stamp lifetime now l) /\
  anchored place last (pruned stamp lifetime now l).
Proof.
  intros Hs Hl Ha. rewrite (pruned_is_front stamp lifetime now l Hs).
  split; [now apply spaced_firstn | now apply anchored_firstn].
Qed.

(** One frame of an eager variant: an optional insert at [t1] of a sample
    taken far from [last], then pruning at [t2]. *)
Lemma frame_spaced (max : nat) (lifetime t0 t1 t2 : R) (last last1 : Vector3) (l l1 : list P) :
  t0 <= t1 ->
  (List.length l <= max)%nat -> newest_first stamp l -> not_after stamp t0 l ->
  spaced place far l -> anchored place last l ->
  ((l1 = l /\ last1 = last) \/
   exists p, stamp p = t1 /\ far (THREE.distanceTo (place p) last) /\
             l1 = inserted max p l /\ last1 = place p) ->
  spaced place far (pruned stamp lifetime t2 l1) /\
  anchored place last1 (pruned stamp lifetime t2 l1).
Proof.
  intros H01 Hlen Hs Hn Hl Ha [(-> & ->) | (p & Hp & Hfar & -> & ->)].
  - now apply pruned_spaced.
  - destruct (inserted_ok stamp max t1 p l Hp Hlen Hs) as (_ & Hs1 & _).
    { now apply not_after_later with t0. }
    destruct (inserted_spaced place far max last p l Ha Hfar Hl) as (Hl1 & Ha1).
    now apply pruned_spaced.
Qed.

End OrderedSpacing.

(** The recording half of a frame, with the position it leaves in
    [lastPosition]. *)

Lemma ProperRibbons_record_cases cfg sp delta now st :
  let st1 := ProperRibbons.record cfg sp delta now st in
  (ProperRibbons.trailHistory st1 = ProperRibbons.trailHistory st /\
   ProperRibbons.lastPosition st1 = ProperRibbons.lastPosition st) \/
  exists p, timestamp p = now /\
    THREE.distanceTo (position p) (ProperRibbons.lastPosition st)
      > ProperRibbons.MOVEMENT_THRESHOLD cfg /\
    ProperRibbons.trailHistory st1
    = inserted (ProperRibbons.MAX_TRAIL_LENGTH cfg) p (ProperRibbons.trailHistory st) /\
    ProperRibbons.lastPosition st1 = position p.
Proof.
  unfold ProperRibbons.record; cbv zeta.
  destruct (Rgt_dec _ _) as [Hd | Hd]; [right | left; split; reflexivity].
  eexists (mkTrailPoint sp _ now). repeat split. exact Hd.
Qed.

Lemma ProperRibbons_useFrame_lastPosition cfg color sp delta clk st :
  ProperRibbons.lastPosition (ProperRibbons.useFrame cfg color true (Some sp) delta clk st)
  = ProperRibbons.lastPosition (ProperRibbons.record cfg sp delta (t_record clk) st).
Proof.
  unfold ProperRibbons.useFrame; cbv zeta; simpl negb; cbv iota.
  destruct (2 <=? _)%nat; [|reflexivity].
  unfold ProperRibbons.updateRibbons; cbv zeta. destruct (_ <? 2)%nat; reflexivity.
Qed.

Lemma SpeedTrails_record_cases cfg sp delta now st :
  let st1 := SpeedTrails.record cfg sp delta now st in
  (SpeedTrails.trailHistory st1 = SpeedTrails.trailHistory st /\
   SpeedTrails.lastPosition st1 = SpeedTrails.lastPosition st) \/
  exists p, timestamp p = now /\
    THREE.distanceTo (position p) (SpeedTrails.lastPosition st) > 0.001 /\
    SpeedTrails.trailHistory st1
    = inserted (SpeedTrails.MAX_TRAIL_POINTS cfg) p (SpeedTrails.trailHistory st) /\
    SpeedTrails.lastPosition st1 = position p.
Proof.
  unfold SpeedTrails.record; cbv zeta.
  destruct (Rgt_dec _ _) as [Hd | Hd]; [right | left; split; reflexivity].
  eexists (mkTrailPoint sp _ now). repeat split. exact Hd.
Qed.

Lemma SpeedTrails_useFrame_lastPosition cfg color sp delta clk st :
  SpeedTrails.lastPosition (SpeedTrails.useFrame cfg color true (Some sp) delta clk st)
  = SpeedTrails.lastPosition (SpeedTrails.record cfg sp delta (t_record clk) st).
Proof.
  unfold SpeedTrails.useFrame; simpl negb; cbv iota.
  unfold SpeedTrails.updateTrailRibbons; cbv zeta. destruct (_ <? 2)%nat; reflexivity.
Qed.

Lemma SpeedRibbons_record_cases cfg sp now st :
  let st1 := SpeedRibbons.record cfg sp now st in
  (SpeedRibbons.trailHistory st1 = SpeedRibbons.trailHistory st /\
   SpeedRibbons.lastPosition st1 = SpeedRibbons.lastPosition st) \/
  exists p, SpeedRibbons.s_timestamp p = now /\
    THREE.distanceTo (SpeedRibbons.s_position p) (SpeedRibbons.lastPosition st)
      > SpeedRibbons.MOVEMENT_THRESHOLD cfg /\
    SpeedRibbons.trailHistory st1
    = inserted (SpeedRibbons.MAX_TRAIL_LENGTH cfg) p (SpeedRibbons.trailHistory st) /\
    SpeedRibbons.lastPosition st1 = SpeedRibbons.s_position p.
Proof.
  unfold SpeedRibbons.record; cbv zeta.
  destruct (Rgt_dec _ _) as [Hd | Hd]; [right | left; split; reflexivity].
  eexists (SpeedRibbons.mkSample sp now). repeat split. exact Hd.
Qed.

Lemma SpeedRibbons_updateRibbonGeometries_lastPosition cfg color st :
  SpeedRibbons.lastPosition (SpeedRibbons.updateRibbonGeometries cfg color st)
  = SpeedRibbons.lastPosition st.
Proof.
  unfold SpeedRibbons.updateRibbonGeometries; cbv zeta. destruct (_ <? 2)%nat; reflexivity.
Qed.

Lemma SpeedRibbons_useFrame_lastPosition cfg color sp clk st :
  SpeedRibbons.lastPosition (SpeedRibbons.useFrame cfg color true (Some sp) clk st)
  = SpeedRibbons.lastPosition (SpeedRibbons.record cfg sp (t_record clk) st).
Proof.
  unfold SpeedRibbons.useFrame; cbv zeta; simpl negb; cbv iota.
  destruct (1 <=? _)%nat; destruct (_ || _)%bool;
    rewrite ?SpeedRibbons_updateRibbonGeometries_lastPosition; reflexivity.
Qed.

(** The buffer of an eager variant: bounded, ordered, not stamped after
    [t], spaced and anchored at [last]. *)
Definition spaced_inv {P : Type} (stamp : P -> R) (place : P -> Vector3) (far : R -> Prop)
    (max : nat) (t : R) (last : Vector3) (l : list P) : Prop :=
  (List.length l <= max)%nat /\ newest_first stamp l /\ not_after stamp t l /\
  spaced place far l /\ anchored place last l.

Lemma frame_spaced_inv {P : Type} (stamp : P -> R) (place : P -> Vector3) (far : R -> Prop)
    (max : nat) (lifetime t0 t1 t2 : R) (last last1 : Vector3) (l l1 : list P) :
  t0 <= t1 -> t1 <= t2 ->
  spaced_inv stamp place far max t0 last l ->
  ((l1 = l /\ last1 = last) \/
   exists p, stamp p = t1 /\ far (THREE.distanceTo (place p) last) /\
             l1 = inserted max p l /\ last1 = place p) ->
  spaced_inv stamp place far max t2 last1 (pruned stamp lifetime t2 l1).
Proof.
  intros H01 H12 (Hlen & Hs & Hn & Hl & Ha) Hcase.
  destruct (frame_ok stamp max lifetime t0 t1 t2 l l1 H01 H12 Hlen Hs Hn)
    as ((Hlen2 & _ & Hs2) & Hn2).
  { destruct Hcase as [(-> & _) | (p & Hp & _ & -> & _)]; [now left | right; now exists p]. }
  destruct (frame_spaced stamp place far max lifetime t0 t1 t2 last last1 l l1
              H01 Hlen Hs Hn Hl Ha Hcase) as (Hl2 & Ha2).
  repeat split; assumption.
Qed.

Lemma run_ProperRibbons_spaced color frames : forall t0 st,
  clock_chain t0 frames ->
  spaced_inv timestamp position (fun d => d > 0.02) 15 t0
    (ProperRibbons.lastPosition st) (ProperRibbons.trailHistory st) ->
  let st' := run_ProperRibbons color frames st in
  spaced_inv timestamp position (fun d => d > 0.02) 15 (last_prune t0 frames)
    (ProperRibbons.lastPosition st') (ProperRibbons.trailHistory st').
Proof.
  induction frames as [|f rest IH]; intros t0 st Hc Hinv; [exact Hinv|].
  destruct Hc as (H01 & H12 & Hrest).
  unfold run_ProperRibbons, last_prune in *. cbn [fold_left].
  apply IH; [exact Hrest|].
  rewrite ProperRibbons_useFrame_trail, ProperRibbons_useFrame_lastPosition.
  apply (frame_spaced_inv timestamp position (fun d => d > 0.02) 15 3000
           t0 (t_record (f_clock f)) (t_prune (f_clock f))
           (ProperRibbons.lastPosition st) _ (ProperRibbons.trailHistory st)); auto.
  destruct (ProperRibbons_record_cases ProperRibbons.config (f_position f) (f_delta f)
              (t_record (f_clock f)) st) as [H | (p & Hp & Hd & Ht & Hl)];
    [left; exact H | right; exists p; repeat split; assumption].
Qed.

Lemma run_SpeedTrails_spaced color frames : forall t0 st,
  clock_chain t0 frames ->
  spaced_inv timestamp position (fun d => d > 0.001) 25 t0
    (SpeedTrails.lastPosition st) (SpeedTrails.trailHistory st) ->
  let st' := run_SpeedTrails color frames st in
  spaced_inv timestamp position (fun d => d > 0.001) 25 (last_prune t0 frames)
    (SpeedTrails.lastPosition st') (SpeedTrails.trailHistory st').
Proof.
  induction frames as [|f rest IH]; intros t0 st Hc Hinv; [exact Hinv|].
  destruct Hc as (H01 & H12 & Hrest).
  unfold run_SpeedTrails, last_prune in *. cbn [fold_left].
  apply IH; [exact Hrest|].
  rewrite SpeedTrails_useFrame_trail, SpeedTrails_useFrame_lastPosition.
  apply (frame_spaced_inv timestamp position (fun d => d > 0.001) 25 2500
           t0 (t_record (f_clock f)) (t_prune (f_clock f))
           (SpeedTrails.lastPosition st) _ (SpeedTrails.trailHistory st)); auto.
  destruct (SpeedTrails_record_cases SpeedTrails.config (f_position f) (f_delta f)
              (t_record (f_clock f)) st) as [H | (p & Hp & Hd & Ht & Hl)];
    [left; exact H | right; exists p; repeat split; assumption].
Qed.

Lemma run_SpeedRibbons_spaced color frames : forall t0 st,
  clock_chain t0 frames ->
  spaced_inv SpeedRibbons.s_timestamp SpeedRibbons.s_position (fun d => d > 0.01) 15 t0
    (SpeedRibbons.lastPosition st) (SpeedRibbons.trailHistory st) ->
  let st' := run_SpeedRibbons color frames st in
  spaced_inv SpeedRibbons.s_timestamp SpeedRibbons.s_position (fun d => d > 0.01) 15
    (last_prune t0 frames)
    (SpeedRibbons.lastPosition st') (SpeedRibbons.trailHistory st').
Proof.
  induction frames as [|f rest IH]; intros t0 st Hc Hinv; [exact Hinv|].
  destruct Hc as (H01 & H12 & Hrest).
  unfold run_SpeedRibbons, last_prune in *. cbn [fold_left].
  apply IH; [exact Hrest|].
  rewrite SpeedRibbons_useFrame_trail, SpeedRibbons_useFrame_lastPosition.
  apply (frame_spaced_inv SpeedRibbons.s_timestamp SpeedRibbons.s_position (fun d => d > 0.01)
           15 4000 t0 (t_record (f_clock f)) (t_prune (f_clock f))
           (SpeedRibbons.lastPosition st) _ (SpeedRibbons.trailHistory st)); auto.
  destruct (SpeedRibbons_record_cases SpeedRibbons.config (f_position f)
              (t_record (f_clock f)) st) as [H | (p & Hp & Hd & Ht & Hl)];
    [left; exact H | right; exists p; repeat split; assumption].
Qed.

(** X3.  In ProperRibbons, SpeedTrails and SpeedRibbons, whatever the
    frames, as long as the clock never runs backwards: two neighbours of
    the buffer are always farther apart than the movement guard of the
    variant (0.02, 0.001 and 0.01), and the newest sample of a buffer
    that is not empty sits at [lastPosition]. *)
Theorem eager_samples_are_spaced :
  forall t0 frames, clock_chain t0 frames ->
    (forall color sp0,
       let st := run_ProperRibbons color frames
                   (ProperRibbons.initializeTrail sp0 t0
                      (ProperRibbons.initialState ProperRibbons.config)) in
       spaced position (fun d => d > 0.02) (ProperRibbons.trailHistory st) /\
       anchored position (ProperRibbons.lastPosition st) (ProperRibbons.trailHistory st)) /\
    (forall color sp0,
       let st := run_SpeedTrails color frames
                   (SpeedTrails.initializeTrail sp0 t0
                      (SpeedTrails.initialState SpeedTrails.config)) in
       spaced position (fun d => d > 0.001) (SpeedTrails.trailHistory st) /\
       anchored position (SpeedTrails.lastPosition st) (SpeedTrails.trailHistory st)) /\
    (forall color sp0,
       let st := run_SpeedRibbons color frames
                   (SpeedRibbons.initializeTrail sp0 t0
                      (SpeedRibbons.initialState SpeedRibbons.config)) in
       spaced SpeedRibbons.s_position (fun d => d > 0.01) (SpeedRibbons.trailHistory st) /\
       anchored SpeedRibbons.s_position (SpeedRibbons.lastPosition st)
         (SpeedRibbons.trailHistory st)).
Proof.
  intros t0 frames Hc. refine (conj _ (conj _ _)); intros color sp0 st; subst st.
  - destruct (run_ProperRibbons_spaced color frames t0
                (ProperRibbons.initializeTrail sp0 t0
                   (ProperRibbons.initialState ProperRibbons.config)) Hc)
      as (_ & _ & _ & H1 & H2); [|split; assumption].
    destruct sp0 as [sp|]; cbn; unfold spaced_inv, not_after; cbn;
      repeat split; repeat constructor; try lia; cbn; lra.
  - destruct (run_SpeedTrails_spaced color frames t0
                (SpeedTrails.initializeTrail sp0 t0
                   (SpeedTrails.initialState SpeedTrails.config)) Hc)
      as (_ & _ & _ & H1 & H2); [|split; assumption].
    destruct sp0 as [sp|]; cbn; unfold spaced_inv, not_after; cbn;
      repeat split; repeat constructor; try lia; cbn; lra.
  - destruct (run_SpeedRibbons_spaced color frames t0
                (SpeedRibbons.initializeTrail sp0 t0
                   (SpeedRibbons.initialState SpeedRibbons.config)) Hc)
      as (_ & _ & _ & H1 & H2); [|split; assumption].
    destruct sp0 as [sp|]; cbn; unfold spaced_inv, not_after; cbn;
      repeat split; repeat constructor; try lia; cbn; lra.
Qed.

Lemma eager_samples_are_spaced_witness :
  clock_chain 0 [moving_frame] /\
  (let st := run_ProperRibbons (fun _ => white) [moving_frame]
               (ProperRibbons.initializeTrail (Some THREE.zero) 0
                  (ProperRibbons.initialState ProperRibbons.config)) in
   spaced position (fun d => d > 0.02) (ProperRibbons.trailHistory st) /\
   anchored position (ProperRibbons.lastPosition st) (ProperRibbons.trailHistory st)).
Proof.
  assert (clock_chain 0 [moving_frame]) as Hc by (cbn; lra).
  split; [exact Hc|].
  destruct (eager_samples_are_spaced 0 [moving_frame] Hc) as (HP & _ & _).
  exact (HP (fun _ => white) (Some THREE.zero)).
Defined.

(** The same for the pooled variant, whose guard is [distance < threshold]. *)

Definition pooled_spaced (st : OptimizedRibbons.State) : Prop :=
  spaced position (fun d => 0.03 <= d) (OptimizedRibbons.trailHistory st) /\
  anchored position (OptimizedRibbons.lastPosition st) (OptimizedRibbons.trailHistory st).

Lemma OptimizedRibbons_useFrame_spaced f t0 st :
  t0 <= t_record (f_clock f) ->
  pooled_inv t0 st -> pooled_spaced st ->
  pooled_spaced
    (OptimizedRibbons.useFrame OptimizedRibbons.config true OptimizedRibbons.both
       (Some (f_position f)) (f_delta f) (f_clock f) st).
Proof.
  intros H01 (Hlen & Hs & Hn & Hempty) (Hsp & Han).
  destruct (OptimizedRibbons.isInitialized st) eqn:Hi.
  - destruct (Rlt_dec (THREE.distanceTo (f_position f) (OptimizedRibbons.lastPosition st))
                      (OptimizedRibbons.MOVEMENT_THRESHOLD OptimizedRibbons.config)) as [Hd | Hd].
    + destruct (Nat.eq_dec (S (OptimizedRibbons.frameCounter st)
                            mod OptimizedRibbons.UPDATE_FREQUENCY OptimizedRibbons.config) 0)
        as [Hc | Hc].
      * rewrite OptimizedRibbons_useFrame_scheduled by (reflexivity || assumption).
        unfold pooled_spaced. rewrite OptimizedRibbons_updateAll_trail.
        match goal with
        | |- context [OptimizedRibbons.lastPosition (OptimizedRibbons.updateAll ?c ?n ?s)] =>
            destruct (OptimizedRibbons_updateAll_frame c n s) as (_ & _ & Hlp)
        end.
        cbv zeta in Hlp. rewrite Hlp.
        exact (pruned_spaced timestamp position _ 3500 (t_prune (f_clock f))
                 (OptimizedRibbons.lastPosition st) (OptimizedRibbons.trailHistory st)
                 Hs Hsp Han).
      * rewrite OptimizedRibbons_useFrame_idle by (reflexivity || assumption).
        split; assumption.
    + assert (OptimizedRibbons.MOVEMENT_THRESHOLD OptimizedRibbons.config
              <= THREE.distanceTo (f_position f) (OptimizedRibbons.lastPosition st)) as Hd'
        by lra.
      rewrite OptimizedRibbons_useFrame_recorded by (reflexivity || assumption).
      unfold pooled_spaced. rewrite OptimizedRibbons_updateAll_trail.
      match goal with
      | |- context [OptimizedRibbons.lastPosition (OptimizedRibbons.updateAll ?c ?n ?s)] =>
          destruct (OptimizedRibbons_updateAll_frame c n s) as (_ & _ & Hlp)
      end.
      cbv zeta in Hlp. rewrite Hlp.
      destruct (OptimizedRibbons_updateTrailHistory_reached OptimizedRibbons.config
                  (f_position f) (f_delta f) (t_record (f_clock f)) (tick st) Hd')
        as [vel ->].
      cbn [fst OptimizedRibbons.prune OptimizedRibbons.trailHistory
           OptimizedRibbons.lastPosition tick].
      set (pt := mkTrailPoint (f_position f) vel (t_record (f_clock f))).
      destruct (inserted_ok timestamp 20 (t_record (f_clock f)) pt
                  (OptimizedRibbons.trailHistory st) eq_refl Hlen Hs) as (_ & Hs1 & _).
      { now apply not_after_later with t0. }
      destruct (inserted_spaced position (fun d => 0.03 <= d) 20
                  (OptimizedRibbons.lastPosition st) pt (OptimizedRibbons.trailHistory st)
                  Han Hd' Hsp) as (Hsp1 & Han1).
      exact (pruned_spaced timestamp position _ 3500 (t_prune (f_clock f))
               (f_position f) _ Hs1 Hsp1 Han1).
  - rewrite OptimizedRibbons_useFrame_first by (reflexivity || assumption).
    unfold pooled_spaced.
    cbn [OptimizedRibbons.trailHistory OptimizedRibbons.lastPosition].
    rewrite (Hempty eq_refl). cbn. split; [exact I | reflexivity].
Qed.

Lemma run_OptimizedRibbons_spaced frames : forall t0 st,
  clock_chain t0 frames -> pooled_inv t0 st -> pooled_spaced st ->
  pooled_spaced (run_OptimizedRibbons frames st).
Proof.
  induction frames as [|f rest IH]; intros t0 st Hc Hinv Hsp; [exact Hsp|].
  destruct Hc as (H01 & H12 & Hrest).
  unfold run_OptimizedRibbons in *. cbn [fold_left].
  apply (IH (t_prune (f_clock f))); [exact Hrest | |].
  - now apply OptimizedRibbons_useFrame_inv with t0.
  - now apply OptimizedRibbons_useFrame_spaced with t0.
Qed.

(** X4.  In OptimizedRibbons, whatever the frames, as long as the clock
    never runs backwards: two neighbours of the buffer are at least the
    movement threshold 0.03 apart, and the newest sample of a buffer that
    is not empty sits at [lastPosition].  Cutting the buffer to its
    maximal length and pruning it by age, on whichever ticks they happen,
    never bring two samples together that were not neighbours. *)
Theorem pooled_samples_are_spaced :
  forall t0 frames, clock_chain t0 frames ->
    let st := run_OptimizedRibbons frames
                (OptimizedRibbons.initialState OptimizedRibbons.config) in
    spaced position (fun d => 0.03 <= d) (OptimizedRibbons.trailHistory st) /\
    anchored position (OptimizedRibbons.lastPosition st) (OptimizedRibbons.trailHistory st).
Proof.
  intros t0 frames Hc st.
  apply (run_OptimizedRibbons_spaced frames t0); [exact Hc | |].
  - unfold pooled_inv; cbn. repeat split; try constructor; lia.
  - unfold pooled_spaced; cbn. split; exact I.
Qed.

Lemma pooled_samples_are_spaced_witness :
  clock_chain 0 [first_frame; moving_frame] /\
  (let st := run_OptimizedRibbons [first_frame; moving_frame]
               (OptimizedRibbons.initialState OptimizedRibbons.config) in
   spaced position (fun d => 0.03 <= d) (OptimizedRibbons.trailHistory st) /\
   anchored position (OptimizedRibbons.lastPosition st) (OptimizedRibbons.trailHistory st)).
Proof.
  assert (clock_chain 0 [first_frame; moving_frame]) as Hc by (cbn; lra).
  split; [exact Hc|].
  exact (pooled_samples_are_spaced 0 [first_frame; moving_frame] Hc).
Defined.

(** * Where the ribbons spawn *)

(** The scalar product, [a.dot(b)] in three.js; the components do not call
    it, it is used to state on which side of the sphere a point lies. *)
Definition dot (a b : Vector3) : R :=
  THREE.x a * THREE.x b + THREE.y a * THREE.y b + THREE.z a * THREE.z b.

Lemma dot_self (v : Vector3) : dot v v = THREE.lengthSq v.
Proof. reflexivity. Qed.

Lemma dot_multiplyScalar (w v : Vector3) (s : R) :
  dot (THREE.multiplyScalar w s) v = s * dot w v.
Proof. unfold dot, THREE.multiplyScalar; cbn [THREE.x THREE.y THREE.z]. ring. Qed.

Lemma dot_negate (w v : Vector3) : dot (THREE.negate w) v = - dot w v.
Proof. unfold dot, THREE.negate; cbn [THREE.x THREE.y THREE.z]. ring. Qed.

Lemma dot_normalize (w v : Vector3) :
  dot (THREE.normalize w) v = 1 / THREE.or_else (THREE.length w) 1 * dot w v.
Proof. unfold THREE.normalize, THREE.divideScalar. apply dot_multiplyScalar. Qed.

(** The displacement of a spawn point, taken along [v]. *)
Lemma dot_spawn (pos back right upward v : Vector3) (c1 c2 c3 : R) :
  dot (THREE.sub (THREE.add (THREE.add pos (THREE.multiplyScalar back c1))
                            (THREE.add (THREE.multiplyScalar right c2)
                                       (THREE.multiplyScalar upward c3))) pos) v
  = c1 * dot back v + c2 * dot right v + c3 * dot upward v.
Proof.
  unfold dot, THREE.sub, THREE.add, THREE.multiplyScalar; cbn [THREE.x THREE.y THREE.z]. ring.
Qed.

(** The backward direction of a moving sphere points against the velocity,
    and the two axes of the ring are orthogonal to the velocity. *)
Section BackwardBasis.

Variable vel : Vector3.
Hypothesis vel_moving : 0 < THREE.length vel.

Let back : Vector3 := THREE.negate (THREE.normalize vel).
Let right : Vector3 := THREE.normalize (THREE.crossVectors back THREE.up).
Let upward : Vector3 := THREE.normalize (THREE.crossVectors right back).

Lemma back_components :
  THREE.x back = - (1 / THREE.length vel) * THREE.x vel /\
  THREE.y back = - (1 / THREE.length vel) * THREE.y vel /\
  THREE.z back = - (1 / THREE.length vel) * THREE.z vel.
Proof.
  unfold back. rewrite normalize_scales by exact vel_moving.
  unfold THREE.negate, THREE.multiplyScalar; cbn [THREE.x THREE.y THREE.z].
  repeat split; ring.
Qed.

Lemma dot_back : dot back vel = - THREE.length vel.
Proof.
  unfold back. rewrite dot_negate, dot_normalize, dot_self, <- length_sq.
  unfold THREE.or_else. destruct (Req_dec_T _ _); [lra|]. field. lra.
Qed.

Lemma dot_right : dot right vel = 0.
Proof.
  unfold right. rewrite dot_normalize.
  destruct back_components as (Hx & Hy & Hz).
  unfold dot, THREE.crossVectors, THREE.up; cbn [THREE.x THREE.y THREE.z].
  rewrite Hx, Hy, Hz. ring.
Qed.

Lemma dot_upward : dot upward vel = 0.
Proof.
  unfold upward. rewrite dot_normalize.
  destruct back_components as (Hx & Hy & Hz).
  unfold dot, THREE.crossVectors; cbn [THREE.x THREE.y THREE.z].
  rewrite Hx, Hy, Hz. ring.
Qed.

End BackwardBasis.

Lemma length_unit_x : THREE.length (Vec3 1 0 0) = 1.
Proof.
  unfold THREE.length, THREE.lengthSq; cbn [THREE.x THREE.y THREE.z].
  replace (1 * 1 + 0 * 0 + 0 * 0) with (1 * 1) by ring. apply sqrt_square. lra.
Qed.

(** X5.  ProperRibbons, [getBackSpawnPoints].  For a velocity longer than
    0.001, whatever its direction, every spawn point lies behind the
    sphere: its displacement from the sphere's position, taken along the
    velocity, is [-0.88] times the speed (the ring's axes are orthogonal
    to the velocity, also when they degenerate to the zero vector).  For a
    velocity no longer than 0.001 every spawn point lies 0.88 behind the
    sphere along the z axis. *)
Theorem back_spawn_points_lie_behind :
  forall cfg pos vel,
    let points := Traced.value (ProperRibbons.getBackSpawnPoints cfg pos vel) in
    (THREE.length vel > 0.001 ->
     Forall (fun s => dot (THREE.sub s pos) vel = - (1.1 * 0.8) * THREE.length vel) points) /\
    (THREE.length vel <= 0.001 ->
     Forall (fun s => THREE.z s - THREE.z pos = - (1.1 * 0.8)) points).
Proof.
  intros cfg pos vel points. subst points.
  rewrite getBackSpawnPoints_value. cbv zeta.
  split; intros Hlen; apply Forall_forall; intros s Hs;
    apply in_map_iff in Hs; destruct Hs as (i & <- & _);
    (destruct (Rgt_dec (THREE.length vel) 0.001) as [Hg | Hg]; [|try lra]); try lra.
  - assert (0 < THREE.length vel) as Hpos by lra.
    rewrite dot_spawn, dot_back, dot_right, dot_upward by exact Hpos. lra.
  - rewrite cross_back_default, normalize_unit_x, cross_right_default, normalize_unit_y.
    unfold THREE.add, THREE.multiplyScalar; cbn [THREE.x THREE.y THREE.z]. lra.
Qed.

Lemma back_spawn_points_lie_behind_witness :
  Forall (fun s => dot (THREE.sub s THREE.zero) (Vec3 1 0 0)
                   = - (1.1 * 0.8) * THREE.length (Vec3 1 0 0))
         (Traced.value (ProperRibbons.getBackSpawnPoints ProperRibbons.config
                          THREE.zero (Vec3 1 0 0))) /\
  Forall (fun s => THREE.z s - THREE.z THREE.zero = - (1.1 * 0.8))
         (Traced.value (ProperRibbons.getBackSpawnPoints ProperRibbons.config
                          THREE.zero THREE.zero)).
Proof.
  split.
  - apply (back_spawn_points_lie_behind ProperRibbons.config THREE.zero (Vec3 1 0 0)).
    rewrite length_unit_x. lra.
  - apply (back_spawn_points_lie_behind ProperRibbons.config THREE.zero THREE.zero).
    rewrite length_zero_vector. lra.
Defined.

Lemma getSpawnPoints_value cfg pos vel count :
  Traced.value (SpeedTrails.getSpawnPoints cfg pos vel count)
  = if Rlt_dec (THREE.length vel) 0.001 then
      map (fun i : nat =>
             let angle := INR i / INR count * PI * 2 in
             THREE.add pos (Vec3 (cos angle * SpeedTrails.SPAWN_DISTANCE cfg) 0
                                 (sin angle * SpeedTrails.SPAWN_DISTANCE cfg)))
          (seq 0 count)
    else
      let backwardDir := THREE.negate (THREE.normalize vel) in
      let rightDir := THREE.normalize (THREE.crossVectors backwardDir THREE.up) in
      let upDir := THREE.normalize (THREE.crossVectors rightDir backwardDir) in
      map (fun i : nat =>
             let angle := INR i / INR count * PI * 2 in
             let radius := SpeedTrails.SPAWN_DISTANCE cfg in
             THREE.add (THREE.add pos (THREE.multiplyScalar backwardDir (radius * 0.8)))
                       (THREE.add (THREE.multiplyScalar rightDir (cos angle * radius))
                                  (THREE.multiplyScalar upDir (sin angle * radius * 0.5))))
          (seq 0 count).
Proof.
  unfold SpeedTrails.getSpawnPoints. destruct (Rlt_dec _ _); [reflexivity|].
  repeat (progress (rewrite ?Traced_value_bind; cbv beta)). reflexivity.
Qed.

Lemma sin_cos_square (a : R) : cos a * cos a + sin a * sin a = 1.
Proof. pose proof (sin2_cos2 a) as H. unfold Rsqr in H. lra. Qed.

(** X6.  SpeedTrails, [getSpawnPoints].  At a speed of at least 0.001
    every spawn point lies behind the sphere, at [0.8 * SPAWN_DISTANCE]
    times the speed along the velocity.  Below that speed the spawn points
    lie at the sphere's height on the horizontal circle of radius
    [SPAWN_DISTANCE] around it. *)
Theorem spawn_points_lie_behind_or_around :
  forall cfg pos vel count,
    let points := Traced.value (SpeedTrails.getSpawnPoints cfg pos vel count) in
    (0.001 <= THREE.length vel ->
     Forall (fun s => dot (THREE.sub s pos) vel
                      = - (SpeedTrails.SPAWN_DISTANCE cfg * 0.8) * THREE.length vel) points) /\
    (THREE.length vel < 0.001 ->
     Forall (fun s => THREE.y s = THREE.y pos /\
                      (THREE.x s - THREE.x pos) * (THREE.x s - THREE.x pos)
                      + (THREE.z s - THREE.z pos) * (THREE.z s - THREE.z pos)
                      = SpeedTrails.SPAWN_DISTANCE cfg * SpeedTrails.SPAWN_DISTANCE cfg)
            points).
Proof.
  intros cfg pos vel count points. subst points.
  rewrite getSpawnPoints_value.
  split; intros Hlen; apply Forall_forall; intros s Hs;
    (destruct (Rlt_dec (THREE.length vel) 0.001) as [Hg | Hg]; [try lra|try lra]);
    cbv zeta in Hs; apply in_map_iff in Hs; destruct Hs as (i & <- & _).
  - assert (0 < THREE.length vel) as Hpos by lra.
    rewrite dot_spawn, dot_back, dot_right, dot_upward by exact Hpos. lra.
  - unfold THREE.add; cbn [THREE.x THREE.y THREE.z]. split; [ring|].
    set (a := INR i / INR count * PI * 2).
    set (d := SpeedTrails.SPAWN_DISTANCE cfg).
    replace ((THREE.x pos + cos a * d - THREE.x pos) * (THREE.x pos + cos a * d - THREE.x pos)
             + (THREE.z pos + sin a * d - THREE.z pos) * (THREE.z pos + sin a * d - THREE.z pos))
      with ((cos a * cos a + sin a * sin a) * (d * d)) by ring.
    rewrite sin_cos_square. ring.
Qed.

Lemma spawn_points_lie_behind_or_around_witness :
  Forall (fun s => dot (THREE.sub s THREE.zero) (Vec3 1 0 0)
                   = - (SpeedTrails.SPAWN_DISTANCE SpeedTrails.config * 0.8)
                     * THREE.length (Vec3 1 0 0))
         (Traced.value (SpeedTrails.getSpawnPoints SpeedTrails.config
                          THREE.zero (Vec3 1 0 0) 8)) /\
  Forall (fun s => THREE.y s = THREE.y THREE.zero /\
                   (THREE.x s - THREE.x THREE.zero) * (THREE.x s - THREE.x THREE.zero)
                   + (THREE.z s - THREE.z THREE.zero) * (THREE.z s - THREE.z THREE.zero)
                   = SpeedTrails.SPAWN_DISTANCE SpeedTrails.config
                     * SpeedTrails.SPAWN_DISTANCE SpeedTrails.config)
         (Traced.value (SpeedTrails.getSpawnPoints SpeedTrails.config
                          THREE.zero THREE.zero 8)).
Proof.
  split.
  - apply (spawn_points_lie_behind_or_around SpeedTrails.config THREE.zero (Vec3 1 0 0) 8).
    rewrite length_unit_x. lra.
  - apply (spawn_points_lie_behind_or_around SpeedTrails.config THREE.zero THREE.zero 8).
    rewrite length_zero_vector. lra.
Defined.

(** ** The corner offsets of the pooled variant *)

(** The blend of a corner offset with its rotation: [c], [s] are the
    cosine and sine of the corner angle, [a], [b] those of the yaw, [t] the
    velocity strength and [d] the spawn distance. *)
Lemma blended_offset_square (c s a b t d : R) :
  c * c + s * s = 1 -> a * a + b * b = 1 ->
  let fx := THREE.lerp (c * d) (c * d * a - s * d * b) t in
  let fz := THREE.lerp (s * d) (c * d * b + s * d * a) t in
  fx * fx + fz * fz = d * d * ((1 - t) * (1 - t) + t * t + 2 * t * (1 - t) * a).
Proof.
  intros Hcs Hab fx fz. subst fx fz. unfold THREE.lerp.
  transitivity
    (d * d * ((1 - t) * (1 - t) * (c * c + s * s)
              + t * t * ((c * c + s * s) * (a * a + b * b))
              + 2 * t * (1 - t) * a * (c * c + s * s))); [ring|].
  rewrite Hcs, Hab. ring.
Qed.

Lemma cos_at_most_one (a : R) : cos a <= 1.
Proof. destruct (COS_bound a); assumption. Qed.

(** X7.  OptimizedRibbons, [calculateSpawnOffset].  For every velocity and
    ribbon index the offset lies at the corner's height and its horizontal
    part is never longer than [SPAWN_DISTANCE]; it is exactly that long
    when the speed is at most 0.001 (the static corner) and when it is at
    least 0.1 (the corner rotated with the movement). *)
Theorem spawn_offset_within_spawn_distance :
  forall cfg vel k,
    let o := OptimizedRibbons.calculateSpawnOffset cfg vel k in
    let d := OptimizedRibbons.SPAWN_DISTANCE cfg in
    THREE.y o = snd (nth k OptimizedRibbons.spawnAngles (0, 0)) /\
    THREE.x o * THREE.x o + THREE.z o * THREE.z o <= d * d /\
    (THREE.length vel <= 0.001 \/ 0.1 <= THREE.length vel ->
     THREE.x o * THREE.x o + THREE.z o * THREE.z o = d * d).
Proof.
  intros cfg vel k o d. subst o d.
  unfold OptimizedRibbons.calculateSpawnOffset. cbv zeta.
  set (angle := fst (nth k OptimizedRibbons.spawnAngles (0, 0))).
  set (d := OptimizedRibbons.SPAWN_DISTANCE cfg).
  set (yaw := Math.atan2 _ _).
  set (t := Rmin (THREE.length vel / 0.1) 1).
  assert (0 <= t <= 1) as Ht.
  { unfold t. pose proof (length_nonneg vel) as H0.
    unfold Rmin. destruct (Rle_dec _ _); lra. }
  assert (cos angle * d * (cos angle * d) + sin angle * d * (sin angle * d) = d * d) as Hstatic.
  { transitivity ((cos angle * cos angle + sin angle * sin angle) * (d * d)); [ring|].
    rewrite sin_cos_square. ring. }
  destruct (Rgt_dec (THREE.length vel) 0.001) as [Hg | Hg]; cbn [THREE.x THREE.y THREE.z].
  - pose proof (blended_offset_square (cos angle) (sin angle) (cos yaw) (sin yaw) t d
                  (sin_cos_square angle) (sin_cos_square yaw)) as Hsq.
    cbv zeta in Hsq. rewrite Hsq.
    pose proof (cos_at_most_one yaw) as Hc.
    pose proof (Rle_0_sqr d) as Hd. unfold Rsqr in Hd.
    refine (conj eq_refl (conj _ _)).
    + assert (2 * t * (1 - t) * cos yaw <= 2 * t * (1 - t)) as Hmix.
      { assert (0 <= 2 * t * (1 - t)) as Hp by nra. nra. }
      assert ((1 - t) * (1 - t) + t * t + 2 * t * (1 - t) * cos yaw <= 1) as Hle by nra.
      nra.
    + intros [Hslow | Hfast]; [lra|].
      assert (t = 1) as ->.
      { unfold t, Rmin. destruct (Rle_dec _ _) as [Hle | Hle]; lra. }
      ring.
  - refine (conj eq_refl (conj _ _)).
    + rewrite Hstatic. apply Rle_refl.
    + intros _. exact Hstatic.
Qed.

Lemma spawn_offset_within_spawn_distance_witness :
  let o := OptimizedRibbons.calculateSpawnOffset OptimizedRibbons.config THREE.zero 0 in
  THREE.x o * THREE.x o + THREE.z o * THREE.z o = 0.8 * 0.8.
Proof.
  cbv zeta.
  destruct (spawn_offset_within_spawn_distance OptimizedRibbons.config THREE.zero 0)
    as (_ & _ & Hlong).
  apply Hlong. left. rewrite length_zero_vector. lra.
Defined.

(** * Further properties of the builders *)

(** ** Fading *)

Lemma Rmax_between (a b : R) : a <= 1 -> b <= 1 -> Rmax a b <= 1.
Proof. intros Ha Hb. unfold Rmax. destruct (Rle_dec a b); assumption. Qed.

(** X8.  ProperRibbons, on a path of at least two points ordered newest
    first and read with a clock that never runs backwards: the alpha that
    scales a point's colour is never negative and never increases from the
    newest point towards the oldest, and it is at most 1 for a point that is
    not stamped after the clock reading. *)
Theorem ribbon_fades_towards_the_tail :
  forall cfg path now,
    0 < ProperRibbons.TRAIL_LIFETIME cfg ->
    (2 <= List.length path)%nat ->
    newest_first path_timestamp path ->
    (forall i j, (i <= j)%nat -> now i <= now j) ->
    forall i j, (i <= j)%nat -> (j < List.length path)%nat ->
      0 <= ProperRibbons.alphaOf cfg path (now j) j
           <= ProperRibbons.alphaOf cfg path (now i) i /\
      (path_timestamp (ProperRibbons.pathAt path i) <= now i ->
       ProperRibbons.alphaOf cfg path (now i) i <= 1).
Proof.
  intros cfg path now HL Hn Hs Hclock i j Hij Hj.
  refine (conj (conj _ _) _).
  - unfold ProperRibbons.alphaOf. apply Rmult_le_pos.
    + apply Rmax_l.
    + eapply Rle_trans; [|apply Rmax_l]. lra.
  - now apply ProperRibbons_alpha_monotone.
  - intros Hstamp. unfold ProperRibbons.alphaOf.
    assert (0 <= ProperRibbons.ageFadeOf cfg (now i) (ProperRibbons.pathAt path i) <= 1) as Hage.
    { unfold ProperRibbons.ageFadeOf. split; [apply Rmax_l|].
      apply Rmax_between; [lra|].
      assert (0 <= (now i - path_timestamp (ProperRibbons.pathAt path i))
                   / ProperRibbons.TRAIL_LIFETIME cfg).
      { apply Rmult_le_pos; [lra|]. apply Rlt_le, Rinv_0_lt_compat, HL. }
      lra. }
    assert (0 <= ProperRibbons.positionFadeOf path i <= 1) as Hpos.
    { unfold ProperRibbons.positionFadeOf, ProperRibbons.progressOf.
      split; [eapply Rle_trans; [|apply Rmax_l]; lra|].
      apply Rmax_between; [lra|].
      assert (2 <= INR (List.length path)) as Hr.
      { replace 2 with (INR 2) by (cbn; lra). now apply le_INR. }
      assert (0 <= INR i / (INR (List.length path) - 1)).
      { apply Rmult_le_pos; [apply pos_INR|]. apply Rlt_le, Rinv_0_lt_compat. lra. }
      lra. }
    replace 1 with (1 * 1) by ring. apply Rmult_le_compat; lra.
Qed.

Lemma ribbon_fades_towards_the_tail_witness :
  let path := [ mkPathPoint (Vec3 1 0 0) 100 THREE.zero;
                mkPathPoint (Vec3 0 0 0) 0 THREE.zero ] in
  0 <= ProperRibbons.alphaOf ProperRibbons.config path 100 1
       <= ProperRibbons.alphaOf ProperRibbons.config path 100 0 /\
  (path_timestamp (ProperRibbons.pathAt path 0) <= 100 ->
   ProperRibbons.alphaOf ProperRibbons.config path 100 0 <= 1).
Proof.
  cbv zeta.
  apply (ribbon_fades_towards_the_tail ProperRibbons.config
           [ mkPathPoint (Vec3 1 0 0) 100 THREE.zero; mkPathPoint (Vec3 0 0 0) 0 THREE.zero ]
           (fun _ => 100)).
  - cbn. lra.
  - cbn. lia.
  - cbn. repeat split; repeat constructor; cbn; lra.
  - intros; lra.
  - lia.
  - cbn. lia.
Defined.

(** ** Which mesh a rebuild of ProperRibbons leaves in a slot *)

(** X9.  ProperRibbons, [updateRibbons] on a trail of at least two points:
    the mesh attached to slot [k] receives the geometry built for ribbon
    [k] exactly when at least one point of its path has an alpha of 0.01 or
    more; otherwise the slot keeps the geometry it had, so that a ribbon
    whose points have all faded stays as it was last drawn. *)
Theorem rebuild_replaces_a_mesh_only_by_a_drawn_one :
  forall cfg color now (st : ProperRibbons.State) k old,
    (2 <= List.length (ProperRibbons.trailHistory st))%nat ->
    nth_error (ProperRibbons.ribbonMeshes st) k = Some (Some old) ->
    let path := ProperRibbons.ribbonPath cfg (ProperRibbons.trailHistory st) k in
    nth_error (ProperRibbons.ribbonMeshes (ProperRibbons.updateRibbons cfg color now st)) k
    = Some (Some (if (0 <? pointsKept cfg path (now k))%nat
                  then ProperRibbons.buildRibbon cfg path (now k) (color k)
                  else old)).
Proof.
  intros cfg color now st k old Hlen Hk path.
  unfold ProperRibbons.updateRibbons; cbv zeta.
  destruct (Nat.ltb_spec (List.length (ProperRibbons.trailHistory st)) 2) as [Hlt | _]; [lia|].
  cbn [ProperRibbons.ribbonMeshes]. rewrite nth_error_mapi, Hk. cbn [option_map].
  fold path.
  rewrite (fold_pathStep_positions cfg path (now k) (color k) (seq 0 (List.length path))
             emptyGeometry : List.length (positions (ProperRibbons.buildRibbon cfg path (now k)
                                                       (color k))) = _).
  cbn [emptyGeometry positions List.length Nat.add]. fold (pointsKept cfg path (now k)).
  destruct (pointsKept cfg path (now k)) as [|n]; reflexivity.
Qed.

Lemma rebuild_replaces_a_mesh_only_by_a_drawn_one_witness :
  let st := ProperRibbons.mkState expired_trail THREE.zero THREE.zero [Some emptyGeometry] in
  let path := ProperRibbons.ribbonPath ProperRibbons.config expired_trail 0 in
  nth_error (ProperRibbons.ribbonMeshes
               (ProperRibbons.updateRibbons ProperRibbons.config (fun _ => white)
                  (fun _ _ => 5000) st)) 0
  = Some (Some (if (0 <? pointsKept ProperRibbons.config path (fun _ => 5000%R))%nat
                then ProperRibbons.buildRibbon ProperRibbons.config path (fun _ => 5000) white
                else emptyGeometry)).
Proof.
  cbv zeta.
  apply (rebuild_replaces_a_mesh_only_by_a_drawn_one ProperRibbons.config (fun _ => white)
           (fun _ _ => 5000)
           (ProperRibbons.mkState expired_trail THREE.zero THREE.zero [Some emptyGeometry])
           0%nat emptyGeometry).
  - cbn. lia.
  - reflexivity.
Defined.

(** ** The strips of SpeedRibbons *)

Lemma pushColor_length (l : list R) (c : Color) :
  List.length (pushColor l c) = (List.length l + 3)%nat.
Proof. unfold pushColor. rewrite length_app. reflexivity. Qed.

Lemma SpeedRibbons_prefix_counts cfg color trail ribbonIndex (m : nat) :
  let out := fold_left (SpeedRibbons.stripStep cfg color trail ribbonIndex) (seq 0 m)
                       emptyGeometry in
  List.length (colors out) = (6 * m)%nat /\
  List.length (indices out) = (6 * (m - 1))%nat.
Proof.
  induction m as [|m IH]; [cbn; split; reflexivity|].
  rewrite seq_S, fold_left_app. cbn [Nat.add fold_left].
  destruct IH as (Hc & Hi). cbv zeta in Hc, Hi.
  set (acc := fold_left (SpeedRibbons.stripStep cfg color trail ribbonIndex) (seq 0 m)
                        emptyGeometry) in *.
  unfold SpeedRibbons.stripStep; cbv zeta. cbn [colors indices].
  rewrite !pushColor_length, Hc. split; [lia|].
  destruct (Nat.ltb_spec 0 m) as [Hm | Hm].
  - rewrite length_app, Hi. cbn [List.length]. lia.
  - rewrite Hi. lia.
Qed.

(** X10.  SpeedRibbons, "Create ribbon strip following the trail": the
    strip built over a trail of [n] samples has [2 n] vertices, as many
    colours, and [6 (n - 1)] triangle indices, and every index names one of
    the [2 n] vertices.  No sample is ever skipped: this variant computes a
    fade and does not use it. *)
Theorem SpeedRibbons_strip_shape :
  forall cfg color trail ribbonIndex,
    let strip := SpeedRibbons.buildStrip cfg color trail ribbonIndex in
    vertexCountOf strip = (2 * List.length trail)%nat /\
    List.length (colors strip) = List.length (positions strip) /\
    List.length (indices strip) = (6 * (List.length trail - 1))%nat /\
    indices_in_range strip.
Proof.
  intros cfg color trail ribbonIndex strip. subst strip.
  destruct (SpeedRibbons_prefix_in_range cfg color trail ribbonIndex (List.length trail))
    as (Hp & _).
  destruct (SpeedRibbons_prefix_counts cfg color trail ribbonIndex (List.length trail))
    as (Hc & Hi).
  cbv zeta in Hp, Hc, Hi. unfold SpeedRibbons.buildStrip, vertexCountOf.
  rewrite Hp, Hc, Hi. refine (conj _ (conj eq_refl (conj eq_refl _))).
  - replace (6 * List.length trail)%nat with ((2 * List.length trail) * 3)%nat by lia.
    now rewrite Nat.div_mul.
  - apply SpeedRibbons_indices_in_range.
Qed.

Lemma mapi_from_twice {A : Type} (f : nat -> A -> A) (l : list A) : forall k,
  (forall i a, f i (f i a) = f i a) ->
  mapi_from k f (mapi_from k f l) = mapi_from k f l.
Proof.
  induction l as [|a l IH]; intros k Hf; cbn [mapi_from]; [reflexivity|].
  now rewrite Hf, IH.
Qed.

Lemma SpeedRibbons_rebuild_twice cfg color st :
  SpeedRibbons.updateRibbonGeometries cfg color (SpeedRibbons.updateRibbonGeometries cfg color st)
  = SpeedRibbons.updateRibbonGeometries cfg color st.
Proof.
  unfold SpeedRibbons.updateRibbonGeometries at 2; cbv zeta.
  destruct (Nat.ltb_spec (List.length (SpeedRibbons.trailHistory st)) 2) as [Hlt | Hge].
  - unfold SpeedRibbons.updateRibbonGeometries; cbv zeta.
    destruct (Nat.ltb_spec (List.length (SpeedRibbons.trailHistory st)) 2); [reflexivity | lia].
  - unfold SpeedRibbons.updateRibbonGeometries; cbv zeta.
    cbn [SpeedRibbons.trailHistory SpeedRibbons.lastPosition SpeedRibbons.geometries].
    destruct (Nat.ltb_spec (List.length (SpeedRibbons.trailHistory st)) 2); [lia|].
    f_equal. unfold mapi. apply mapi_from_twice.
    intros i a. destruct (0 <? _)%nat; reflexivity.
Qed.

(** X11.  SpeedRibbons, the frame callback: the frame is the recording
    step, the pruning pass and one rebuild.  The callback's second,
    conditional call of [updateRibbonGeometries] never changes anything,
    since a rebuild only depends on the trail, which the first call leaves
    as it is. *)
Theorem SpeedRibbons_frame_is_record_prune_rebuild :
  forall cfg color sp clk (st : SpeedRibbons.State),
    SpeedRibbons.useFrame cfg color true (Some sp) clk st
    = SpeedRibbons.updateRibbonGeometries cfg color
        (SpeedRibbons.prune cfg (t_prune clk) (SpeedRibbons.record cfg sp (t_record clk) st)).
Proof.
  intros cfg color sp clk st.
  unfold SpeedRibbons.useFrame; cbv zeta; simpl negb; cbv iota.
  set (st2 := SpeedRibbons.prune cfg (t_prune clk) (SpeedRibbons.record cfg sp (t_record clk) st)).
  assert (SpeedRibbons.updateRibbonGeometries cfg color st2 = st2
          \/ (1 <= List.length (SpeedRibbons.trailHistory st2))%nat) as Hcase.
  { destruct (Nat.ltb_spec (List.length (SpeedRibbons.trailHistory st2)) 2) as [Hlt | Hge].
    - left. unfold SpeedRibbons.updateRibbonGeometries; cbv zeta.
      destruct (Nat.ltb_spec (List.length (SpeedRibbons.trailHistory st2)) 2); [reflexivity | lia].
    - right. lia. }
  destruct (Nat.leb_spec 1 (List.length (SpeedRibbons.trailHistory st2))) as [H1 | H1].
  - destruct (_ || _)%bool; [apply SpeedRibbons_rebuild_twice | reflexivity].
  - destruct Hcase as [Hsame | Hge]; [|lia].
    destruct (_ || _)%bool; [reflexivity | now rewrite Hsame].
Qed.

(** ** The pooled arrays *)

(** X12.  OptimizedRibbons, whatever the frames, as long as the clock
    never runs backwards: a rebuild over the trail the component holds
    never needs more room than the arrays allocated once for it, whichever
    ribbon is built and whatever the clock reads; the vertex and index
    counters stay within [MAX_TRAIL_POINTS * 6 * 3 = 360] numbers and
    [MAX_TRAIL_POINTS * 6 = 120] indices, so that no write falls outside
    the typed arrays. *)
Theorem pooled_rebuild_fits_the_allocated_arrays :
  forall t0 frames, clock_chain t0 frames ->
    let st := run_OptimizedRibbons frames
                (OptimizedRibbons.initialState OptimizedRibbons.config) in
    forall ribbonIndex currentTime scratch,
      let out := OptimizedRibbons.buildSegments OptimizedRibbons.config
                   (OptimizedRibbons.trailHistory st) ribbonIndex currentTime scratch in
      (OptimizedRibbons.vertexCount out * 3 <= 360)%nat /\
      (OptimizedRibbons.indexCount out <= 120)%nat.
Proof.
  intros t0 frames Hc st ribbonIndex currentTime scratch.
  destruct (run_OptimizedRibbons_inv frames t0
              (OptimizedRibbons.initialState OptimizedRibbons.config) Hc) as (Hlen & _).
  { unfold pooled_inv; cbn. repeat split; try constructor; lia. }
  exact (pooled_prefix_fits OptimizedRibbons.config (OptimizedRibbons.trailHistory st)
           ribbonIndex currentTime scratch Hlen).
Qed.

Lemma pooled_rebuild_fits_the_allocated_arrays_witness :
  clock_chain 0 [first_frame; moving_frame] /\
  (let st := run_OptimizedRibbons [first_frame; moving_frame]
               (OptimizedRibbons.initialState OptimizedRibbons.config) in
   let out := OptimizedRibbons.buildSegments OptimizedRibbons.config
                (OptimizedRibbons.trailHistory st) 0 16
                (OptimizedRibbons.freshBuffers OptimizedRibbons.config) in
   (OptimizedRibbons.vertexCount out * 3 <= 360)%nat /\
   (OptimizedRibbons.indexCount out <= 120)%nat).
Proof.
  assert (clock_chain 0 [first_frame; moving_frame]) as Hc by (cbn; lra).
  split; [exact Hc|].
  exact (pooled_rebuild_fits_the_allocated_arrays 0 [first_frame; moving_frame] Hc 0%nat 16
           (OptimizedRibbons.freshBuffers OptimizedRibbons.config)).
Defined.

(** X13.  OptimizedRibbons, "Update all ribbon geometries" on a trail of
    at least two points: afterwards the draw range of each of the four
    geometries counts six indices for every segment whose age fade exceeds
    0.01 at the clock reading of its ribbon; a ribbon none of whose
    segments passes is left with a draw range of 0 and is not drawn. *)
Theorem rebuild_sets_every_draw_range :
  forall cfg now (st : OptimizedRibbons.State) g0 g1 g2 g3,
    (2 <= List.length (OptimizedRibbons.trailHistory st))%nat ->
    OptimizedRibbons.ribbonGeometries st = [g0; g1; g2; g3] ->
    map OptimizedRibbons.drawCount
        (OptimizedRibbons.ribbonGeometries (OptimizedRibbons.updateAll cfg now st))
    = map (fun i => Some (6 * segmentsKept cfg (OptimizedRibbons.trailHistory st) (now i))%nat)
          [0; 1; 2; 3]%nat /\
    forall i, (i < 4)%nat ->
      segmentsKept cfg (OptimizedRibbons.trailHistory st) (now i) = 0%nat ->
      nth i (map OptimizedRibbons.drawCount
               (OptimizedRibbons.ribbonGeometries (OptimizedRibbons.updateAll cfg now st))) None
      = Some 0%nat.
Proof.
  intros cfg now st g0 g1 g2 g3 Hlen Hg.
  pose proof (updateAll_drawCounts cfg now st g0 g1 g2 g3 Hlen Hg) as H.
  split; [exact H|].
  intros i Hi Hzero. rewrite H.
  do 4 (destruct i as [|i]; [cbn [map nth]; now rewrite Hzero|]). lia.
Qed.

Lemma rebuild_sets_every_draw_range_witness :
  let st := OptimizedRibbons.mkState expired_trail THREE.zero THREE.zero 0 true
              (OptimizedRibbons.freshBuffers OptimizedRibbons.config)
              (repeat (OptimizedRibbons.freshGeometry OptimizedRibbons.config) 4) in
  map OptimizedRibbons.drawCount
      (OptimizedRibbons.ribbonGeometries
         (OptimizedRibbons.updateAll OptimizedRibbons.config (fun _ => 5000) st))
  = map (fun i => Some (6 * segmentsKept OptimizedRibbons.config expired_trail 5000%R)%nat)
        [0; 1; 2; 3]%nat.
Proof.
  cbv zeta.
  apply (rebuild_sets_every_draw_range OptimizedRibbons.config (fun _ => 5000)
           (OptimizedRibbons.mkState expired_trail THREE.zero THREE.zero 0 true
              (OptimizedRibbons.freshBuffers OptimizedRibbons.config)
              (repeat (OptimizedRibbons.freshGeometry OptimizedRibbons.config) 4))
           (OptimizedRibbons.freshGeometry OptimizedRibbons.config)
           (OptimizedRibbons.freshGeometry OptimizedRibbons.config)
           (OptimizedRibbons.freshGeometry OptimizedRibbons.config)
           (OptimizedRibbons.freshGeometry OptimizedRibbons.config)).
  - cbn. lia.
  - reflexivity.
Defined.

(** ** The dangling indices of SpeedTrails, in general *)

(** X14.  SpeedTrails, "Build ribbon geometry from path" on any path of at
    least two points: the oldest point has alpha 0 whatever the clock reads
    and is never emitted; and whenever some point has an alpha above 0.01,
    so that the rebuild draws something, the index list names a vertex that
    was not emitted. *)
Theorem speedtrails_drawn_ribbon_has_a_dangling_index :
  forall cfg path now color,
    (2 <= List.length path)%nat ->
    (forall t, SpeedTrails.alphaOf cfg path t (List.length path - 1) = 0) /\
    ((exists i, (i < List.length path)%nat /\ 0.01 < SpeedTrails.alphaOf cfg path (now i) i) ->
     ~ indices_in_range (SpeedTrails.buildRibbon cfg path now color)).
Proof.
  intros cfg path now color Hn. split.
  - intros t.
    unfold SpeedTrails.alphaOf, SpeedTrails.positionFadeOf, SpeedTrails.progressOf.
    rewrite minus_INR by lia. cbn [INR].
    assert (2 <= INR (List.length path)) as Hr.
    { replace 2 with (INR 2) by (cbn; lra). apply le_INR. exact Hn. }
    replace ((INR (List.length path) - 1) / (INR (List.length path) - 1)) with 1 by (field; lra).
    replace (Rmax 0 (1 - 1 * 1.2)) with 0 by (unfold Rmax; destruct (Rle_dec _ _); lra).
    ring.
  - intros (i & Hi & Halpha).
    apply SpeedTrails_indices_dangle; [exact Hn|].
    exists i. split; [exact Hi|].
    unfold trail_point_kept. apply negb_true_iff, Rleb_false. exact Halpha.
Qed.

Lemma speedtrails_drawn_ribbon_has_a_dangling_index_witness :
  let path := [ mkPathPoint (Vec3 1 0 0) 100 THREE.zero;
                mkPathPoint (Vec3 0 0 0) 0 THREE.zero ] in
  (forall t, SpeedTrails.alphaOf SpeedTrails.config path t (List.length path - 1) = 0) /\
  ((exists i, (i < List.length path)%nat
              /\ 0.01 < SpeedTrails.alphaOf SpeedTrails.config path 100 i) ->
   ~ indices_in_range (SpeedTrails.buildRibbon SpeedTrails.config path (fun _ => 100) white)).
Proof.
  cbv zeta.
  apply (speedtrails_drawn_ribbon_has_a_dangling_index SpeedTrails.config
           [ mkPathPoint (Vec3 1 0 0) 100 THREE.zero; mkPathPoint (Vec3 0 0 0) 0 THREE.zero ]
           (fun _ => 100) white).
  cbn. lia.
Defined.

(** * The recorded velocity *)

Lemma multiplyScalar_divideScalar (d : Vector3) (delta : R) :
  delta <> 0 -> THREE.multiplyScalar (THREE.divideScalar d delta) delta = d.
Proof.
  intros H. destruct d as [a b0 c].
  unfold THREE.divideScalar, THREE.multiplyScalar; cbn [THREE.x THREE.y THREE.z].
  f_equal; field; exact H.
Qed.

(** X15.  The velocity stored with a recorded sample.  In ProperRibbons,
    OptimizedRibbons and SpeedTrails a sample that passes the movement
    guard is stored with the velocity the state keeps afterwards; for a
    positive frame delta that velocity times the delta is the displacement
    from the last recorded position.  For a delta that is not positive the
    three differ: ProperRibbons stores the zero vector, OptimizedRibbons
    the displacement itself, SpeedTrails the velocity it had before. *)
Theorem velocity_of_a_recorded_sample :
  forall sp delta now,
    (forall cfg (st : ProperRibbons.State),
       THREE.distanceTo sp (ProperRibbons.lastPosition st) > ProperRibbons.MOVEMENT_THRESHOLD cfg ->
       let st1 := ProperRibbons.record cfg sp delta now st in
       ProperRibbons.trailHistory st1
       = inserted (ProperRibbons.MAX_TRAIL_LENGTH cfg)
           (mkTrailPoint sp (ProperRibbons.lastVelocity st1) now) (ProperRibbons.trailHistory st) /\
       (delta > 0 -> THREE.multiplyScalar (ProperRibbons.lastVelocity st1) delta
                     = THREE.sub sp (ProperRibbons.lastPosition st)) /\
       (delta <= 0 -> ProperRibbons.lastVelocity st1 = THREE.zero)) /\
    (forall cfg (st : OptimizedRibbons.State),
       OptimizedRibbons.MOVEMENT_THRESHOLD cfg
         <= THREE.distanceTo sp (OptimizedRibbons.lastPosition st) ->
       let st1 := fst (OptimizedRibbons.updateTrailHistory cfg sp delta now st) in
       OptimizedRibbons.trailHistory st1
       = inserted (OptimizedRibbons.MAX_TRAIL_POINTS cfg)
           (mkTrailPoint sp (OptimizedRibbons.lastVelocity st1) now)
           (OptimizedRibbons.trailHistory st) /\
       (delta > 0 -> THREE.multiplyScalar (OptimizedRibbons.lastVelocity st1) delta
                     = THREE.sub sp (OptimizedRibbons.lastPosition st)) /\
       (delta <= 0 -> OptimizedRibbons.lastVelocity st1
                      = THREE.sub sp (OptimizedRibbons.lastPosition st))) /\
    (forall cfg (st : SpeedTrails.State),
       THREE.distanceTo sp (SpeedTrails.lastPosition st) > 0.001 ->
       let st1 := SpeedTrails.record cfg sp delta now st in
       SpeedTrails.trailHistory st1
       = inserted (SpeedTrails.MAX_TRAIL_POINTS cfg)
           (mkTrailPoint sp (SpeedTrails.currentVelocity st1) now) (SpeedTrails.trailHistory st) /\
       (delta > 0 -> THREE.multiplyScalar (SpeedTrails.currentVelocity st1) delta
                     = THREE.sub sp (SpeedTrails.lastPosition st)) /\
       (delta <= 0 -> SpeedTrails.currentVelocity st1 = SpeedTrails.currentVelocity st)).
Proof.
  intros sp delta now. refine (conj _ (conj _ _)); intros cfg st Hd st1; subst st1.
  - unfold ProperRibbons.record; cbv zeta.
    destruct (Rgt_dec _ _) as [_ | Hn]; [|contradiction].
    cbn [ProperRibbons.trailHistory ProperRibbons.lastVelocity].
    refine (conj eq_refl (conj _ _)); intros Hdelta;
      destruct (Rgt_dec delta 0) as [Hp | Hp]; try lra.
    + apply multiplyScalar_divideScalar. lra.
    + reflexivity.
  - unfold OptimizedRibbons.updateTrailHistory; cbv zeta.
    destruct (Rlt_dec _ _) as [Hn | _]; [lra|].
    cbn [fst OptimizedRibbons.trailHistory OptimizedRibbons.lastVelocity].
    refine (conj eq_refl (conj _ _)); intros Hdelta;
      destruct (Rgt_dec delta 0) as [Hp | Hp]; try lra.
    + apply multiplyScalar_divideScalar. lra.
    + reflexivity.
  - unfold SpeedTrails.record; cbv zeta.
    destruct (Rgt_dec _ _) as [_ | Hn]; [|contradiction].
    cbn [SpeedTrails.trailHistory SpeedTrails.currentVelocity].
    refine (conj eq_refl (conj _ _)); intros Hdelta;
      destruct (Rgt_dec delta 0) as [Hp | Hp]; try lra.
    + apply multiplyScalar_divideScalar. lra.
    + reflexivity.
Qed.

Lemma velocity_of_a_recorded_sample_witness :
  let st := seeded_ProperRibbons in
  let st1 := ProperRibbons.record ProperRibbons.config (Vec3 1 0 0) (1 / 60) 16 st in
  ProperRibbons.trailHistory st1
  = inserted 15 (mkTrailPoint (Vec3 1 0 0) (ProperRibbons.lastVelocity st1) 16)
      (ProperRibbons.trailHistory st) /\
  (1 / 60 > 0 -> THREE.multiplyScalar (ProperRibbons.lastVelocity st1) (1 / 60)
                 = THREE.sub (Vec3 1 0 0) (ProperRibbons.lastPosition st)) /\
  (1 / 60 <= 0 -> ProperRibbons.lastVelocity st1 = THREE.zero).
Proof.
  cbv zeta.
  destruct (velocity_of_a_recorded_sample (Vec3 1 0 0) (1 / 60) 16) as (HP & _ & _).
  apply (HP ProperRibbons.config seeded_ProperRibbons).
  unfold seeded_ProperRibbons. cbn [ProperRibbons.initializeTrail ProperRibbons.initialState
    ProperRibbons.trailHistory List.length Nat.eqb ProperRibbons.lastPosition].
  rewrite distanceTo_along_x by lra. cbn. lra.
Defined.

(** * The width of a strip *)

(** X16.  ProperRibbons, the two vertices emitted for path point [i] of a
    path of at least two points, for a ribbon width that is not negative:
    they are [RIBBON_WIDTH * (1 - 0.3 * progress)] apart, the width
    tapering from the full width at the newest point to 0.7 of it at the
    oldest, whenever the direction of the path there is not vertical; when
    it is vertical the two vertices coincide. *)
Theorem strip_width_tapers :
  forall cfg path i,
    0 <= ProperRibbons.RIBBON_WIDTH cfg ->
    (2 <= List.length path)%nat -> (i < List.length path)%nat ->
    let across := THREE.crossVectors (ProperRibbons.directionAt path i) THREE.up in
    let tapered := ProperRibbons.RIBBON_WIDTH cfg * (1 - ProperRibbons.progressOf path i * 0.3) in
    ProperRibbons.RIBBON_WIDTH cfg * 0.7 <= tapered <= ProperRibbons.RIBBON_WIDTH cfg /\
    (0 < THREE.length across ->
     THREE.distanceTo (left_edge cfg path i) (right_edge cfg path i) = tapered) /\
    (THREE.length across = 0 ->
     THREE.distanceTo (left_edge cfg path i) (right_edge cfg path i) = 0).
Proof.
  intros cfg path i HW Hn Hi across tapered. subst tapered.
  assert (0 <= ProperRibbons.progressOf path i <= 1) as Hp.
  { unfold ProperRibbons.progressOf.
    assert (2 <= INR (List.length path)) as Hr.
    { replace 2 with (INR 2) by (cbn; lra). now apply le_INR. }
    assert (INR i <= INR (List.length path) - 1) as Hle.
    { replace (INR (List.length path) - 1) with (INR (List.length path - 1))
        by (rewrite minus_INR by lia; cbn; lra).
      apply le_INR. lia. }
    pose proof (pos_INR i) as H0.
    set (n1 := INR (List.length path) - 1) in *.
    assert (0 < n1) as Hn1 by (unfold n1; lra).
    split.
    - apply Rmult_le_pos; [exact H0|]. apply Rlt_le, Rinv_0_lt_compat, Hn1.
    - apply (Rmult_le_reg_r n1); [exact Hn1|].
      unfold Rdiv. rewrite Rmult_assoc, Rinv_l by lra. lra. }
  set (p := ProperRibbons.progressOf path i) in *.
  set (W := ProperRibbons.RIBBON_WIDTH cfg) in *.
  assert (0 <= W * 0.5 * (1 - p * 0.3)) as Hs by nra.
  unfold left_edge, right_edge. rewrite distanceTo_sub_add.
  unfold ProperRibbons.widthAt. fold across. fold p. fold W.
  rewrite length_multiplyScalar, Rabs_right by lra.
  refine (conj _ (conj _ _)).
  - split; nra.
  - intros Hacross. rewrite length_normalize by exact Hacross. lra.
  - intros Hacross. rewrite normalize_zero_length by exact Hacross. rewrite Hacross. lra.
Qed.

Lemma strip_width_tapers_witness :
  let path := [ mkPathPoint (Vec3 1 0 0) 100 THREE.zero;
                mkPathPoint (Vec3 0 0 0) 0 THREE.zero ] in
  let across := THREE.crossVectors (ProperRibbons.directionAt path 0) THREE.up in
  let tapered := 0.2 * (1 - ProperRibbons.progressOf path 0 * 0.3) in
  0.2 * 0.7 <= tapered <= 0.2 /\
  (0 < THREE.length across ->
   THREE.distanceTo (left_edge ProperRibbons.config path 0)
                    (right_edge ProperRibbons.config path 0) = tapered) /\
  (THREE.length across = 0 ->
   THREE.distanceTo (left_edge ProperRibbons.config path 0)
                    (right_edge ProperRibbons.config path 0) = 0).
Proof.
  cbv zeta.
  apply (strip_width_tapers ProperRibbons.config
           [ mkPathPoint (Vec3 1 0 0) 100 THREE.zero; mkPathPoint (Vec3 0 0 0) 0 THREE.zero ] 0).
  - cbn. lra.
  - cbn. lia.
  - cbn. lia.
Defined.

(** * The frame counter of the pooled variant *)

Lemma OptimizedRibbons_useFrame_frameCounter cfg mode p delta clk st :
  OptimizedRibbons.is_off mode = false ->
  OptimizedRibbons.frameCounter (OptimizedRibbons.useFrame cfg true mode (Some p) delta clk st)
  = if OptimizedRibbons.isInitialized st
    then S (OptimizedRibbons.frameCounter st) else OptimizedRibbons.frameCounter st.
Proof.
  intros Hm. destruct (OptimizedRibbons.isInitialized st) eqn:Hi.
  - destruct (Rlt_dec (THREE.distanceTo p (OptimizedRibbons.lastPosition st))
                      (OptimizedRibbons.MOVEMENT_THRESHOLD cfg)) as [Hd | Hd].
    + destruct (Nat.eq_dec (S (OptimizedRibbons.frameCounter st)
                            mod OptimizedRibbons.UPDATE_FREQUENCY cfg) 0) as [Hc | Hc].
      * rewrite OptimizedRibbons_useFrame_scheduled by assumption.
        destruct (OptimizedRibbons_updateAll_frame cfg (fun i => t_build clk i 0%nat)
                    (OptimizedRibbons.prune cfg (t_prune clk) (tick st))) as (_ & H & _).
        cbv zeta in H. rewrite H. reflexivity.
      * rewrite OptimizedRibbons_useFrame_idle by assumption. reflexivity.
    + assert (OptimizedRibbons.MOVEMENT_THRESHOLD cfg
              <= THREE.distanceTo p (OptimizedRibbons.lastPosition st)) as Hd' by lra.
      rewrite OptimizedRibbons_useFrame_recorded by assumption.
      match goal with
      | |- OptimizedRibbons.frameCounter (OptimizedRibbons.updateAll ?c ?n ?s) = _ =>
          destruct (OptimizedRibbons_updateAll_frame c n s) as (_ & H & _)
      end.
      cbv zeta in H. rewrite H.
      destruct (OptimizedRibbons_updateTrailHistory_reached cfg p delta (t_record clk) (tick st) Hd')
        as [vel ->].
      reflexivity.
  - rewrite OptimizedRibbons_useFrame_first by assumption. reflexivity.
Qed.

(** X17.  OptimizedRibbons: the frame counter counts the frames after the
    one that initialises the component, whatever the sphere does and
    whether or not a frame rebuilds.  After [n + 1] enabled frames from the
    initial state the counter is [n], so that the scheduled rebuilds fall
    on the frames 4, 7, 10, ... of a run. *)
Theorem frame_counter_counts_the_frames_after_the_first :
  forall frames f,
    let st := run_OptimizedRibbons (f :: frames)
                (OptimizedRibbons.initialState OptimizedRibbons.config) in
    OptimizedRibbons.frameCounter st = List.length frames /\
    OptimizedRibbons.isInitialized st = true.
Proof.
  intros frames f.
  assert (forall (st : OptimizedRibbons.State),
            OptimizedRibbons.isInitialized st = true ->
            OptimizedRibbons.frameCounter (run_OptimizedRibbons frames st)
            = (OptimizedRibbons.frameCounter st + List.length frames)%nat /\
            OptimizedRibbons.isInitialized (run_OptimizedRibbons frames st) = true) as Hrun.
  { induction frames as [|g rest IH]; intros st Hi.
    - cbn. split; [lia | exact Hi].
    - unfold run_OptimizedRibbons in *. cbn [fold_left List.length].
      destruct (IH (OptimizedRibbons.useFrame OptimizedRibbons.config true OptimizedRibbons.both
                      (Some (f_position g)) (f_delta g) (f_clock g) st)) as (Hc & Hi').
      { now apply OptimizedRibbons_useFrame_initialized. }
      rewrite Hc, OptimizedRibbons_useFrame_frameCounter, Hi by reflexivity.
      split; [lia | exact Hi']. }
  cbv zeta. unfold run_OptimizedRibbons in *. cbn [fold_left].
  destruct (Hrun (OptimizedRibbons.useFrame OptimizedRibbons.config true OptimizedRibbons.both
                    (Some (f_position f)) (f_delta f) (f_clock f)
                    (OptimizedRibbons.initialState OptimizedRibbons.config))) as (Hc & Hi).
  { now apply OptimizedRibbons_useFrame_initialized. }
  rewrite Hc, OptimizedRibbons_useFrame_frameCounter by reflexivity.
  split; [reflexivity | exact Hi].
Qed.

(** * What a rebuild leaves in the arrays *)

(** ** The pooled variant: the scratch arrays are shared *)

(** The indices of [m] consecutive segments. *)
Definition segmentsIndices (m : nat) : list nat :=
  flat_map (fun j => segmentIndices (4 * j)) (seq 0 m).

Lemma segmentsIndices_S (m : nat) :
  segmentsIndices (S m) = segmentsIndices m ++ segmentIndices (4 * m).
Proof.
  unfold segmentsIndices. rewrite seq_S, flat_map_app. cbn [Nat.add flat_map].
  now rewrite app_nil_r.
Qed.

Section PooledContent.

Variable cfg : OptimizedRibbons.Config.
Variable trail : list TrailPoint.
Variable ribbonIndex : nat.
Variable currentTime : R.

(** The valid prefixes of the three scratch arrays hold [ps], [cs] and the
    indices of [m] segments. *)
Definition holds (acc : OptimizedRibbons.Loop) (ps cs : list R) (m : nat) : Prop :=
  OptimizedRibbons.vertexCount acc = (4 * m)%nat /\
  OptimizedRibbons.indexCount acc = (6 * m)%nat /\
  firstn (12 * m) (OptimizedRibbons.buf_positions (OptimizedRibbons.bufs acc)) = ps /\
  firstn (12 * m) (OptimizedRibbons.buf_colors (OptimizedRibbons.bufs acc)) = cs /\
  firstn (6 * m) (OptimizedRibbons.buf_indices (OptimizedRibbons.bufs acc)) = segmentsIndices m.

Lemma fold_segmentStep_holds (ks : list nat) : forall acc ps cs m,
  holds acc ps cs m ->
  let kept := filter (segment_kept cfg trail currentTime) ks in
  (12 * (m + List.length kept)
   <= List.length (OptimizedRibbons.buf_positions (OptimizedRibbons.bufs acc)))%nat ->
  (12 * (m + List.length kept)
   <= List.length (OptimizedRibbons.buf_colors (OptimizedRibbons.bufs acc)))%nat ->
  (6 * (m + List.length kept)
   <= List.length (OptimizedRibbons.buf_indices (OptimizedRibbons.bufs acc)))%nat ->
  holds (fold_left (OptimizedRibbons.segmentStep cfg trail ribbonIndex currentTime) ks acc)
        (ps ++ flat_map (segmentPositions cfg trail ribbonIndex) kept)
        (cs ++ flat_map (segmentColors cfg trail ribbonIndex currentTime) kept)
        (m + List.length kept).
Proof.
  induction ks as [|i ks IH]; intros acc ps cs m Hacc kept; subst kept; cbn [fold_left filter].
  - intros _ _ _. cbn [flat_map List.length]. now rewrite !app_nil_r, Nat.add_0_r.
  - destruct (segment_kept cfg trail currentTime i) eqn:Hk.
    + cbn [List.length flat_map]. intros Hp Hc Hi.
      destruct Hacc as (Hv & Hx & Hps & Hcs & Hidx).
      rewrite segmentStep_kept by exact Hk.
      replace (m + S (List.length (filter (segment_kept cfg trail currentTime) ks)))%nat
        with (S m + List.length (filter (segment_kept cfg trail currentTime) ks))%nat in * by lia.
      rewrite !app_assoc.
      apply IH; cbn [OptimizedRibbons.bufs OptimizedRibbons.buf_positions
                     OptimizedRibbons.buf_colors OptimizedRibbons.buf_indices];
        rewrite ?store_block_length; try assumption.
      unfold holds.
      cbn [OptimizedRibbons.vertexCount OptimizedRibbons.indexCount OptimizedRibbons.bufs
           OptimizedRibbons.buf_positions OptimizedRibbons.buf_colors
           OptimizedRibbons.buf_indices].
      rewrite Hv, Hx. refine (conj _ (conj _ (conj _ (conj _ _)))); try lia.
      * replace (12 * S m)%nat
          with (4 * m * 3 + List.length (segmentPositions cfg trail ribbonIndex i))%nat
          by (cbn [segmentPositions List.length]; lia).
        rewrite store_block_prefix by (cbn [segmentPositions List.length]; lia).
        replace (4 * m * 3)%nat with (12 * m)%nat by lia. now rewrite Hps.
      * replace (12 * S m)%nat
          with (4 * m * 3 + List.length (segmentColors cfg trail ribbonIndex currentTime i))%nat
          by (cbn [segmentColors List.length]; lia).
        rewrite store_block_prefix by (cbn [segmentColors List.length]; lia).
        replace (4 * m * 3)%nat with (12 * m)%nat by lia. now rewrite Hcs.
      * replace (6 * S m)%nat with (6 * m + List.length (segmentIndices (4 * m)))%nat
          by (cbn [segmentIndices List.length]; lia).
        rewrite store_block_prefix by (cbn [segmentIndices List.length]; lia).
        now rewrite Hidx, segmentsIndices_S.
    + rewrite segmentStep_skipped by exact Hk. now apply IH.
Qed.

End PooledContent.

Lemma array_set_prefix {A : Type} (src l : list A) :
  (List.length src <= List.length l)%nat ->
  firstn (List.length src) (array_set src l) = src.
Proof.
  intros H. unfold array_set. rewrite firstn_firstn.
  replace (Nat.min (List.length src) (List.length l)) with (List.length src) by lia.
  rewrite firstn_app, Nat.sub_diag, firstn_all. cbn [firstn]. now rewrite app_nil_r.
Qed.

Lemma subarray_length {A : Type} (n : nat) (l : list A) :
  (n <= List.length l)%nat -> List.length (subarray n l) = n.
Proof. intros H. unfold subarray. rewrite length_firstn. lia. Qed.

(** X18.  OptimizedRibbons, [updateRibbonGeometry]: the four ribbons share
    one set of scratch arrays, and what a rebuild uploads never depends on
    what they held.  For a trail of at most [MAX_TRAIL_POINTS] samples and
    arrays of the allocated sizes, whatever the scratch arrays contain, the
    uploaded geometry starts with the twelve position numbers and the
    twelve colour numbers of each emitted segment, in trail order, and
    with the indices (4j, 4j+1, 4j+2, 4j+1, 4j+3, 4j+2) of the j-th emitted
    segment, and its draw range counts exactly these indices. *)
Theorem pooled_upload_is_the_emitted_segments :
  forall cfg trail ribbonIndex currentTime scratch geometry,
    (List.length trail <= OptimizedRibbons.MAX_TRAIL_POINTS cfg)%nat ->
    List.length (OptimizedRibbons.buf_positions scratch) = OptimizedRibbons.capacity3 cfg ->
    List.length (OptimizedRibbons.buf_colors scratch) = OptimizedRibbons.capacity3 cfg ->
    List.length (OptimizedRibbons.buf_indices scratch) = OptimizedRibbons.capacityIdx cfg ->
    List.length (OptimizedRibbons.attr_position geometry) = OptimizedRibbons.capacity3 cfg ->
    List.length (OptimizedRibbons.attr_color geometry) = OptimizedRibbons.capacity3 cfg ->
    List.length (OptimizedRibbons.attr_index geometry) = OptimizedRibbons.capacityIdx cfg ->
    let kept := filter (segment_kept cfg trail currentTime) (seq 0 (List.length trail - 1)) in
    let uploaded :=
      OptimizedRibbons.upload
        (OptimizedRibbons.buildSegments cfg trail ribbonIndex currentTime scratch) geometry in
    firstn (12 * List.length kept) (OptimizedRibbons.attr_position uploaded)
    = flat_map (segmentPositions cfg trail ribbonIndex) kept /\
    firstn (12 * List.length kept) (OptimizedRibbons.attr_color uploaded)
    = flat_map (segmentColors cfg trail ribbonIndex currentTime) kept /\
    firstn (6 * List.length kept) (OptimizedRibbons.attr_index uploaded)
    = segmentsIndices (List.length kept) /\
    OptimizedRibbons.drawCount uploaded = Some (6 * List.length kept)%nat.
Proof.
  intros cfg trail ribbonIndex currentTime scratch geometry Hlen Hsp Hsc Hsi Hgp Hgc Hgi
    kept uploaded.
  assert (List.length kept <= List.length trail - 1)%nat as Hkept.
  { unfold kept. etransitivity; [apply filter_length_le|]. now rewrite length_seq. }
  unfold OptimizedRibbons.capacity3, OptimizedRibbons.capacityIdx in *.
  destruct (fold_segmentStep_holds cfg trail ribbonIndex currentTime
              (seq 0 (List.length trail - 1)) (OptimizedRibbons.mkLoop scratch 0 0) [] [] 0)
    as (Hv & Hx & Hps & Hcs & Hidx).
  - unfold holds; cbn. repeat split; reflexivity.
  - cbn [OptimizedRibbons.bufs Nat.add]. fold kept. lia.
  - cbn [OptimizedRibbons.bufs Nat.add]. fold kept. lia.
  - cbn [OptimizedRibbons.bufs Nat.add]. fold kept. lia.
  - fold kept in Hv, Hx, Hps, Hcs, Hidx. cbn [Nat.add app] in Hv, Hx, Hps, Hcs, Hidx.
    fold (OptimizedRibbons.buildSegments cfg trail ribbonIndex currentTime scratch)
      in Hv, Hx, Hps, Hcs, Hidx.
    set (out := OptimizedRibbons.buildSegments cfg trail ribbonIndex currentTime scratch) in *.
    assert (List.length (OptimizedRibbons.buf_positions (OptimizedRibbons.bufs out))
            = List.length (OptimizedRibbons.buf_positions scratch) /\
            List.length (OptimizedRibbons.buf_colors (OptimizedRibbons.bufs out))
            = List.length (OptimizedRibbons.buf_colors scratch) /\
            List.length (OptimizedRibbons.buf_indices (OptimizedRibbons.bufs out))
            = List.length (OptimizedRibbons.buf_indices scratch)) as (Lp & Lc & Li).
    { unfold out, OptimizedRibbons.buildSegments.
      assert (forall ks acc,
                let r := fold_left (OptimizedRibbons.segmentStep cfg trail ribbonIndex
                                      currentTime) ks acc in
                List.length (OptimizedRibbons.buf_positions (OptimizedRibbons.bufs r))
                = List.length (OptimizedRibbons.buf_positions (OptimizedRibbons.bufs acc)) /\
                List.length (OptimizedRibbons.buf_colors (OptimizedRibbons.bufs r))
                = List.length (OptimizedRibbons.buf_colors (OptimizedRibbons.bufs acc)) /\
                List.length (OptimizedRibbons.buf_indices (OptimizedRibbons.bufs r))
                = List.length (OptimizedRibbons.buf_indices (OptimizedRibbons.bufs acc)))
        as Hfold.
      { induction ks as [|i ks IH]; intros acc; cbn [fold_left]; [repeat split; reflexivity|].
        destruct (IH (OptimizedRibbons.segmentStep cfg trail ribbonIndex currentTime acc i))
          as (H1 & H2 & H3). cbv zeta in *. rewrite H1, H2, H3.
        destruct (segment_kept cfg trail currentTime i) eqn:Hk.
        - rewrite segmentStep_kept by exact Hk.
          cbn [OptimizedRibbons.bufs OptimizedRibbons.buf_positions OptimizedRibbons.buf_colors
               OptimizedRibbons.buf_indices].
          rewrite !store_block_length. repeat split; reflexivity.
        - rewrite segmentStep_skipped by exact Hk. repeat split; reflexivity. }
      exact (Hfold _ _). }
    subst uploaded. unfold OptimizedRibbons.upload. rewrite Hv, Hx.
    destruct (Nat.ltb_spec 0 (4 * List.length kept)) as [Hpos | Hzero].
    + cbn [OptimizedRibbons.attr_position OptimizedRibbons.attr_color
           OptimizedRibbons.attr_index OptimizedRibbons.drawCount].
      replace (4 * List.length kept * 3)%nat with (12 * List.length kept)%nat by lia.
      unfold subarray at 1 2 3.
      refine (conj _ (conj _ (conj _ eq_refl))).
      * rewrite Hps.
        rewrite <- (array_set_prefix (flat_map (segmentPositions cfg trail ribbonIndex) kept)
                      (OptimizedRibbons.attr_position geometry)) at 2.
        -- f_equal. rewrite <- Hps. rewrite length_firstn. lia.
        -- rewrite <- Hps. rewrite length_firstn. lia.
      * rewrite Hcs.
        rewrite <- (array_set_prefix
                      (flat_map (segmentColors cfg trail ribbonIndex currentTime) kept)
                      (OptimizedRibbons.attr_color geometry)) at 2.
        -- f_equal. rewrite <- Hcs. rewrite length_firstn. lia.
        -- rewrite <- Hcs. rewrite length_firstn. lia.
      * rewrite Hidx.
        rewrite <- (array_set_prefix (segmentsIndices (List.length kept))
                      (OptimizedRibbons.attr_index geometry)) at 2.
        -- f_equal. rewrite <- Hidx. rewrite length_firstn. lia.
        -- rewrite <- Hidx. rewrite length_firstn. lia.
    + assert (List.length kept = 0%nat) as Hk0 by lia.
      cbn [OptimizedRibbons.attr_position OptimizedRibbons.attr_color
           OptimizedRibbons.attr_index OptimizedRibbons.drawCount].
      rewrite Hk0. destruct kept; [|discriminate].
      cbn. repeat split; reflexivity.
Qed.

Lemma pooled_upload_is_the_emitted_segments_witness :
  let cfg := OptimizedRibbons.config in
  let trail := [level_newest; level_oldest] in
  let kept := filter (segment_kept cfg trail 100) (seq 0 (List.length trail - 1)) in
  let uploaded :=
    OptimizedRibbons.upload
      (OptimizedRibbons.buildSegments cfg trail 0 100 (OptimizedRibbons.freshBuffers cfg))
      (OptimizedRibbons.freshGeometry cfg) in
  firstn (12 * List.length kept) (OptimizedRibbons.attr_position uploaded)
  = flat_map (segmentPositions cfg trail 0) kept /\
  firstn (12 * List.length kept) (OptimizedRibbons.attr_color uploaded)
  = flat_map (segmentColors cfg trail 0 100) kept /\
  firstn (6 * List.length kept) (OptimizedRibbons.attr_index uploaded)
  = segmentsIndices (List.length kept) /\
  OptimizedRibbons.drawCount uploaded = Some (6 * List.length kept)%nat.
Proof.
  cbv zeta.
  apply (pooled_upload_is_the_emitted_segments OptimizedRibbons.config
           [level_newest; level_oldest] 0 100
           (OptimizedRibbons.freshBuffers OptimizedRibbons.config)
           (OptimizedRibbons.freshGeometry OptimizedRibbons.config)).
  - cbn. lia.
  - apply repeat_length.
  - apply repeat_length.
  - apply repeat_length.
  - apply repeat_length.
  - apply repeat_length.
  - apply repeat_length.
Defined.

(** ** ProperRibbons: the arrays of a strip *)

Lemma fold_pathStep_content cfg path now color (ks : list nat) : forall acc,
  let kept := filter (point_kept cfg path now) ks in
  let out := fold_left (ProperRibbons.pathStep cfg path now color) ks acc in
  positions out
  = positions acc
    ++ flat_map (fun i => let l := left_edge cfg path i in
                          let r := right_edge cfg path i in
                          [THREE.x l; THREE.y l; THREE.z l; THREE.x r; THREE.y r; THREE.z r])
                kept /\
  colors out
  = colors acc
    ++ flat_map (fun i => let c := THREE.scaleColor color
                                     (ProperRibbons.alphaOf cfg path (now i) i) in
                          [THREE.r c; THREE.g c; THREE.b c; THREE.r c; THREE.g c; THREE.b c])
                kept.
Proof.
  induction ks as [|i ks IH]; intros acc; cbn [fold_left filter].
  - cbn [flat_map]. now rewrite !app_nil_r.
  - destruct (point_kept cfg path now i) eqn:Hk.
    + destruct (IH (ProperRibbons.pathStep cfg path now color acc i)) as (Hp & Hc).
      cbv zeta in *. rewrite Hp, Hc, pathStep_kept by exact Hk.
      cbn [positions colors flat_map]. unfold push3, pushColor.
      rewrite <- !app_assoc. cbn [app]. split; reflexivity.
    + rewrite pathStep_skipped by exact Hk. apply IH.
Qed.

(** X19.  ProperRibbons, "Create ribbon mesh from path": for every path,
    clock and colour the position array of the built geometry is, for each
    point whose alpha is at least 0.01 and in path order, the left edge
    followed by the right edge of that point, and the colour array is the
    ribbon's colour scaled by the point's alpha, twice; nothing else is
    written, and a skipped point leaves no gap. *)
Theorem strip_arrays_are_the_kept_points :
  forall cfg path now color,
    let kept := filter (point_kept cfg path now) (seq 0 (List.length path)) in
    let built := ProperRibbons.buildRibbon cfg path now color in
    positions built
    = flat_map (fun i => let l := left_edge cfg path i in
                         let r := right_edge cfg path i in
                         [THREE.x l; THREE.y l; THREE.z l; THREE.x r; THREE.y r; THREE.z r])
               kept /\
    colors built
    = flat_map (fun i => let c := THREE.scaleColor color
                                    (ProperRibbons.alphaOf cfg path (now i) i) in
                         [THREE.r c; THREE.g c; THREE.b c; THREE.r c; THREE.g c; THREE.b c])
               kept.
Proof.
  intros cfg path now color kept built. subst kept built.
  unfold ProperRibbons.buildRibbon.
  destruct (fold_pathStep_content cfg path now color (seq 0 (List.length path)) emptyGeometry)
    as (Hp & Hc).
  cbv zeta in Hp, Hc. rewrite Hp, Hc. split; reflexivity.
Qed.

(** * MovingSphere and the swarm button *)

Import String.

(** ** The sphere's height *)

(** X20.  MovingSphere, the frame callback: whatever the state, the scene
    and the raycast, a position passed to [onSphereMove] is the sphere's
    new position and is never lower than 1.2; when the ray hits the base
    mesh at height [h] under the sphere's new place, the sphere's height is
    exactly [max(0, h) + 1.2]. *)
Theorem sphere_keeps_its_height_above_the_ground :
  forall intersectObject scene (st : MovingSphere.State),
    let out := MovingSphere.useFrame MovingSphere.config intersectObject scene st in
    match snd out with
    | None => True
    | Some moved =>
        MovingSphere.sphere (fst out) = Some moved /\
        1.2 <= THREE.y moved /\
        forall mesh g a h,
          MovingSphere.baseMesh (fst out) = Some mesh ->
          MovingSphere.geometry mesh = Some g ->
          MovingSphere.attributes g = Some a ->
          MovingSphere.has_position a = true ->
          intersectObject mesh (THREE.x moved) (THREE.z moved) = MovingSphere.Hits h ->
          THREE.y moved = Rmax 0 h + 1.2
    end.
Proof.
  intros io scene st out. subst out. unfold MovingSphere.useFrame.
  destruct (MovingSphere.sphere st) as [p|]; [|exact I].
  destruct (negb (MovingSphere.isInitialized st)); [exact I|].
  destruct (MovingSphere.findBaseMesh scene st) as [base returns].
  destruct returns; [exact I|].
  cbv zeta. cbn [fst snd MovingSphere.sphere MovingSphere.baseMesh THREE.x THREE.y THREE.z].
  refine (conj eq_refl (conj (Rmax_l _ _) _)).
  intros mesh g a h -> Hg Ha Hp Hhit.
  unfold MovingSphere.targetSphereYOf. rewrite Hg, Ha, Hp, Hhit. cbv zeta.
  cbn [MovingSphere.SPHERE_HEIGHT_OFFSET MovingSphere.config].
  pose proof (Rmax_l 0 h) as H0.
  unfold Rmax at 1. destruct (Rle_dec 1.2 (Rmax 0 h + 1.2)); lra.
Qed.

(** ** The sphere's way to its target *)

Definition moving (st : MovingSphere.State) : Prop :=
  MovingSphere.isInitialized st = true /\
  MovingSphere.baseMesh st <> None /\
  MovingSphere.sphere st <> None.

(** The horizontal offset of the sphere from its target. *)
Definition offset_x (st : MovingSphere.State) : R :=
  match MovingSphere.sphere st with
  | Some p => THREE.x p - THREE.x (MovingSphere.sphereTarget st)
  | None => 0
  end.

Definition offset_z (st : MovingSphere.State) : R :=
  match MovingSphere.sphere st with
  | Some p => THREE.z p - THREE.z (MovingSphere.sphereTarget st)
  | None => 0
  end.

Lemma MovingSphere_useFrame_moving cfg io scene st :
  moving st ->
  let st' := fst (MovingSphere.useFrame cfg io scene st) in
  moving st' /\
  MovingSphere.sphereTarget st' = MovingSphere.sphereTarget st /\
  offset_x st' = (1 - MovingSphere.SPHERE_MOVE_SPEED cfg) * offset_x st /\
  offset_z st' = (1 - MovingSphere.SPHERE_MOVE_SPEED cfg) * offset_z st.
Proof.
  intros (Hi & Hb & Hs). unfold offset_x, offset_z, MovingSphere.useFrame.
  destruct (MovingSphere.sphere st) as [p|]; [|congruence].
  rewrite Hi. cbn [negb]. unfold MovingSphere.findBaseMesh.
  destruct (MovingSphere.baseMesh st) as [m|] eqn:Hm; [|congruence].
  cbv zeta. cbn [fst MovingSphere.sphere MovingSphere.sphereTarget THREE.x THREE.y THREE.z].
  unfold moving. cbn [MovingSphere.isInitialized MovingSphere.baseMesh MovingSphere.sphere].
  unfold THREE.lerp.
  repeat split; try congruence; try ring.
Qed.

(** X21.  MovingSphere, over any number of frames without a pointer
    event, once the component is initialised and its base mesh cached:
    each frame takes the sphere one hundredth of the way to its target in
    [x] and in [z], so that after [n] frames its horizontal offset from the
    target is [0.99 ^ n] times what it was, and the target stays where
    it is. *)
Theorem sphere_closes_in_on_its_target :
  forall intersectObject scenes (st : MovingSphere.State),
    moving st ->
    let st' := MovingSphere.run MovingSphere.config intersectObject
                 (map MovingSphere.Frame scenes) st in
    MovingSphere.sphereTarget st' = MovingSphere.sphereTarget st /\
    offset_x st' = (1 - 0.01) ^ List.length scenes * offset_x st /\
    offset_z st' = (1 - 0.01) ^ List.length scenes * offset_z st.
Proof.
  intros io scenes. induction scenes as [|scene rest IH]; intros st Hm.
  - cbn. repeat split; ring.
  - cbn [map MovingSphere.run fold_left MovingSphere.step List.length pow].
    destruct (MovingSphere_useFrame_moving MovingSphere.config io scene st Hm)
      as (Hm' & Ht & Hx & Hz).
    cbv zeta in Hm', Ht, Hx, Hz.
    destruct (IH _ Hm') as (Ht' & Hx' & Hz'). cbv zeta in Ht', Hx', Hz'.
    unfold MovingSphere.run in Ht', Hx', Hz'.
    rewrite Ht', Hx', Hz', Ht, Hx, Hz.
    cbn [MovingSphere.SPHERE_MOVE_SPEED MovingSphere.config].
    repeat split; ring.
Qed.

(** An initialised sphere at the origin, its base mesh cached, its target
    one unit along [x]. *)
Definition ground_mesh : MovingSphere.Object3D :=
  MovingSphere.mkObject3D "Ground" true
    (Some (MovingSphere.mkSceneGeometry "BufferGeometry"
             (Some (MovingSphere.mkAttributes true)))).

Definition sphere_under_way : MovingSphere.State :=
  MovingSphere.mkState (Some (Vec3 0 1.2 0)) (Vec3 1 1.2 0) (Vec3 (-5) 0 0) true
    (Some ground_mesh) (Vec3 0 0 1) (Vec3 (-5) 2.4 0).

Lemma sphere_closes_in_on_its_target_witness :
  let st' := MovingSphere.run MovingSphere.config (fun _ _ _ => MovingSphere.Hits 0)
               (map MovingSphere.Frame [[ground_mesh]; [ground_mesh]]) sphere_under_way in
  MovingSphere.sphereTarget st' = MovingSphere.sphereTarget sphere_under_way /\
  offset_x st' = (1 - 0.01) ^ 2 * offset_x sphere_under_way /\
  offset_z st' = (1 - 0.01) ^ 2 * offset_z sphere_under_way.
Proof.
  apply (sphere_closes_in_on_its_target (fun _ _ _ => MovingSphere.Hits 0)
           [[ground_mesh]; [ground_mesh]] sphere_under_way).
  unfold moving. cbn. repeat split; discriminate.
Defined.

(** ** The movement direction *)

Lemma length_unit_z : THREE.length (Vec3 0 0 1) = 1.
Proof.
  unfold THREE.length, THREE.lengthSq; cbn [THREE.x THREE.y THREE.z].
  replace (0 * 0 + 0 * 0 + 1 * 1) with (1 * 1) by ring. apply sqrt_square. lra.
Qed.

Lemma MovingSphere_step_movementVector cfg io st e :
  THREE.length (MovingSphere.movementVector st) = 1 ->
  THREE.length (MovingSphere.movementVector (MovingSphere.step cfg io st e)) = 1.
Proof.
  intros H. destruct e as [hits | scene]; cbn [MovingSphere.step].
  - unfold MovingSphere.handlePointerMove. destruct hits; [exact H|]. exact H.
  - unfold MovingSphere.useFrame, MovingSphere.initializePositions.
    destruct (MovingSphere.sphere st) as [p|]; [|exact H].
    destruct (negb (MovingSphere.isInitialized st)); [exact H|].
    destruct (MovingSphere.findBaseMesh scene st) as [base returns].
    destruct returns; [exact H|].
    cbv zeta. cbn [fst MovingSphere.movementVector].
    destruct (Rlt_dec _ 0.1) as [Hnear | Hfar]; [exact H|].
    apply length_normalize. lra.
Qed.

(** X22.  MovingSphere: whatever pointer events and frames follow one
    another, the movement direction kept in [movementVectorRef] is a unit
    vector.  It starts as (0, 0, 1) and is only ever replaced by the
    normalised direction to a target at least 0.1 away. *)
Theorem movement_direction_is_a_unit_vector :
  forall cfg intersectObject camera events,
    THREE.length
      (MovingSphere.movementVector
         (MovingSphere.run cfg intersectObject events (MovingSphere.initialState cfg camera)))
    = 1.
Proof.
  intros cfg io camera events.
  assert (forall st, THREE.length (MovingSphere.movementVector st) = 1 ->
            THREE.length (MovingSphere.movementVector (MovingSphere.run cfg io events st)) = 1)
    as Hrun.
  { induction events as [|e rest IH]; intros st H; [exact H|].
    cbn [MovingSphere.run fold_left]. apply IH.
    now apply MovingSphere_step_movementVector. }
  apply Hrun. exact length_unit_z.
Qed.

(** ** Pointer events *)

Lemma lengthSq_normalize_le (v : Vector3) : THREE.lengthSq (THREE.normalize v) <= 1.
Proof.
  destruct (Req_dec_T (THREE.length v) 0) as [H0 | H0].
  - rewrite normalize_zero_length by exact H0.
    rewrite <- length_sq, H0. lra.
  - pose proof (length_nonneg v) as Hn.
    rewrite <- length_sq, length_normalize by lra. lra.
Qed.

(** X23.  MovingSphere, [handlePointerMove]: an event without
    intersections changes nothing; otherwise the target moves to the first
    hit point raised by 1.2, the sphere stays where it is, and the camera
    offset becomes a horizontal vector no longer than [CAMERA_DISTANCE = 5]
    (the direction is normalised before its height is dropped). *)
Theorem pointer_move_sets_target_and_level_offset :
  forall (st : MovingSphere.State),
    MovingSphere.handlePointerMove MovingSphere.config [] st = st /\
    forall hitPoint others,
      let st' := MovingSphere.handlePointerMove MovingSphere.config (hitPoint :: others) st in
      MovingSphere.sphereTarget st'
      = Vec3 (THREE.x hitPoint) (THREE.y hitPoint + 1.2) (THREE.z hitPoint) /\
      THREE.y (MovingSphere.cameraOffset st') = 0 /\
      THREE.length (MovingSphere.cameraOffset st') <= 5 /\
      MovingSphere.sphere st' = MovingSphere.sphere st.
Proof.
  intros st. split; [reflexivity|]. intros hitPoint others st'. subst st'.
  unfold MovingSphere.handlePointerMove; cbv zeta.
  cbn [MovingSphere.sphereTarget MovingSphere.cameraOffset MovingSphere.sphere
       MovingSphere.SPHERE_HEIGHT_OFFSET MovingSphere.CAMERA_DISTANCE MovingSphere.config].
  set (n := THREE.normalize (THREE.subVectors (MovingSphere.cameraPosition st) hitPoint)).
  refine (conj eq_refl (conj _ (conj _ eq_refl))).
  - unfold THREE.multiplyScalar; cbn [THREE.x THREE.y THREE.z]. lra.
  - rewrite length_multiplyScalar.
    replace (Rabs 5.0) with 5 by (rewrite Rabs_right; lra).
    assert (THREE.length (Vec3 (THREE.x n) 0 (THREE.z n)) <= 1) as Hle.
    { unfold THREE.length. rewrite <- sqrt_1. apply sqrt_le_1_alt.
      pose proof (lengthSq_normalize_le
                    (THREE.subVectors (MovingSphere.cameraPosition st) hitPoint)) as H.
      fold n in H. unfold THREE.lengthSq in *. cbn [THREE.x THREE.y THREE.z].
      pose proof (Rle_0_sqr (THREE.y n)) as Hy. unfold Rsqr in Hy. lra. }
    lra.
Qed.

(** ** The base mesh *)

Lemma last_default {A : Type} (l : list A) : forall (a d d' : A),
  List.last (a :: l) d = List.last (a :: l) d'.
Proof.
  induction l as [|b l IH]; intros a d d'; [reflexivity|].
  change (List.last (b :: l) d = List.last (b :: l) d'). apply IH.
Qed.

Lemma traverse_last (scene : list MovingSphere.Object3D) : forall found,
  MovingSphere.traverse scene found
  = List.last (map Some (filter MovingSphere.isGroundCandidate scene)) found.
Proof.
  induction scene as [|child rest IH]; intros found; [reflexivity|].
  unfold MovingSphere.traverse in *. cbn [fold_left filter].
  rewrite IH. destruct (MovingSphere.isGroundCandidate child); [|reflexivity].
  cbn [map]. destruct (map Some (filter MovingSphere.isGroundCandidate rest)) as [|o l];
    [reflexivity|].
  cbn [List.last]. apply last_default.
Qed.

Lemma isGroundCandidate_name (child : MovingSphere.Object3D) :
  MovingSphere.isGroundCandidate child = true ->
  MovingSphere.isMesh child = true /\
  includes (MovingSphere.name child) "grass" = false /\
  includes (MovingSphere.name child) "instance" = false /\
  includes (MovingSphere.name child) "ribbon" = false /\
  includes (MovingSphere.name child) "trail" = false /\
  includes (MovingSphere.name child) "particle" = false /\
  includes (MovingSphere.name child) "point" = false.
Proof.
  unfold MovingSphere.isGroundCandidate.
  destruct (MovingSphere.geometry child) as [g|]; [|discriminate].
  destruct (MovingSphere.attributes g) as [a|]; [|discriminate].
  cbv zeta. intros H.
  repeat match goal with
         | H : (_ && _)%bool = true |- _ => apply andb_prop in H; destruct H
         | H : negb _ = true |- _ => apply negb_true_iff in H
         end.
  repeat split; assumption.
Qed.

(** X24.  MovingSphere, "Find base mesh if not cached": a cached base mesh
    is never replaced by a frame; when the scene holds no mesh named
    Ground, the traversal leaves in the cache the last object, in traversal
    order, that passes the callback's test (each such object overwrites the
    one before), and that object is a mesh whose name contains none of
    grass, instance, ribbon, trail, particle and point, so that the ribbons
    are never taken for the ground. *)
Theorem base_mesh_is_cached_once :
  forall cfg intersectObject scene (st : MovingSphere.State),
    let st' := fst (MovingSphere.useFrame cfg intersectObject scene st) in
    (forall cached, MovingSphere.baseMesh st = Some cached ->
                    MovingSphere.baseMesh st' = Some cached) /\
    (MovingSphere.baseMesh st = None ->
     MovingSphere.isInitialized st = true -> MovingSphere.sphere st <> None ->
     MovingSphere.getObjectByName scene "Ground" = None ->
     MovingSphere.baseMesh st'
     = List.last (map Some (filter MovingSphere.isGroundCandidate scene)) None /\
     forall found, MovingSphere.baseMesh st' = Some found ->
       In found scene /\
       MovingSphere.isMesh found = true /\
       includes (MovingSphere.name found) "ribbon" = false /\
       includes (MovingSphere.name found) "trail" = false /\
       includes (MovingSphere.name found) "grass" = false).
Proof.
  intros cfg io scene st st'. subst st'. split.
  - intros cached Hc. unfold MovingSphere.useFrame, MovingSphere.initializePositions.
    destruct (MovingSphere.sphere st) as [p|]; [|exact Hc].
    destruct (negb (MovingSphere.isInitialized st)); [exact Hc|].
    unfold MovingSphere.findBaseMesh. rewrite Hc. reflexivity.
  - intros Hnone Hi Hs Hground.
    assert (MovingSphere.baseMesh (fst (MovingSphere.useFrame cfg io scene st))
            = MovingSphere.traverse scene None) as Hfound.
    { unfold MovingSphere.useFrame.
      destruct (MovingSphere.sphere st) as [p|]; [|congruence].
      rewrite Hi. cbn [negb]. unfold MovingSphere.findBaseMesh. rewrite Hnone, Hground.
      reflexivity. }
    rewrite Hfound, traverse_last. split; [reflexivity|].
    intros found Hlast.
    assert (In found (filter MovingSphere.isGroundCandidate scene)) as Hin.
    { destruct (filter MovingSphere.isGroundCandidate scene) as [|c l] eqn:Hf;
        [discriminate|].
      assert (In (Some found) (map Some (c :: l))) as Hmem.
      { rewrite <- Hlast.
        destruct (exists_last (l := map Some (c :: l)) ltac:(discriminate)) as (l' & a & ->).
        rewrite last_last. apply in_or_app. right. now left. }
      apply in_map_iff in Hmem. destruct Hmem as (y & Hy & Hin). congruence. }
    apply filter_In in Hin. destruct Hin as (Hin & Hcand).
    destruct (isGroundCandidate_name found Hcand) as (Hm & Hg & _ & Hr & Ht & _).
    repeat split; assumption.
Qed.

Definition ribbon_mesh : MovingSphere.Object3D :=
  MovingSphere.mkObject3D "ribbon-0" true
    (Some (MovingSphere.mkSceneGeometry "BufferGeometry"
             (Some (MovingSphere.mkAttributes true)))).

Definition terrain_mesh : MovingSphere.Object3D :=
  MovingSphere.mkObject3D "terrain" true
    (Some (MovingSphere.mkSceneGeometry "BufferGeometry"
             (Some (MovingSphere.mkAttributes true)))).

Definition sphere_without_base : MovingSphere.State :=
  MovingSphere.mkState (Some (Vec3 0 1.2 0)) (Vec3 1 1.2 0) (Vec3 (-5) 0 0) true
    None (Vec3 0 0 1) (Vec3 (-5) 2.4 0).

Lemma base_mesh_is_cached_once_witness :
  let st' := fst (MovingSphere.useFrame MovingSphere.config (fun _ _ _ => MovingSphere.Misses)
                    [terrain_mesh; ribbon_mesh] sphere_without_base) in
  MovingSphere.baseMesh st'
  = List.last (map Some (filter MovingSphere.isGroundCandidate [terrain_mesh; ribbon_mesh])) None /\
  forall found, MovingSphere.baseMesh st' = Some found ->
    In found [terrain_mesh; ribbon_mesh] /\
    MovingSphere.isMesh found = true /\
    includes (MovingSphere.name found) "ribbon" = false /\
    includes (MovingSphere.name found) "trail" = false /\
    includes (MovingSphere.name found) "grass" = false.
Proof.
  cbv zeta.
  apply (base_mesh_is_cached_once MovingSphere.config (fun _ _ _ => MovingSphere.Misses)
           [terrain_mesh; ribbon_mesh] sphere_without_base).
  - reflexivity.
  - reflexivity.
  - discriminate.
  - reflexivity.
Defined.

(** ** The states the swarm mode goes through *)

(** The three states [App] can be in, up to the controls panel. *)
Definition swarm_consistent (st : App.State) : Prop :=
  (App.swarmMode st = "normal"%string /\ App.isSwarmButtonDisabled st = false) \/
  (App.swarmMode st = "swarm"%string /\ App.isSwarmButtonDisabled st = false) \/
  (App.swarmMode st = "returning"%string /\ App.isSwarmButtonDisabled st = true).

Lemma cycleSwarmMode_consistent (st : App.State) :
  swarm_consistent st -> swarm_consistent (App.cycleSwarmMode st).
Proof.
  unfold swarm_consistent, App.cycleSwarmMode.
  destruct st as [mode dis ctl]; cbn [App.swarmMode App.isSwarmButtonDisabled App.showControls].
  intros [(-> & ->) | [(-> & ->) | (-> & ->)]]; cbn; tauto.
Qed.

Lemma step_consistent (st : App.State) (e : App.Event) :
  swarm_consistent st -> swarm_consistent (App.step st e).
Proof.
  intros H. destruct e as [|event|]; cbn [App.step].
  - unfold SwarmControl.handleClick.
    destruct (negb (App.isSwarmButtonDisabled st)); [now apply cycleSwarmMode_consistent | exact H].
  - unfold App.handleKeyPress.
    destruct (_ || _)%bool; [exact H|]. cbv zeta.
    assert (swarm_consistent
              (if (String.eqb (App.code event) "Space" && negb (App.repeat event))%bool
               then App.cycleSwarmMode st else st)) as H1.
    { destruct (_ && _)%bool; [now apply cycleSwarmMode_consistent | exact H]. }
    destruct (String.eqb (App.code event) "KeyC" && negb (App.repeat event))%bool; exact H1.
  - unfold swarm_consistent; cbn. tauto.
Qed.

Lemma run_consistent (events : list App.Event) : forall st,
  swarm_consistent st -> swarm_consistent (App.run events st).
Proof.
  induction events as [|e rest IH]; intros st H; [exact H|].
  cbn [App.run fold_left]. apply IH. now apply step_consistent.
Qed.

(** X25.  The swarm button of [App] and [SwarmControl]: whatever clicks,
    key presses and return completions follow one another from the initial
    state, the mode is one of normal, swarm and returning, the button is
    disabled exactly while the mode is returning, and what the button shows
    agrees with it: it is styled "disabled" exactly when it reads
    "Returning...", "swarm" exactly when it reads "Swarm: ON", and "normal"
    exactly when it reads "Swarm: OFF". *)
Theorem swarm_button_is_locked_exactly_while_returning :
  forall events,
    let st := App.run events App.initialState in
    (App.swarmMode st = "normal" \/ App.swarmMode st = "swarm"
     \/ App.swarmMode st = "returning")%string /\
    (App.isSwarmButtonDisabled st = true <-> App.swarmMode st = "returning"%string) /\
    (App.buttonClass st = "disabled" <-> App.buttonText st = "Returning...")%string /\
    (App.buttonClass st = "swarm" <-> App.buttonText st = "Swarm: ON")%string /\
    (App.buttonClass st = "normal" <-> App.buttonText st = "Swarm: OFF")%string.
Proof.
  intros events st.
  assert (swarm_consistent st) as H.
  { apply run_consistent. left. split; reflexivity. }
  unfold App.buttonClass, App.buttonText, SwarmControl.getModeClass, SwarmControl.getModeText.
  destruct H as [(-> & ->) | [(-> & ->) | (-> & ->)]]; cbn;
    repeat split; intros; try discriminate; try reflexivity; auto.
Qed.

(** X26.  The swarm button: while the button is disabled, no click and no
    key press changes the mode or enables the button; only the completion
    of the particles' return does, which sets the mode to normal. *)
Theorem only_the_return_ends_the_lock :
  forall events (st : App.State),
    App.isSwarmButtonDisabled st = true ->
    Forall (fun e => e <> App.ReturnComplete) events ->
    App.swarmMode (App.run events st) = App.swarmMode st /\
    App.isSwarmButtonDisabled (App.run events st) = true /\
    App.swarmMode (App.step (App.run events st) App.ReturnComplete) = "normal"%string /\
    App.isSwarmButtonDisabled (App.step (App.run events st) App.ReturnComplete) = false.
Proof.
  intros events. induction events as [|e rest IH]; intros st Hd Hev.
  - cbn. repeat split; assumption || reflexivity.
  - inversion Hev as [|? ? He Hrest]; subst.
    cbn [App.run fold_left].
    assert (App.swarmMode (App.step st e) = App.swarmMode st /\
            App.isSwarmButtonDisabled (App.step st e) = true) as (Hm & Hd').
    { destruct e as [|event|]; cbn [App.step]; [| |congruence].
      - unfold SwarmControl.handleClick. rewrite Hd. cbn. split; [reflexivity | exact Hd].
      - unfold App.handleKeyPress, App.cycleSwarmMode. rewrite Hd.
        destruct (_ || _)%bool; [split; [reflexivity | exact Hd]|]. cbv zeta.
        destruct (String.eqb (App.code event) "Space" && negb (App.repeat event))%bool;
          destruct (String.eqb (App.code event) "KeyC" && negb (App.repeat event))%bool;
          cbn; split; reflexivity || exact Hd. }
    destruct (IH (App.step st e) Hd' Hrest) as (H1 & H2 & H3 & H4).
    unfold App.run in *. rewrite H1, Hm. repeat split; assumption.
Qed.

Definition space_key : App.KeyEvent := App.mkKeyEvent "BODY" "Space" false.

Lemma only_the_return_ends_the_lock_witness :
  let st := App.mkState "returning" true false in
  let events := [App.Click; App.KeyDown space_key; App.Click] in
  App.swarmMode (App.run events st) = App.swarmMode st /\
  App.isSwarmButtonDisabled (App.run events st) = true /\
  App.swarmMode (App.step (App.run events st) App.ReturnComplete) = "normal"%string /\
  App.isSwarmButtonDisabled (App.step (App.run events st) App.ReturnComplete) = false.
Proof.
  cbv zeta.
  apply (only_the_return_ends_the_lock [App.Click; App.KeyDown space_key; App.Click]
           (App.mkState "returning" true false)).
  - reflexivity.
  - repeat constructor; discriminate.
Defined.
